(** * ServiceManager: the dependency graph engine (graphd/graph.c) and the
      unit state machine (restartd/unit.c), embedded and verified.

    Vertices live in an arena; a [vertex_t *] of the C code is an index into
    it.  Functions that recurse along graph edges carry a [fuel] argument that
    bounds the depth of the C call stack; functions that append to the global
    note queue return the notes they append, in order. *)

From stdpp Require Import base decidable numbers option list sets strings pretty.
From Stdlib Require Import ZArith Lia.

Local Open Scope Z_scope.

(** ** Outcome of a C call *)

(** [Abort]: an [assert] failed or [abort ()] was reached.
    [Undefined]: the C program left defined behaviour: it indexed an array
    out of its bounds, wrote past the end of a buffer, or went through a null
    or uninitialised pointer.
    [OutOfFuel]: the call depth exceeded the fuel given. *)
Inductive result (A : Type) : Type :=
  | Ok (a : A)
  | Abort
  | Undefined
  | OutOfFuel.
Arguments Ok {A} a.
Arguments Abort {A}.
Arguments Undefined {A}.
Arguments OutOfFuel {A}.

Definition bind {A B : Type} (m : result A) (k : A -> result B) : result B :=
  match m with
  | Ok a => k a
  | Abort => Abort
  | Undefined => Undefined
  | OutOfFuel => OutOfFuel
  end.

Notation "'do' x <- m ; k" := (bind m (fun x => k))
  (at level 10, x pattern, m at level 100, k at level 200).

(** [refines r r']: [r'] is what [r] becomes when run with more fuel. *)
Definition refines {A : Type} (r r' : result A) : Prop := r = OutOfFuel \/ r = r'.

(** The call came back, or stopped the program at a failed [assert]. *)
Definition halts {A : Type} (r : result A) : Prop :=
  match r with
  | Ok _ | Abort => True
  | Undefined | OutOfFuel => False
  end.

(** ** Types of the S16 library (its headers are not part of the sources; the
    types below are read off their uses in graph.c and unit.c) *)
Module S16.

Record S16Path : Type := S16PathNew { svc : string; inst : option string }.

Inductive S16DependencyGroupType : Type :=
  | kS16RequireAll
  | kS16RequireAny
  | kS16OptionalAll
  | kS16ExcludeAll.

Inductive S16DependencyGroupRestartOnCondition : Type :=
  | kS16RestartOnNone
  | kS16RestartOnError
  | kS16RestartOnRestart
  | kS16RestartOnRefresh
  | kS16RestartOnAny.

(** Modelled from the spec: the enumeration itself is declared in a header
    that is not among the sources.  The spec orders the intensities
    None < Error < Restart < Refresh < Any, and graph.c's own comment gives
    kS16RestartOnError the value 1 and kS16RestartOnRestart the value 2. *)
Definition restart_on_val (r : S16DependencyGroupRestartOnCondition) : Z :=
  match r with
  | kS16RestartOnNone => 0
  | kS16RestartOnError => 1
  | kS16RestartOnRestart => 2
  | kS16RestartOnRefresh => 3
  | kS16RestartOnAny => 4
  end.

Inductive S16State : Type :=
  | kS16StateUninitialised
  | kS16StateDisabled
  | kS16StateOffline
  | kS16StateOnline
  | kS16StateDegraded
  | kS16StateMaintenance.

#[global] Instance dg_type_eq_dec : EqDecision S16DependencyGroupType.
Proof. solve_decision. Defined.
#[global] Instance restart_on_eq_dec : EqDecision S16DependencyGroupRestartOnCondition.
Proof. solve_decision. Defined.
#[global] Instance state_eq_dec : EqDecision S16State.
Proof. solve_decision. Defined.
#[global] Instance path_eq_dec : EqDecision S16Path.
Proof. solve_decision. Defined.

Inductive s16note_admin_type_t : Type := A_ENABLE | A_DISABLE | A_REFRESH.

Inductive s16note_sc_type_t : Type :=
  | SC_ONLINE
  | SC_OFFLINE
  | SC_DISABLED
  | SC_DEGRADED
  | SC_MAINTENANCE.

Inductive s16note_rreq_type_t : Type := RR_START | RR_STOP.

(** A note's [note_type] says which enumeration its [type] field holds; the
    pair is one tagged value here. *)
Inductive s16note_type_t : Type :=
  | N_ADMIN_REQ (type : s16note_admin_type_t)
  | N_STATE_CHANGE (type : s16note_sc_type_t)
  | N_RREQ (type : s16note_rreq_type_t).

Record s16note_t : Type := s16note_new {
  note_type : s16note_type_t;
  path : S16Path;
  reason : Z
}.

#[global] Instance admin_type_eq_dec : EqDecision s16note_admin_type_t.
Proof. solve_decision. Defined.
#[global] Instance sc_type_eq_dec : EqDecision s16note_sc_type_t.
Proof. solve_decision. Defined.
#[global] Instance rreq_type_eq_dec : EqDecision s16note_rreq_type_t.
Proof. solve_decision. Defined.
#[global] Instance note_type_eq_dec : EqDecision s16note_type_t.
Proof. solve_decision. Defined.
#[global] Instance note_eq_dec : EqDecision s16note_t.
Proof. solve_decision. Defined.

(** The note queue: [s16note_list_add] appends at the tail. *)
Abbreviation s16note_list_t := (list s16note_t) (only parsing).
Definition s16note_list_add (l : s16note_list_t) (n : s16note_t) : s16note_list_t := l ++ [n].

End S16.

(** ** graphd/graph.c *)
Module Graph.
Import S16.

Inductive vertex_type_t : Type := V_SVC | V_INST | V_DEPGROUP.

#[global] Instance vertex_type_eq_dec : EqDecision vertex_type_t.
Proof. solve_decision. Defined.

(** A [vertex_t *]. *)
Abbreviation vertex_id := nat (only parsing).

Record edge_t : Type := edge_new { from : vertex_id; to : vertex_id }.

#[global] Instance edge_eq_dec : EqDecision edge_t.
Proof. solve_decision. Defined.

Record vertex_t : Type := mk_vertex {
  path : S16Path;
  type : vertex_type_t;
  dg_type : S16DependencyGroupType;
  restart_on : S16DependencyGroupRestartOnCondition;
  state : S16State;
  is_setup : bool;
  is_enabled : bool;
  to_offline : bool;
  to_disable : bool;
  dependencies : list edge_t;
  dependents : list edge_t
}.

Abbreviation vertex_list_t := (list vertex_id) (only parsing).

(** The heap of vertices. *)
Abbreviation graph_t := (list vertex_t) (only parsing).

(** What a pointer outside the arena reads as; every theorem that depends on
    the vertex being a real one says so. *)
Definition vertex_null : vertex_t :=
  mk_vertex (S16PathNew "" None) V_SVC kS16RequireAll kS16RestartOnNone
            kS16StateUninitialised false false false false [] [].

Definition vtx (g : graph_t) (v : vertex_id) : vertex_t :=
  default vertex_null (g !! v).

(** Field assignments. *)
Definition set_dependencies (es : list edge_t) (x : vertex_t) : vertex_t :=
  mk_vertex (path x) (type x) (dg_type x) (restart_on x) (state x) (is_setup x)
            (is_enabled x) (to_offline x) (to_disable x) es (dependents x).

Definition set_dependents (es : list edge_t) (x : vertex_t) : vertex_t :=
  mk_vertex (path x) (type x) (dg_type x) (restart_on x) (state x) (is_setup x)
            (is_enabled x) (to_offline x) (to_disable x) (dependencies x) es.

Definition set_state (s : S16State) (x : vertex_t) : vertex_t :=
  mk_vertex (path x) (type x) (dg_type x) (restart_on x) s (is_setup x)
            (is_enabled x) (to_offline x) (to_disable x) (dependencies x) (dependents x).

Definition set_to_offline (b : bool) (x : vertex_t) : vertex_t :=
  mk_vertex (path x) (type x) (dg_type x) (restart_on x) (state x) (is_setup x)
            (is_enabled x) b (to_disable x) (dependencies x) (dependents x).

Definition set_to_disable (b : bool) (x : vertex_t) : vertex_t :=
  mk_vertex (path x) (type x) (dg_type x) (restart_on x) (state x) (is_setup x)
            (is_enabled x) (to_offline x) b (dependencies x) (dependents x).

(** [p->field = ...] on the heap. *)
Definition store (f : vertex_t -> vertex_t) (v : vertex_id) (g : graph_t) : graph_t :=
  alter f v g.

(** ** Lists *)

(** Modelled from the spec: list.h is not part of the sources; edge lists are
    insertion-ordered, so [_add] appends at the tail, and [_lpush] pushes at the
    head. *)
Definition edge_list_add (l : list edge_t) (e : edge_t) : list edge_t := l ++ [e].
Definition vertex_list_add (l : vertex_list_t) (v : vertex_id) : vertex_list_t := l ++ [v].
Definition vertex_list_lpush (l : vertex_list_t) (v : vertex_id) : vertex_list_t := v :: l.
Definition vertex_list_find_eq (l : vertex_list_t) (v : vertex_id) : bool :=
  bool_decide (v ∈ l).
Definition vertex_list_size (l : vertex_list_t) : nat := length l.
Definition vertex_list_empty (l : vertex_list_t) : bool :=
  match l with [] => true | _ => false end.

(** ** Edges *)

Definition vtx_edge_add (g : graph_t) (v to_ : vertex_id) : graph_t :=
  let g1 :=
    store (fun x => set_dependencies (edge_list_add (dependencies x) (edge_new v to_)) x) v g in
  store (fun x => set_dependents (edge_list_add (dependents x) (edge_new to_ v)) x) to_ g1.

(** ** Reachability *)

(** The three things a call of vtx_is_reachable_internal hands back: its
    return value ("continue?"), and the lists [seen] and [pathTo] it updated
    through the pointers. *)
Abbreviation reach_t := (bool * vertex_list_t * vertex_list_t)%type (only parsing).

(** The [list_foreach] over the dependencies, with its [break]. *)
Fixpoint reach_edges (rec : vertex_id -> vertex_list_t -> vertex_list_t -> result reach_t)
    (es : list edge_t) (seen pathTo : vertex_list_t) : result reach_t :=
  match es with
  | [] => Ok (true, seen, pathTo)
  | e :: es' =>
      do r <- rec (to e) seen pathTo;
      match r with
      | (cont, seen', pathTo') =>
          if cont then reach_edges rec es' seen' pathTo'
          else Ok (false, seen', pathTo')
      end
  end.

Fixpoint vtx_is_reachable_internal (fuel : nat) (g : graph_t) (v to_ : vertex_id)
    (seen pathTo : vertex_list_t) : result reach_t :=
  match fuel with
  | O => OutOfFuel
  | S n =>
      if vertex_list_find_eq seen v then Ok (false, seen, pathTo)
      else
        let seen := vertex_list_add seen v in
        if decide (dg_type (vtx g v) = kS16ExcludeAll) then Ok (false, seen, pathTo)
        else if decide (v = to_) then Ok (false, seen, vertex_list_lpush pathTo v)
        else
          do r <- reach_edges (fun w s p => vtx_is_reachable_internal n g w to_ s p)
                              (dependencies (vtx g v)) seen pathTo;
          match r with
          | (cont, seen', pathTo') =>
              let pathTo'' :=
                if decide (vertex_list_size pathTo' = 0%nat) then pathTo'
                else vertex_list_lpush pathTo' v in
              Ok (cont, seen', pathTo'')
          end
  end.

(** Returns true if a vertex is reachable from another.  The C recursion
    never nests deeper than the number of vertices plus one, because every
    call that recurses has first put a new vertex on [seen]
    (see [vtx_is_reachable_internal_total]). *)
Definition vtx_is_reachable (g : graph_t) (from_ to_ : vertex_id) (pathTo : vertex_list_t)
    : result (bool * vertex_list_t) :=
  do r <- vtx_is_reachable_internal (S (length g)) g from_ to_ [] pathTo;
  match r with
  | (_, _, pathTo') => Ok (negb (vertex_list_empty pathTo'), pathTo')
  end.

(** Adds a dependency to the given vertex, checking if it is cyclic.
    Yields the C return value, the heap and [pathTo]. *)
Definition vtx_dependency_add (g : graph_t) (v to_ : vertex_id) (pathTo : vertex_list_t)
    : result (Z * graph_t * vertex_list_t) :=
  do r <- vtx_is_reachable g to_ v pathTo;
  match r with
  | (true, pathTo') => Ok (1, g, pathTo')
  | (false, pathTo') => Ok (0, vtx_edge_add g v to_, pathTo')
  end.

(** Reachability as the spec words it: [w] can be reached from [v] through
    dependency edges. *)
Inductive can_reach (g : graph_t) : vertex_id -> vertex_id -> Prop :=
  | can_reach_here (v : vertex_id) : can_reach g v v
  | can_reach_edge (v : vertex_id) (e : edge_t) (w : vertex_id) :
      e ∈ dependencies (vtx g v) -> can_reach g (to e) w -> can_reach g v w.

(** [dep_path g v w p]: [p] lists the vertices of a chain of dependency edges
    that leads from [v] to [w] and passes no kS16ExcludeAll vertex. *)
Inductive dep_path (g : graph_t) : vertex_id -> vertex_id -> vertex_list_t -> Prop :=
  | dep_path_here (v : vertex_id) :
      dg_type (vtx g v) <> kS16ExcludeAll -> dep_path g v v [v]
  | dep_path_edge (v : vertex_id) (e : edge_t) (w : vertex_id) (p : vertex_list_t) :
      dg_type (vtx g v) <> kS16ExcludeAll ->
      e ∈ dependencies (vtx g v) -> dep_path g (to e) w p -> dep_path g v w (v :: p).

(** Acyclicity, as a rank that drops along every dependency edge
    (respectively along every dependent edge). *)
Definition deps_ranked (g : graph_t) (rk : vertex_id -> nat) : Prop :=
  forall v e, e ∈ dependencies (vtx g v) -> (rk (to e) < rk v)%nat.

Definition dpts_ranked (g : graph_t) (rk : vertex_id -> nat) : Prop :=
  forall v e, e ∈ dependents (vtx g v) -> (rk (to e) < rk v)%nat.

(** ** Notes *)

(** The functions below only ever append to the global queue [notes]; each
    yields the notes it appends, in the order it appends them. *)

Definition vtx_online (g : graph_t) (v : vertex_id) (reason : Z) : s16note_list_t :=
  [s16note_new (N_STATE_CHANGE SC_ONLINE) (path (vtx g v)) reason].

Definition vtx_offline (g : graph_t) (v : vertex_id) (reason : Z) : s16note_list_t :=
  [s16note_new (N_STATE_CHANGE SC_OFFLINE) (path (vtx g v)) reason].

Definition vtx_enable (g : graph_t) (v : vertex_id) : s16note_list_t :=
  [s16note_new (N_STATE_CHANGE SC_OFFLINE) (path (vtx g v))
               (restart_on_val kS16RestartOnRestart)].

Definition vtx_disable (g : graph_t) (v : vertex_id) (reason : Z) : s16note_list_t :=
  [s16note_new (N_STATE_CHANGE SC_DISABLED) (path (vtx g v)) reason].

(** [LL_each (&l, it) fun (it->val->to, extra)]. *)
Fixpoint edges_do (fun_ : vertex_id -> result s16note_list_t) (es : list edge_t)
    : result s16note_list_t :=
  match es with
  | [] => Ok []
  | e :: es' =>
      do a <- fun_ (to e);
      do b <- edges_do fun_ es';
      Ok (a ++ b)
  end.

Definition vtx_dependencies_do (g : graph_t) (v : vertex_id)
    (fun_ : vertex_id -> result s16note_list_t) : result s16note_list_t :=
  edges_do fun_ (dependencies (vtx g v)).

Definition vtx_dependents_do (g : graph_t) (v : vertex_id)
    (fun_ : vertex_id -> result s16note_list_t) : result s16note_list_t :=
  edges_do fun_ (dependents (vtx g v)).

Definition vtx_is_running (g : graph_t) (v : vertex_id) : bool :=
  bool_decide (state (vtx g v) = kS16StateOnline)
  || bool_decide (state (vtx g v) = kS16StateDegraded).

(** ** Satisfiability logic *)

Inductive satisfied_t : Type := SATISFIED | UNSATISFIED | UNSATISFIABLE.

#[global] Instance satisfied_eq_dec : EqDecision satisfied_t.
Proof. solve_decision. Defined.

(** The enumerators' values. *)
Definition satisfied_val (s : satisfied_t) : Z :=
  match s with
  | SATISFIED => 0
  | UNSATISFIED => 1
  | UNSATISFIABLE => 2
  end.

(** Conversion of an integer to C99 [bool] ([_Bool], stdbool.h): any value
    other than 0 becomes 1. *)
Definition bool_of_int (z : Z) : bool := negb (z =? 0).

(** Conversion of a [bool] (0 or 1) to [satisfied_t], as at a [return]. *)
Definition satisfied_of_bool (b : bool) : satisfied_t :=
  if b then UNSATISFIED else SATISFIED.

(** The statement
    [if (esat != SATISFIED) sat = (sat == UNSATISFIABLE) ? UNSATISFIABLE : esat;] *)
Definition sat_fold (sat esat : satisfied_t) : satisfied_t :=
  if decide (esat <> SATISFIED)
  then (if decide (sat = UNSATISFIABLE) then UNSATISFIABLE else esat)
  else sat.

(** A loop whose body is that statement, [sat_of] computing [esat]. *)
Fixpoint sat_fold_edges (sat_of : vertex_id -> result satisfied_t) (es : list edge_t)
    (sat : satisfied_t) : result satisfied_t :=
  match es with
  | [] => Ok sat
  | e :: es' =>
      do esat <- sat_of (to e);
      sat_fold_edges sat_of es' (sat_fold sat esat)
  end.

(** The loop of the kS16RequireAny case; [sat] is declared [bool] there. *)
Fixpoint require_any_loop (sat_of : vertex_id -> result satisfied_t) (es : list edge_t)
    (sat : bool) : result satisfied_t :=
  match es with
  | [] => Ok (satisfied_of_bool sat)
  | e :: es' =>
      do esat <- sat_of (to e);
      if decide (esat = SATISFIED) then Ok SATISFIED
      else require_any_loop sat_of es'
             (if decide (esat = UNSATISFIED) then bool_of_int (satisfied_val esat) else sat)
  end.

Section Asserts.

(** Whether the program was compiled with NDEBUG, i.e. with [assert] a no-op. *)
Variable NDEBUG : bool.

Definition assert (c : bool) : result unit :=
  if NDEBUG || c then Ok tt else Abort.

Definition vtx_inst_satisfies_exclusion (g : graph_t) (v : vertex_id) : result satisfied_t :=
  do _ <- assert (bool_decide (type (vtx g v) = V_INST));
  if negb (is_setup (vtx g v)) then Ok SATISFIED
  else
    match state (vtx g v) with
    | kS16StateUninitialised | kS16StateOffline => Ok UNSATISFIED
    | kS16StateMaintenance | kS16StateDisabled => Ok SATISFIED
    | kS16StateOnline | kS16StateDegraded =>
        Ok (if is_enabled (vtx g v) then UNSATISFIABLE else UNSATISFIED)
    end.

(** The loops of the kS16OptionalAll and kS16ExcludeAll cases. *)
Fixpoint optional_all_loop (opt_of : vertex_id -> result satisfied_t) (g : graph_t)
    (es : list edge_t) (sat : satisfied_t) : result satisfied_t :=
  match es with
  | [] => Ok sat
  | e :: es' =>
      let dv := to e in
      do _ <- assert (negb (bool_decide (type (vtx g dv) = V_DEPGROUP)));
      do sat1 <-
        (if decide (type (vtx g dv) = V_INST)
         then do esat <- opt_of dv; Ok (sat_fold sat esat)
         else Ok sat);
      do sat2 <-
        (if decide (type (vtx g dv) = V_SVC)
         then sat_fold_edges opt_of (dependencies (vtx g dv)) sat1
         else Ok sat1);
      optional_all_loop opt_of g es' sat2
  end.

Fixpoint exclude_all_loop (g : graph_t) (es : list edge_t) (sat : satisfied_t)
    : result satisfied_t :=
  match es with
  | [] => Ok sat
  | e :: es' =>
      let dv := to e in
      do _ <- assert (negb (bool_decide (type (vtx g dv) = V_DEPGROUP)));
      do sat1 <-
        (if decide (type (vtx g dv) = V_INST)
         then do esat <- vtx_inst_satisfies_exclusion g dv; Ok (sat_fold sat esat)
         else Ok sat);
      do sat2 <-
        (if decide (type (vtx g dv) = V_SVC)
         then sat_fold_edges (fun _ => vtx_inst_satisfies_exclusion g dv)
                             (dependencies (vtx g dv)) sat1
         else Ok sat1);
      exclude_all_loop g es' sat2
  end.

Fixpoint vtx_inst_satisfies (fuel : nat) (g : graph_t) (v : vertex_id) (recurse : bool)
    {struct fuel} : result satisfied_t :=
  match fuel with
  | O => OutOfFuel
  | S n =>
      do _ <- assert (bool_decide (type (vtx g v) = V_INST));
      if negb (is_setup (vtx g v)) || negb (is_enabled (vtx g v)) then Ok UNSATISFIABLE
      else
        match state (vtx g v) with
        | kS16StateUninitialised => Ok UNSATISFIED
        | kS16StateDisabled => Ok UNSATISFIABLE
        | kS16StateOffline =>
            if negb recurse then Ok UNSATISFIED
            else
              do s <- depgroup_is_satisfied n g v recurse;
              Ok (if decide (s = UNSATISFIABLE) then UNSATISFIABLE else UNSATISFIED)
        | kS16StateMaintenance => Ok UNSATISFIABLE
        | kS16StateOnline | kS16StateDegraded => Ok SATISFIED
        end
  end

with vtx_inst_satisfies_optional (fuel : nat) (g : graph_t) (v : vertex_id) (recurse : bool)
    {struct fuel} : result satisfied_t :=
  match fuel with
  | O => OutOfFuel
  | S n =>
      do _ <- assert (bool_decide (type (vtx g v) = V_INST));
      if negb (is_setup (vtx g v)) then Ok SATISFIED
      else
        match state (vtx g v) with
        | kS16StateUninitialised => Ok UNSATISFIED
        | kS16StateOffline =>
            if negb recurse then Ok UNSATISFIED
            else
              do s <- depgroup_is_satisfied n g v recurse;
              Ok (if decide (s = UNSATISFIABLE) then SATISFIED else UNSATISFIED)
        | kS16StateDisabled | kS16StateMaintenance
        | kS16StateOnline | kS16StateDegraded => Ok SATISFIED
        end
  end

with vtx_satisfies (fuel : nat) (g : graph_t) (v : vertex_id) (recurse : bool)
    {struct fuel} : result satisfied_t :=
  match fuel with
  | O => OutOfFuel
  | S n =>
      if decide (type (vtx g v) = V_INST) then vtx_inst_satisfies n g v recurse
      else depgroup_is_satisfied n g v recurse
  end

with depgroup_is_satisfied (fuel : nat) (g : graph_t) (v : vertex_id) (recurse : bool)
    {struct fuel} : result satisfied_t :=
  match fuel with
  | O => OutOfFuel
  | S n =>
      match dg_type (vtx g v) with
      | kS16RequireAll =>
          sat_fold_edges (fun w => vtx_satisfies n g w recurse)
                         (dependencies (vtx g v)) SATISFIED
      | kS16RequireAny =>
          let sat := bool_of_int (satisfied_val UNSATISFIABLE) in
          if decide (dependencies (vtx g v) = []) then Ok SATISFIED
          else require_any_loop (fun w => vtx_satisfies n g w recurse)
                                (dependencies (vtx g v)) sat
      | kS16OptionalAll =>
          optional_all_loop (fun w => vtx_inst_satisfies_optional n g w recurse) g
                            (dependencies (vtx g v)) SATISFIED
      | kS16ExcludeAll =>
          exclude_all_loop g (dependencies (vtx g v)) SATISFIED
      end
  end.

Definition vtx_inst_can_come_up (fuel : nat) (g : graph_t) (v : vertex_id) : result bool :=
  if is_enabled (vtx g v) && negb (to_offline (vtx g v)) && negb (to_disable (vtx g v))
  then do s <- depgroup_is_satisfied fuel g v true; Ok (bool_decide (s = SATISFIED))
  else Ok false.

(** ** Propagation *)

Fixpoint vtx_notify_start (fuel : nat) (g : graph_t) (v : vertex_id) (reason : Z)
    : result s16note_list_t :=
  match fuel with
  | O => OutOfFuel
  | S n =>
      match type (vtx g v) with
      | V_INST =>
          do up <- vtx_inst_can_come_up fuel g v;
          if up
          then (if vtx_is_running g v then Ok []
                else Ok [s16note_new (N_STATE_CHANGE SC_ONLINE) (path (vtx g v)) 0])
          else Ok []
      | V_DEPGROUP | V_SVC =>
          vtx_dependents_do g v
            (fun w => vtx_notify_start n g w (restart_on_val (restart_on (vtx g v))))
      end
  end.

(** vtx_notify_stop is handed an [int] cast to a pointer, and reads it back
    with [S16DependencyGroupRestartOnCondition reason = (intptr_t)vreason].
    The enumeration has no negative enumerator, so gcc and clang give it the
    type [unsigned int]: the conversion reduces the value modulo 2^32, and
    [v->restart_on < reason] is a comparison of unsigned values. *)
Definition restart_on_of_intptr (vreason : Z) : Z := vreason mod 2 ^ 32.

(** That value handed to s16note_new, which takes the reason as an [int]
    again. *)
Definition int_of_restart_on (reason : Z) : Z :=
  if reason <? 2 ^ 31 then reason else reason - 2 ^ 32.

Fixpoint vtx_notify_stop (fuel : nat) (g : graph_t) (v : vertex_id) (vreason : Z)
    : result s16note_list_t :=
  match fuel with
  | O => OutOfFuel
  | S n =>
      let reason := restart_on_of_intptr vreason in
      match type (vtx g v) with
      | V_INST =>
          if negb (vtx_is_running g v) then Ok []
          else Ok [s16note_new (N_STATE_CHANGE SC_OFFLINE) (path (vtx g v))
                               (int_of_restart_on reason)]
      | V_DEPGROUP =>
          if decide (dg_type (vtx g v) = kS16ExcludeAll) then Ok []
          else if restart_on_val (restart_on (vtx g v)) <? reason then Ok []
          else vtx_dependents_do g v (fun w => vtx_notify_stop n g w vreason)
      | V_SVC =>
          vtx_dependents_do g v (fun w => vtx_notify_stop n g w vreason)
      end
  end.

Fixpoint vtx_notify_misc (fuel : nat) (g : graph_t) (v : vertex_id) (reason : Z)
    : result s16note_list_t :=
  match fuel with
  | O => OutOfFuel
  | S n =>
      do a <-
        (if decide (type (vtx g v) = V_INST)
         then
           do up <- vtx_inst_can_come_up fuel g v;
           Ok (if up && negb (vtx_is_running g v) then vtx_online g v reason else [])
         else Ok []);
      do b <- vtx_dependents_do g v (fun w => vtx_notify_misc n g w reason);
      Ok (a ++ b)
  end.

End Asserts.

(** The [list_foreach] of vtx_can_go_down; [Ok false] is its [return false]. *)
Fixpoint can_go_down_loop (rec : vertex_id -> result bool) (g : graph_t) (es : list edge_t)
    : result bool :=
  match es with
  | [] => Ok true
  | e :: es' =>
      if bool_decide (type (vtx g (to e)) = V_INST) && negb (to_offline (vtx g (to e)))
      then can_go_down_loop rec g es'
      else
        do b <- rec (to e);
        if negb b then Ok false else can_go_down_loop rec g es'
  end.

Fixpoint vtx_can_go_down (fuel : nat) (g : graph_t) (v : vertex_id) (root : bool)
    : result bool :=
  match fuel with
  | O => OutOfFuel
  | S n =>
      do all_down <- can_go_down_loop (fun w => vtx_can_go_down n g w false) g
                                      (dependents (vtx g v));
      if negb all_down then Ok false
      else if bool_decide (type (vtx g v) = V_INST)
              && (bool_decide (state (vtx g v) = kS16StateOnline)
                  || bool_decide (state (vtx g v) = kS16StateDegraded))
              && negb root
      then Ok false
      else Ok true
  end.

(** Called after an inst goes offline; offline its dependencies if they are
    due to go offline. *)
Fixpoint vtx_offline_dependency (fuel : nat) (g : graph_t) (v : vertex_id) (reason : Z)
    : result s16note_list_t :=
  match fuel with
  | O => OutOfFuel
  | S n =>
      if bool_decide (type (vtx g v) = V_INST) && negb (to_offline (vtx g v)) then Ok []
      else if decide (type (vtx g v) = V_INST)
      then
        do down <- vtx_can_go_down fuel g v true;
        Ok (if down then vtx_offline g v reason else [])
      else vtx_dependencies_do g v (fun w => vtx_offline_dependency n g w reason)
  end.

(** [notes] is the global queue; the result is the heap and the queue after
    the call. *)
Definition vtx_process_state_change (NDEBUG : bool) (fuel : nat) (g : graph_t)
    (notes : s16note_list_t) (v : vertex_id) (type_ : s16note_sc_type_t) (reason : Z)
    : result (graph_t * s16note_list_t) :=
  let to_offline_ := to_offline (vtx g v) in
  match type_ with
  | SC_ONLINE =>
      let g := store (set_state kS16StateOnline) v g in
      do ns <- vtx_dependents_do g v (fun w => vtx_notify_start NDEBUG fuel g w reason);
      Ok (g, notes ++ ns)
  | SC_OFFLINE =>
      let g := store (set_state kS16StateOffline) v g in
      let g := store (set_to_offline false) v g in
      do a <-
        (if to_offline_
         then
           do walk <- vtx_dependencies_do g v
                        (fun w => vtx_offline_dependency fuel g w reason);
           Ok (walk ++ (if to_disable (vtx g v) then vtx_disable g v reason else []))
         else
           do up <- vtx_inst_can_come_up NDEBUG fuel g v;
           Ok (if up then vtx_online g v reason else []));
      do b <- vtx_dependents_do g v (fun w => vtx_notify_stop fuel g w reason);
      Ok (g, notes ++ a ++ b)
  | SC_DISABLED =>
      let g := store (set_to_offline false) v g in
      let g := store (set_to_disable false) v g in
      let g := store (set_state kS16StateDisabled) v g in
      do ns <- vtx_dependents_do g v (fun w => vtx_notify_misc NDEBUG fuel g w reason);
      Ok (g, notes ++ ns)
  | _ => Ok (g, notes)
  end.

(** The vertices of [l] that are not on [seen]: the measure by which the
    reachability search terminates. *)
Definition unseen (l seen : vertex_list_t) : nat :=
  length (filter (fun i => i ∉ seen) l).

(** With fuel [n] and enough vertices still unseen, the search comes back,
    and [seen] has only grown. *)
Definition reach_total_at (n : nat) (g : graph_t) (to_ : vertex_id) : Prop :=
  forall v seen p, (unseen (seq 0 (length g)) seen < n)%nat ->
    exists c seen' p', vtx_is_reachable_internal n g v to_ seen p = Ok (c, seen', p')
                       /\ seen ⊆ seen'.

(** Started with an empty [pathTo], the search leaves it empty or leaves a
    path to the target in it, and in the latter case says "stop". *)
Definition reach_sound_at (n : nat) (g : graph_t) (to_ : vertex_id) : Prop :=
  forall v seen c seen' p,
    vtx_is_reachable_internal n g v to_ seen [] = Ok (c, seen', p) ->
    p = [] \/ (c = false /\ dep_path g v to_ p).

(** The dependents the loop of vtx_can_go_down steps over. *)
Definition skipped (g : graph_t) (w : vertex_id) : Prop :=
  type (vtx g w) = V_INST /\ to_offline (vtx g w) = false.

(** The heap after the two assignments of the SC_OFFLINE case. *)
Definition offlined (g : graph_t) (v : vertex_id) : graph_t :=
  store (set_to_offline false) v (store (set_state kS16StateOffline) v g).

(** ** Where a notification travels *)

(** [start_walk g u w]: handed to [u], vtx_notify_start arrives at the
    Instance [w], going through DepGroup and Service vertices along dependent
    edges. *)
Inductive start_walk (g : graph_t) : vertex_id -> vertex_id -> Prop :=
  | start_walk_inst (u : vertex_id) :
      type (vtx g u) = V_INST -> start_walk g u u
  | start_walk_edge (u : vertex_id) (e : edge_t) (w : vertex_id) :
      type (vtx g u) <> V_INST -> e ∈ dependents (vtx g u) ->
      start_walk g (to e) w -> start_walk g u w.

(** Whether a vertex that is not an Instance hands a stop with intensity
    [reason] on to its dependents: a Service always does, a group does when
    it is not kS16ExcludeAll and its restart_on is not below the reason, the
    reason read as the unsigned value vtx_notify_stop compares with. *)
Definition stop_passes (g : graph_t) (u : vertex_id) (reason : Z) : Prop :=
  type (vtx g u) = V_SVC
  \/ (type (vtx g u) = V_DEPGROUP /\ dg_type (vtx g u) <> kS16ExcludeAll
      /\ restart_on_of_intptr reason <= restart_on_val (restart_on (vtx g u))).

(** [stop_walk g reason u w]: handed to [u], vtx_notify_stop arrives at the
    Instance [w]. *)
Inductive stop_walk (g : graph_t) (reason : Z) : vertex_id -> vertex_id -> Prop :=
  | stop_walk_inst (u : vertex_id) :
      type (vtx g u) = V_INST -> stop_walk g reason u u
  | stop_walk_edge (u : vertex_id) (e : edge_t) (w : vertex_id) :
      stop_passes g u reason -> e ∈ dependents (vtx g u) ->
      stop_walk g reason (to e) w -> stop_walk g reason u w.

(** [offline_walk g u w]: handed to [u], vtx_offline_dependency arrives at the
    Instance [w], going through DepGroup and Service vertices along dependency
    edges. *)
Inductive offline_walk (g : graph_t) : vertex_id -> vertex_id -> Prop :=
  | offline_walk_inst (u : vertex_id) :
      type (vtx g u) = V_INST -> offline_walk g u u
  | offline_walk_edge (u : vertex_id) (e : edge_t) (w : vertex_id) :
      type (vtx g u) <> V_INST -> e ∈ dependencies (vtx g u) ->
      offline_walk g (to e) w -> offline_walk g u w.

(** ** The vertex list *)

(** The global [graph] lists the vertices in the order in which
    vtx_find_or_add allocated them; nothing else allocates a vertex, and
    nothing takes one off the list.  The arena is that list: its k-th entry
    is vertex k. *)
Definition graph_init : graph_t := [].

Definition set_is_setup (b : bool) (x : vertex_t) : vertex_t :=
  mk_vertex (path x) (type x) (dg_type x) (restart_on x) (state x) b
            (is_enabled x) (to_offline x) (to_disable x) (dependencies x) (dependents x).

Definition set_is_enabled (b : bool) (x : vertex_t) : vertex_t :=
  mk_vertex (path x) (type x) (dg_type x) (restart_on x) (state x) (is_setup x)
            b (to_offline x) (to_disable x) (dependencies x) (dependents x).

(** Modelled from the spec: S16PathEqual is the S16 library's; paths are
    value-equal by component. *)
Definition S16PathEqual (a b : S16Path) : bool := bool_decide (a = b).

Definition match_vertex_by_path (cand : vertex_t) (path_ : S16Path) : bool :=
  S16PathEqual (path cand) path_.

(** Modelled from the spec: list.h is not part of the sources.
    [vertex_list_find] walks the list from its head and stops at the first
    element the predicate accepts; [list_it_val] of the end of the list is
    NULL, here [None]. *)
Fixpoint vertex_list_find (l : graph_t) (fun_ : vertex_t -> S16Path -> bool)
    (extra : S16Path) : option vertex_id :=
  match l with
  | [] => None
  | x :: l' => if fun_ x extra then Some 0%nat else S <$> vertex_list_find l' fun_ extra
  end.

Definition vtx_find_by_path (g : graph_t) (name : S16Path) : option vertex_id :=
  vertex_list_find g match_vertex_by_path name.

(** [calloc] zeroes the flags; the edge lists start empty. *)
Definition vtx_find_or_add (g : graph_t) (path_ : S16Path) (type_ : vertex_type_t)
    (dg_type_ : S16DependencyGroupType)
    (restart_on_ : S16DependencyGroupRestartOnCondition) : vertex_id * graph_t :=
  match vtx_find_by_path g path_ with
  | Some nv => (nv, g)
  | None =>
      let nv := mk_vertex path_ type_ dg_type_ restart_on_ kS16StateUninitialised
                          false false false false [] [] in
      (length g, g ++ [nv])
  end.

(** ** The repository's objects *)

(** Modelled from the spec: the S16 library's configuration objects are
    declared outside the sources.  A dependency group is its kind, its
    restart-on condition and the paths of its targets; an instance has a path
    and dependency groups, a service has instances besides.  The fields are
    the ones graph.c reads ([dg->type], [dg->restart_on], [dg->paths],
    [inst->path], [inst->depgroups], [svc->path], [svc->insts],
    [svc->depgroups]), each under its owner's prefix. *)
Record S16DependencyGroup : Type := mk_S16DependencyGroup {
  dgrp_type : S16DependencyGroupType;
  dgrp_restart_on : S16DependencyGroupRestartOnCondition;
  dgrp_paths : list S16Path
}.

Record S16ServiceInstance : Type := mk_S16ServiceInstance {
  inst_path : S16Path;
  inst_depgroups : list S16DependencyGroup
}.

Record S16Service : Type := mk_S16Service {
  svc_path : S16Path;
  svc_insts : list S16ServiceInstance;
  svc_depgroups : list S16DependencyGroup
}.

(** What s16db_lookup_path hands back: a union of an instance pointer [.i]
    and a service pointer [.s]. *)
Inductive s16db_lookup_result : Type :=
  | lookup_i (i : S16ServiceInstance)
  | lookup_s (s : S16Service).

(** ** Names of dependency groups *)

(** The text [snprintf (NULL, 0, "%s>%d", ot, cnt)] measures. *)
Definition depgroup_name_measured (ot : string) (cnt : Z) : string :=
  ot +:+ ">" +:+ pretty cnt.

(** The text [sprintf (dgn, "%s#depgroups/%d", ot, cnt)] writes. *)
Definition depgroup_name (ot : string) (cnt : Z) : string :=
  ot +:+ "#depgroups/" +:+ pretty cnt.

(** [sprintf] into a buffer of [size] bytes: the text and its closing NUL have
    to fit. *)
Definition sprintf (size : nat) (text : string) : result string :=
  if decide (String.length text + 1 <= size)%nat then Ok text else Undefined.

Definition make_depgroup_path (path_ : S16Path) (cnt : Z) : result S16Path :=
  let dgp := path_ in   (* S16PathCopy *)
  let ot := match inst dgp with Some i => i | None => svc dgp end in
  let len_inst := String.length (depgroup_name_measured ot cnt) in
  let size := (len_inst + 1)%nat in   (* dgn = malloc (len_inst + 1) *)
  do dgn <- sprintf size (depgroup_name ot cnt);
  Ok (match inst dgp with
      | Some _ => S16PathNew (svc dgp) (Some dgn)
      | None => S16PathNew dgn None
      end).

(** ** Setting vertices up *)

Definition INT_MAX : Z := 2147483647.

(** The loop of setup_depgroup, with its [return nerr]. *)
Fixpoint setup_deps_loop
    (setup_dep_ : graph_t -> S16Path -> vertex_list_t -> result (Z * graph_t * vertex_list_t))
    (paths : list S16Path) (g : graph_t) (pathTo : vertex_list_t)
    : result (Z * graph_t * vertex_list_t) :=
  match paths with
  | [] => Ok (0, g, pathTo)
  | p :: paths' =>
      do r <- setup_dep_ g p pathTo;
      match r with
      | (nerr, g, pathTo) =>
          if decide (nerr = 0) then setup_deps_loop setup_dep_ paths' g pathTo
          else Ok (nerr, g, pathTo)
      end
  end.

(** The loop of vtx_update; what setup_depgroup returns is only printed. *)
Fixpoint update_loop
    (setup_depgroup_ : graph_t -> S16DependencyGroup -> S16Path -> vertex_list_t
                       -> result (Z * graph_t * vertex_list_t))
    (v : vertex_id) (depgroups : list S16DependencyGroup) (cnt : Z)
    (g : graph_t) (pathTo : vertex_list_t) : result graph_t :=
  match depgroups with
  | [] => Ok g
  | dg :: depgroups' =>
      do dgn <- make_depgroup_path (path (vtx g v)) cnt;
      if decide (cnt = INT_MAX) then Undefined   (* cnt++ *)
      else
        do r <- setup_depgroup_ g dg dgn pathTo;
        match r with
        | (_, g, pathTo) => update_loop setup_depgroup_ v depgroups' (cnt + 1) g pathTo
        end
  end.

Section Setup.

Variable NDEBUG : bool.

(** The repository handle [hdl], as the lookup it answers. *)
Variable hdl : S16Path -> option s16db_lookup_result.

Fixpoint vtx_setup (fuel : nat) (g : graph_t) (v : vertex_id) {struct fuel}
    : result graph_t :=
  match fuel with
  | O => OutOfFuel
  | S n =>
      if is_setup (vtx g v) then Ok g
      else
        let g := store (set_is_setup true) v g in
        let g := store (set_is_enabled true) v g in
        vtx_update n g v
  end

(** Updates a vertex with fresh data from the handle.  A lookup that finds
    nothing, or finds the other kind of object, leaves [depgroups] pointing
    nowhere. *)
with vtx_update (fuel : nat) (g : graph_t) (v : vertex_id) {struct fuel}
    : result graph_t :=
  match fuel with
  | O => OutOfFuel
  | S n =>
      let pathTo : vertex_list_t := [] in
      match type (vtx g v) with
      | V_INST =>
          match hdl (path (vtx g v)) with
          | Some (lookup_i inst) =>
              update_loop (fun g dg dgn p => setup_depgroup n g v dg dgn p)
                          v (inst_depgroups inst) 0 g pathTo
          | _ => Undefined
          end
      | V_SVC =>
          match hdl (path (vtx g v)) with
          | Some (lookup_s svc) =>
              update_loop (fun g dg dgn p => setup_depgroup n g v dg dgn p)
                          v (svc_depgroups svc) 0 g pathTo
          | _ => Undefined
          end
      | V_DEPGROUP => Ok g
      end
  end

with setup_depgroup (fuel : nat) (g : graph_t) (v : vertex_id) (dg : S16DependencyGroup)
    (dgp : S16Path) (pathTo : vertex_list_t) {struct fuel}
    : result (Z * graph_t * vertex_list_t) :=
  match fuel with
  | O => OutOfFuel
  | S n =>
      match vtx_find_or_add g dgp V_DEPGROUP (dgrp_type dg) (dgrp_restart_on dg) with
      | (dgv, g) =>
          do r <- vtx_dependency_add g v dgv pathTo;
          match r with
          | (_, g, pathTo) =>
              let g := store (set_is_setup true) v g in
              setup_deps_loop (fun g p q => setup_dep n g p dgv q) (dgrp_paths dg) g pathTo
          end
      end
  end

(** [assert ((vdep = vtx_find_by_path (path)))]: compiled with NDEBUG the
    assignment goes with the assert, and [vdep] is read uninitialised. *)
with setup_dep (fuel : nat) (g : graph_t) (path_ : S16Path) (vg : vertex_id)
    (pathTo : vertex_list_t) {struct fuel} : result (Z * graph_t * vertex_list_t) :=
  match fuel with
  | O => OutOfFuel
  | S n =>
      if NDEBUG then Undefined
      else
        match vtx_find_by_path g path_ with
        | None => Abort
        | Some vdep =>
            do r <- vtx_dependency_add g vg vdep pathTo;
            match r with
            | (err, g, pathTo) =>
                if decide (err = 0)
                then do g <- vtx_setup n g vdep; Ok (0, g, pathTo)
                else Ok (1, g, pathTo)
            end
        end
  end.

End Setup.

(** ** Installing services *)

Definition install_inst (g : graph_t) (vsv : vertex_id) (inst_ : S16ServiceInstance)
    : vertex_id * graph_t :=
  vtx_find_or_add g (inst_path inst_) V_INST kS16RequireAll kS16RestartOnAny.

(** The body of the loop of graph_install_service. *)
Definition install_inst_edge (sv : vertex_id) (g : graph_t) (inst_ : S16ServiceInstance)
    : graph_t :=
  match install_inst g sv inst_ with
  | (iv, g) => vtx_edge_add g sv iv
  end.

Definition graph_install_service (g : graph_t) (svc_ : S16Service) : vertex_id * graph_t :=
  match vtx_find_or_add g (svc_path svc_) V_SVC kS16RequireAll kS16RestartOnAny with
  | (sv, g) =>
      if is_setup (vtx g sv) then (sv, g)
      else
        let g := foldl (install_inst_edge sv) g (svc_insts svc_) in
        (sv, store (set_is_setup true) sv g)
  end.

(** ** Administrative requests *)

(** [LL_each (&l, it) fun (it->val->to, extra)] for a [fun] that writes to the
    heap.  No such [fun] touches an edge list, so the list walked is the one
    read when the loop starts. *)
Fixpoint edges_do_st (fun_ : graph_t -> vertex_id -> result graph_t) (es : list edge_t)
    (g : graph_t) : result graph_t :=
  match es with
  | [] => Ok g
  | e :: es' =>
      do g <- fun_ g (to e);
      edges_do_st fun_ es' g
  end.

Fixpoint vtx_notify_admin_disable (fuel : nat) (g : graph_t) (v : vertex_id) (reason : Z)
    : result graph_t :=
  match fuel with
  | O => OutOfFuel
  | S n =>
      match type (vtx g v) with
      | V_INST =>
          let g := store (set_to_offline true) v g in
          edges_do_st (fun g w => vtx_notify_admin_disable n g w reason)
                      (dependents (vtx g v)) g
      | V_DEPGROUP =>
          (* If a vertex is an kS16ExcludeAll one, we don't mark it.  Neither if
             the restart_on mode is kS16RestartOnNone or kS16RestartOnError. *)
          if bool_decide (dg_type (vtx g v) = kS16ExcludeAll)
             || (bool_decide (restart_on (vtx g v) = kS16RestartOnNone)
                 || bool_decide (restart_on (vtx g v) = kS16RestartOnError))
          then Ok g
          else edges_do_st (fun g w => vtx_notify_admin_disable n g w reason)
                           (dependents (vtx g v)) g
      | V_SVC =>
          edges_do_st (fun g w => vtx_notify_admin_disable n g w reason)
                      (dependents (vtx g v)) g
      end
  end.

Definition vtx_offline_if_possible (fuel : nat) (g : graph_t) (v : vertex_id) (reason : Z)
    : result s16note_list_t :=
  if negb (to_offline (vtx g v)) then Ok []
  else if decide (type (vtx g v) = V_INST)
  then
    do down <- vtx_can_go_down fuel g v true;
    Ok (if down then vtx_offline g v reason else [])
  else Ok [].

(** [list_foreach (vertex, &graph, it) fun (it->val)]. *)
Fixpoint vertices_do (fun_ : vertex_id -> result s16note_list_t) (vs : list vertex_id)
    : result s16note_list_t :=
  match vs with
  | [] => Ok []
  | v :: vs' =>
      do a <- fun_ v;
      do b <- vertices_do fun_ vs';
      Ok (a ++ b)
  end.

Definition vtx_process_admin_req (fuel : nat) (g : graph_t) (notes : s16note_list_t)
    (v : vertex_id) (type_ : s16note_admin_type_t) (reason : Z)
    : result (graph_t * s16note_list_t) :=
  match type_ with
  | A_DISABLE =>
      let g := store (set_to_disable true) v g in
      let g := store (set_to_offline true) v g in
      let g := store (set_is_enabled false) v g in
      do g <- edges_do_st (fun g w => vtx_notify_admin_disable fuel g w reason)
                          (dependents (vtx g v)) g;
      do _ <- vtx_can_go_down fuel g v true;   (* decides a log line only *)
      do ns <- vertices_do
                 (fun w => vtx_offline_if_possible fuel g w
                             (restart_on_val kS16RestartOnRestart))
                 (seq 0 (length g));
      Ok (g, notes ++ ns)
  | A_ENABLE =>
      let g := store (set_to_disable false) v g in
      let g := store (set_to_offline false) v g in
      let g := store (set_is_enabled true) v g in
      Ok (g, notes ++ vtx_enable g v)
  | _ => Ok (g, notes)
  end.

(** ** The dispatcher *)

(** A note whose path names no vertex leaves [v] NULL.  The state-change
    handler reads [v->to_offline] first thing, and the admin handler writes
    through [v] in both cases it knows; its [default] case only logs. *)
Definition graph_process_note (NDEBUG : bool) (fuel : nat) (g : graph_t)
    (notes : s16note_list_t) (note : s16note_t) : result (graph_t * s16note_list_t) :=
  let v := vtx_find_by_path g (S16.path note) in
  match note_type note with
  | N_ADMIN_REQ type_ =>
      match v with
      | Some v => vtx_process_admin_req fuel g notes v type_ (reason note)
      | None =>
          match type_ with
          | A_DISABLE | A_ENABLE => Undefined
          | _ => Ok (g, notes)
          end
      end
  | N_STATE_CHANGE type_ =>
      match v with
      | Some v => vtx_process_state_change NDEBUG fuel g notes v type_ (reason note)
      | None => Undefined
      end
  | _ => Ok (g, notes)
  end.

(** The macro [processNotes ()]:
    [while ((note = s16note_list_lpop (&notes))) graph_process_note (note)].
    [rounds] bounds the notes it takes off the queue. *)
Fixpoint processNotes (NDEBUG : bool) (fuel rounds : nat) (g : graph_t)
    (notes : s16note_list_t) : result (graph_t * s16note_list_t) :=
  match notes with
  | [] => Ok (g, [])
  | note :: notes' =>
      match rounds with
      | O => OutOfFuel
      | S k =>
          do r <- graph_process_note NDEBUG fuel g notes' note;
          processNotes NDEBUG fuel k (fst r) (snd r)
      end
  end.

(** ** Invariants of the vertex list *)

(** At most one vertex per path. *)
Definition paths_distinct (g : graph_t) : Prop := NoDup (path <$> g).

(** Every edge sits in the list of the vertex it starts from and leads to a
    vertex of the graph, and the two lists mirror each other: [v]'s
    dependencies hold the edge v->w exactly when [w]'s dependents hold the
    edge w->v. *)
Definition edges_owned (g : graph_t) : Prop :=
  forall v e, e ∈ dependencies (vtx g v) \/ e ∈ dependents (vtx g v) ->
    from e = v /\ (v < length g)%nat /\ (to e < length g)%nat.

Definition edges_mirrored (g : graph_t) : Prop :=
  forall v w, edge_new v w ∈ dependencies (vtx g v) <-> edge_new w v ∈ dependents (vtx g w).

Definition graph_wf (g : graph_t) : Prop := edges_owned g /\ edges_mirrored g.

(** A check of [graph_wf] that runs. *)
Definition edges_owned_b (g : graph_t) : bool :=
  forallb (fun v =>
      forallb (fun e => bool_decide (from e = v) && bool_decide (to e < length g)%nat)
              (dependencies (vtx g v) ++ dependents (vtx g v)))
    (seq 0 (length g)).

Definition edges_mirrored_b (g : graph_t) : bool :=
  forallb (fun v =>
      forallb (fun e => bool_decide (edge_new (to e) v ∈ dependents (vtx g (to e))))
              (dependencies (vtx g v))
      && forallb (fun e => bool_decide (edge_new (to e) v ∈ dependencies (vtx g (to e))))
                 (dependents (vtx g v)))
    (seq 0 (length g)).

(** What no function that processes a note changes about a vertex. *)
Definition same_shape (x y : vertex_t) : Prop :=
  path x = path y /\ type x = type y /\ dg_type x = dg_type y
  /\ restart_on x = restart_on y /\ is_setup x = is_setup y
  /\ dependencies x = dependencies y /\ dependents x = dependents y.

(** The dependency groups the repository declares for a vertex, as
    vtx_update reads them; [None] where the lookup does not give an object of
    the vertex's kind. *)
Definition declared_depgroups (hdl : S16Path -> option s16db_lookup_result)
    (x : vertex_t) : option (list S16DependencyGroup) :=
  match type x, hdl (path x) with
  | V_INST, Some (lookup_i i) => Some (inst_depgroups i)
  | V_SVC, Some (lookup_s s) => Some (svc_depgroups s)
  | V_DEPGROUP, _ => Some []
  | _, _ => None
  end.

(** ** Where an administrative disable travels *)

(** Whether vtx_notify_admin_disable, handed [u], goes on to [u]'s dependents. *)
Definition disable_passes (g : graph_t) (u : vertex_id) : Prop :=
  type (vtx g u) = V_INST \/ type (vtx g u) = V_SVC
  \/ (type (vtx g u) = V_DEPGROUP /\ dg_type (vtx g u) <> kS16ExcludeAll
      /\ restart_on (vtx g u) <> kS16RestartOnNone
      /\ restart_on (vtx g u) <> kS16RestartOnError).

(** [disable_walk g u w]: handed to [u], vtx_notify_admin_disable arrives at
    the Instance [w]. *)
Inductive disable_walk (g : graph_t) : vertex_id -> vertex_id -> Prop :=
  | disable_walk_inst (u : vertex_id) :
      type (vtx g u) = V_INST -> disable_walk g u u
  | disable_walk_edge (u : vertex_id) (e : edge_t) (w : vertex_id) :
      disable_passes g u -> e ∈ dependents (vtx g u) ->
      disable_walk g (to e) w -> disable_walk g u w.

(** [g'] is [g] up to the to_offline flags. *)
Definition up_to_offline (g g' : graph_t) : Prop :=
  forall w, set_to_offline false (vtx g' w) = set_to_offline false (vtx g w).

(** What a call of vtx_notify_admin_disable on [u] comes to, when [r] is its
    outcome. *)
Definition disable_marks (g : graph_t) (u : vertex_id) (r : result graph_t) : Prop :=
  exists g', r = Ok g' /\ length g' = length g /\ up_to_offline g g'
    /\ forall w, to_offline (vtx g' w) = true
                 <-> to_offline (vtx g w) = true \/ disable_walk g u w.

(** The note names a vertex of the graph. *)
Definition names_vertex (g : graph_t) (x : s16note_t) : Prop :=
  exists w, (w < length g)%nat /\ S16.path x = path (vtx g w).

(** The note reports a state change. *)
Definition is_state_change (x : s16note_t) : Prop :=
  exists sc, note_type x = N_STATE_CHANGE sc.

(** What every note a handler queues satisfies. *)
Definition queued_ok (g : graph_t) (x : s16note_t) : Prop :=
  names_vertex g x /\ is_state_change x.

(** [g'] has the vertices of [g], each with its path, kind, edges and is_setup
    flag. *)
Definition same_graph_shape (g g' : graph_t) : Prop :=
  length g' = length g /\ forall w, same_shape (vtx g' w) (vtx g w).


End Graph.

(** ** restartd/unit.c *)
Module Restartd.

(** Modelled from the spec: unit.h is not part of the sources.  The states,
    method slots and unit types are the ones the spec's data model lists,
    under the names unit.c uses for them (US_POSTSTOP is the one state unit.c
    names that the spec leaves out). *)
Inductive UnitState : Type :=
  | UkS16StateUninitialisedIALISED
  | UkS16StateOffline
  | US_PRESTART
  | US_START
  | US_POSTSTART
  | UkS16StateOnline
  | US_STOP
  | US_STOPTERM
  | US_STOPKILL
  | US_POSTSTOP
  | UkS16StateMaintenance
  | UkS16StateNone.

Inductive UnitMethodType : Type :=
  | UM_PRESTART
  | UM_START
  | UM_POSTSTART
  | UM_STOP
  | UM_POSTSTOP.

Inductive UnitType : Type := U_SIMPLE | U_ONESHOT | U_FORKS | U_GROUP | U_NOTIFY.

#[global] Instance UnitState_eq_dec : EqDecision UnitState.
Proof. solve_decision. Defined.
#[global] Instance UnitMethodType_eq_dec : EqDecision UnitMethodType.
Proof. solve_decision. Defined.
#[global] Instance UnitType_eq_dec : EqDecision UnitType.
Proof. solve_decision. Defined.

(** [pid_t], timer ids ([long]) and [S16Path *] are integers. *)
Abbreviation pid_t := Z (only parsing).

Record Unit : Type := mk_Unit {
  path : Z;
  type : UnitType;
  methods : UnitMethodType -> option string;
  state : UnitState;
  target : UnitState;
  main_pid : pid_t;
  secondary_pid : pid_t;
  pids : list pid_t;
  timer_id : Z;
  meth_restart_timer_id : Z;
  fail_cnt : UnitMethodType -> Z
}.

Definition set_state (s : UnitState) (u : Unit) : Unit :=
  mk_Unit (path u) (type u) (methods u) s (target u) (main_pid u) (secondary_pid u)
          (pids u) (timer_id u) (meth_restart_timer_id u) (fail_cnt u).
Definition set_target (s : UnitState) (u : Unit) : Unit :=
  mk_Unit (path u) (type u) (methods u) (state u) s (main_pid u) (secondary_pid u)
          (pids u) (timer_id u) (meth_restart_timer_id u) (fail_cnt u).
Definition set_main_pid (p : pid_t) (u : Unit) : Unit :=
  mk_Unit (path u) (type u) (methods u) (state u) (target u) p (secondary_pid u)
          (pids u) (timer_id u) (meth_restart_timer_id u) (fail_cnt u).
Definition set_secondary_pid (p : pid_t) (u : Unit) : Unit :=
  mk_Unit (path u) (type u) (methods u) (state u) (target u) (main_pid u) p
          (pids u) (timer_id u) (meth_restart_timer_id u) (fail_cnt u).
Definition set_pids (l : list pid_t) (u : Unit) : Unit :=
  mk_Unit (path u) (type u) (methods u) (state u) (target u) (main_pid u) (secondary_pid u)
          l (timer_id u) (meth_restart_timer_id u) (fail_cnt u).
Definition set_timer_id (i : Z) (u : Unit) : Unit :=
  mk_Unit (path u) (type u) (methods u) (state u) (target u) (main_pid u) (secondary_pid u)
          (pids u) i (meth_restart_timer_id u) (fail_cnt u).
Definition set_meth_restart_timer_id (i : Z) (u : Unit) : Unit :=
  mk_Unit (path u) (type u) (methods u) (state u) (target u) (main_pid u) (secondary_pid u)
          (pids u) (timer_id u) i (fail_cnt u).
Definition set_fail_cnt (f : UnitMethodType -> Z) (u : Unit) : Unit :=
  mk_Unit (path u) (type u) (methods u) (state u) (target u) (main_pid u) (secondary_pid u)
          (pids u) (timer_id u) (meth_restart_timer_id u) f.

(** [x++] on an [int]: two's complement, 32 bits. *)
Definition int_incr (x : Z) : Z :=
  let y := (x + 1) mod 4294967296 in
  if y <? 2147483648 then y else y - 4294967296.

(** [unit->fail_cnt[i]++]. *)
Definition fail_cnt_incr (i : UnitMethodType) (u : Unit) : Unit :=
  set_fail_cnt (fun j => if decide (j = i) then int_incr (fail_cnt u j) else fail_cnt u j) u.

(** The callbacks unit.c registers with the timer set. *)
Inductive timer_cb : Type := cb_unit_timer_event | cb_unit_restart_begin_cb.

#[global] Instance timer_cb_eq_dec : EqDecision timer_cb.
Proof. solve_decision. Defined.

Record timer_t : Type := mk_timer { tm_id : Z; tm_msec : Z; tm_cb : timer_cb }.

Definition SIGTERM : Z := 15.
Definition SIGKILL : Z := 9.

(** The global [manager], with the part of the operating system that unit.c
    acts on. *)
Record Manager : Type := mk_Manager {
  pt : list pid_t;              (* process tracker: the PIDs it watches *)
  ts : list timer_t;            (* timer set: the timers registered *)
  ts_next : Z;                  (* the id the next timerset_add hands out *)
  fork_pid : nat -> pid_t;      (* the PID the k-th fork yields, 0 if it fails *)
  forks : nat;                  (* the forks made so far *)
  signals : list (pid_t * Z);   (* the calls kill (pid, sig) made, oldest first *)
  S16PathOfRepository : Z;      (* the repository's path object *)
  configd_came_up : nat         (* the calls of manager_configd_came_up made *)
}.

Definition set_pt (l : list pid_t) (m : Manager) : Manager :=
  mk_Manager l (ts m) (ts_next m) (fork_pid m) (forks m) (signals m)
             (S16PathOfRepository m) (configd_came_up m).
Definition set_ts (l : list timer_t) (m : Manager) : Manager :=
  mk_Manager (pt m) l (ts_next m) (fork_pid m) (forks m) (signals m)
             (S16PathOfRepository m) (configd_came_up m).
Definition set_ts_next (i : Z) (m : Manager) : Manager :=
  mk_Manager (pt m) (ts m) i (fork_pid m) (forks m) (signals m)
             (S16PathOfRepository m) (configd_came_up m).
Definition set_forks (k : nat) (m : Manager) : Manager :=
  mk_Manager (pt m) (ts m) (ts_next m) (fork_pid m) k (signals m)
             (S16PathOfRepository m) (configd_came_up m).
Definition set_signals (l : list (pid_t * Z)) (m : Manager) : Manager :=
  mk_Manager (pt m) (ts m) (ts_next m) (fork_pid m) (forks m) l
             (S16PathOfRepository m) (configd_came_up m).
Definition set_configd_came_up (k : nat) (m : Manager) : Manager :=
  mk_Manager (pt m) (ts m) (ts_next m) (fork_pid m) (forks m) (signals m)
             (S16PathOfRepository m) k.

(** Modelled from the spec: timer.h is not part of the sources.  The spec
    gives the timer set the interface [add (msec, data, callback) -> id] and
    [del (id)]; [data] is always the unit. *)
Definition timerset_add (m : Manager) (msec : Z) (cb : timer_cb) : Z * Manager :=
  (ts_next m, set_ts_next (ts_next m + 1) (set_ts (ts m ++ [mk_timer (ts_next m) msec cb]) m)).

Definition timerset_del (m : Manager) (id : Z) : Manager :=
  set_ts (filter (fun t => tm_id t <> id) (ts m)) m.

(** Modelled from the spec: the process tracker is not part of the sources;
    it offers [watch (pid)] and [disregard (pid)]. *)
Definition S16ProcessTrackerWatchPID (m : Manager) (pid : pid_t) : Manager :=
  set_pt (pt m ++ [pid]) m.

Fixpoint pid_list_del (l : list pid_t) (pid : pid_t) : list pid_t :=
  match l with
  | [] => []
  | p :: l' => if decide (p = pid) then l' else p :: pid_list_del l' pid
  end.

Definition S16ProcessTrackerDisregardPID (m : Manager) (pid : pid_t) : Manager :=
  set_pt (pid_list_del (pt m) pid) m.

Definition pid_list_add (l : list pid_t) (pid : pid_t) : list pid_t := l ++ [pid].

Definition LL_empty (l : list pid_t) : bool :=
  match l with [] => true | _ => false end.

Definition kill (m : Manager) (pid : pid_t) (sig : Z) : Manager :=
  set_signals (signals m ++ [(pid, sig)]) m.

(** Modelled from the spec: manager_configd_came_up is declared in manager.h
    and defined outside the sources; it notifies the manager that the
    repository came up. *)
Definition manager_configd_came_up (m : Manager) : Manager :=
  set_configd_came_up (S (configd_came_up m)) m.

Definition UnitTimerReg (unit : Unit) (m : Manager) : Unit * Manager :=
  let (id, m) := timerset_add m 2000 cb_unit_timer_event in
  (set_timer_id id unit, m).

Definition UnitTimerDereg (unit : Unit) (m : Manager) : Unit * Manager :=
  (set_timer_id 0 unit, timerset_del m (timer_id unit)).

Definition state_to_S16ServiceMethodype (state : UnitState) : option UnitMethodType :=
  match state with
  | US_PRESTART => Some UM_PRESTART
  | US_START => Some UM_START
  | US_POSTSTART => Some UM_POSTSTART
  | US_STOP => Some UM_STOP
  | US_POSTSTOP => Some UM_POSTSTOP
  | _ => None   (* -1 *)
  end.

Definition unit_stopping (unit : Unit) : bool :=
  bool_decide (state unit = US_STOP) || bool_decide (state unit = US_STOPTERM)
  || bool_decide (state unit = US_STOPKILL) || bool_decide (state unit = US_POSTSTOP).

Definition unit_has_pid (unit : Unit) (pid : pid_t) : bool :=
  bool_decide (pid ∈ pids unit).

(** Remove the given PID from our watch. *)
Definition unit_deregister_pid (unit : Unit) (m : Manager) (pid : pid_t) : Unit * Manager :=
  (set_pids (pid_list_del (pids unit) pid) unit, S16ProcessTrackerDisregardPID m pid).

(** 0 for failure, valid PID for success. *)
Definition unit_fork_and_register (unit : Unit) (m : Manager) (cmd : option string)
    : pid_t * Unit * Manager :=
  let pid := fork_pid m (forks m) in
  let m := set_forks (S (forks m)) m in
  if pid =? 0 then (0, unit, m)
  else (pid, set_pids (pid_list_add (pids unit) pid) unit, S16ProcessTrackerWatchPID m pid).

Definition unit_enter_maintenance (unit : Unit) (m : Manager) : Unit * Manager :=
  (set_state UkS16StateMaintenance unit, m).

Definition unit_enter_offline (unit : Unit) (m : Manager) : Unit * Manager :=
  (set_state UkS16StateOffline unit, m).

Definition unit_enter_online (unit : Unit) (m : Manager) : Unit * Manager :=
  if decide (path unit = S16PathOfRepository m) then (unit, manager_configd_came_up m)
  else (unit, m).

(** [LL_each (&unit->pids, it) { kill (it->val, sig); }] *)
Definition kill_each (m : Manager) (l : list pid_t) (sig : Z) : Manager :=
  foldl (fun m p => kill m p sig) m l.

Fixpoint unit_purge_and_target (fuel : nat) (unit : Unit) (m : Manager) {struct fuel}
    : result (Unit * Manager) :=
  match fuel with
  | O => OutOfFuel
  | S n =>
      if negb (LL_empty (pids unit)) then unit_enter_stop n unit m
      else unit_enter_state n unit m (target unit)
  end

with unit_enter_prestart (fuel : nat) (unit : Unit) (m : Manager) {struct fuel}
    : result (Unit * Manager) :=
  match fuel with
  | O => OutOfFuel
  | S n =>
      match methods unit UM_PRESTART with
      | Some cmd =>
          let unit := set_state US_PRESTART unit in
          let '(unit, m) := UnitTimerReg unit m in
          let '(pid, unit, m) := unit_fork_and_register unit m (Some cmd) in
          let unit := set_main_pid pid unit in
          if main_pid unit =? 0
          then unit_purge_and_target n (set_target UkS16StateMaintenance unit) m
          else Ok (unit, m)
      | None => unit_enter_start n unit m
      end
  end

with unit_enter_start (fuel : nat) (unit : Unit) (m : Manager) {struct fuel}
    : result (Unit * Manager) :=
  match fuel with
  | O => OutOfFuel
  | S n =>
      let unit := set_state US_START unit in
      let '(pid, unit, m) := unit_fork_and_register unit m (methods unit UM_START) in
      let unit := set_main_pid pid unit in
      if main_pid unit =? 0
      then unit_purge_and_target n (set_target UkS16StateMaintenance unit) m
      else if bool_decide (type unit = U_SIMPLE) || bool_decide (type unit = U_ONESHOT)
              || bool_decide (type unit = U_GROUP)
      then unit_enter_poststart n unit m
      else Ok (UnitTimerReg unit m)
  end

with unit_enter_poststart (fuel : nat) (unit : Unit) (m : Manager) {struct fuel}
    : result (Unit * Manager) :=
  match fuel with
  | O => OutOfFuel
  | S n =>
      match methods unit UM_POSTSTART with
      | Some cmd =>
          let unit := set_state US_POSTSTART unit in
          let '(unit, m) := UnitTimerReg unit m in
          let '(pid, unit, m) := unit_fork_and_register unit m (Some cmd) in
          let unit := set_secondary_pid pid unit in
          if secondary_pid unit =? 0
          then unit_purge_and_target n (set_target UkS16StateMaintenance unit) m
          else Ok (unit, m)
      | None => Ok (unit_enter_online unit m)
      end
  end

with unit_enter_stop (fuel : nat) (unit : Unit) (m : Manager) {struct fuel}
    : result (Unit * Manager) :=
  match fuel with
  | O => OutOfFuel
  | S n =>
      match methods unit UM_STOP with
      | Some cmd =>
          let unit := set_state US_STOP unit in
          let '(unit, m) := UnitTimerReg unit m in
          let '(pid, unit, m) := unit_fork_and_register unit m (Some cmd) in
          let unit := set_secondary_pid pid unit in
          if secondary_pid unit =? 0
          then unit_purge_and_target n (set_target UkS16StateMaintenance unit) m
          else Ok (unit, m)
      | None => unit_enter_stopterm n unit m
      end
  end

with unit_enter_stopterm (fuel : nat) (unit : Unit) (m : Manager) {struct fuel}
    : result (Unit * Manager) :=
  match fuel with
  | O => OutOfFuel
  | S n =>
      if LL_empty (pids unit) then unit_enter_state n unit m (target unit)
      else
        let unit := set_state US_STOPTERM unit in
        let m := if main_pid unit =? 0 then m else kill m (main_pid unit) SIGTERM in
        let '(unit, m) := UnitTimerReg unit m in
        Ok (unit, kill_each m (pids unit) SIGTERM)
  end

with unit_enter_state (fuel : nat) (unit : Unit) (m : Manager) (state_ : UnitState)
    {struct fuel} : result (Unit * Manager) :=
  match fuel with
  | O => OutOfFuel
  | S n =>
      match state_ with
      | UkS16StateOffline => Ok (unit_enter_offline unit m)
      | UkS16StateMaintenance => Ok (unit_enter_maintenance unit m)
      | US_PRESTART => unit_enter_prestart n unit m
      | US_START => unit_enter_start n unit m
      | US_POSTSTART => unit_enter_poststart n unit m
      | UkS16StateOnline => Ok (unit_enter_online unit m)
      | UkS16StateNone => Ok (set_state UkS16StateNone unit, m)
      | _ => Ok (unit, m)
      end
  end.

Definition unit_enter_stopkill (fuel : nat) (unit : Unit) (m : Manager)
    : result (Unit * Manager) :=
  if LL_empty (pids unit) then unit_enter_state fuel unit m (target unit)
  else
    let unit := set_state US_STOPKILL unit in
    let m := if main_pid unit =? 0 then m else kill m (main_pid unit) SIGKILL in
    let '(unit, m) := UnitTimerReg unit m in
    Ok (unit, kill_each m (pids unit) SIGKILL).

Definition unit_restart_begin_cb (fuel : nat) (unit : Unit) (m : Manager) (id : Z)
    : result (Unit * Manager) :=
  let unit := set_meth_restart_timer_id 0 unit in
  let m := timerset_del m id in
  unit_enter_prestart fuel unit m.

(** As unit_purge_and_target, but delayed. *)
Definition unit_retry_start (fuel : nat) (unit : Unit) (m : Manager) (msecs : Z)
    : result (Unit * Manager) :=
  let unit := set_target UkS16StateNone unit in
  do r <- unit_purge_and_target fuel unit m;
  let '(unit, m) := r in
  let '(id, m) := timerset_add m 500 cb_unit_restart_begin_cb in
  Ok (set_meth_restart_timer_id id unit, m).

Inductive S16ProcessTrackerEventType : Type :=
  | kS16ProcessTrackerEventTypeChild
  | kS16ProcessTrackerEventTypeExit.

#[global] Instance pt_event_type_eq_dec : EqDecision S16ProcessTrackerEventType.
Proof. solve_decision. Defined.

Record S16ProcessTrackerEvent : Type := mk_ptevent {
  event : S16ProcessTrackerEventType;
  pid : pid_t;
  flags : Z
}.

Section ExitFlags.

(** How an exit's [flags] encode an abnormal exit is the S16 library's
    business. *)
Variable S16ExitWasAbnormal : Z -> bool.

Definition unit_ptevent (fuel : nat) (unit : Unit) (m : Manager)
    (info : S16ProcessTrackerEvent) : result (Unit * Manager) :=
  let is_exit := bool_decide (event info = kS16ProcessTrackerEventTypeExit) in
  (* First of all, make sure to add/remove the PID from our list. *)
  let '(unit, m) :=
    match event info with
    | kS16ProcessTrackerEventTypeChild =>
        if unit_has_pid unit (pid info) then (unit, m)
        else (set_pids (pid_list_add (pids unit) (pid info)) unit,
              S16ProcessTrackerWatchPID m (pid info))
    | kS16ProcessTrackerEventTypeExit => unit_deregister_pid unit m (pid info)
    end in
  if is_exit && unit_stopping unit then
    (* first of all, handle stop-related transitions *)
    match state unit with
    | US_STOP =>
        if LL_empty (pids unit)
        then unit_enter_stopterm fuel unit (timerset_del m (timer_id unit))
        else Ok (unit, m)
    | US_STOPTERM =>
        if LL_empty (pids unit)
        then unit_enter_stopkill fuel unit (timerset_del m (timer_id unit))
        else Ok (unit, m)
    | _ => Ok (unit, m)
    end
  else if is_exit && bool_decide (pid info = main_pid unit) then
    (* main PID has exited *)
    let unit := set_main_pid 0 unit in
    let m := if timer_id unit =? 0 then m else timerset_del m (timer_id unit) in
    if S16ExitWasAbnormal (flags info) then
      if decide (state unit = UkS16StateOnline)
      then unit_purge_and_target fuel (set_target UkS16StateOffline unit) m
      else
        match state_to_S16ServiceMethodype (state unit) with
        | None => Undefined
        | Some i =>
            let unit := fail_cnt_incr i unit in
            if fail_cnt unit i >? 5
            then unit_purge_and_target fuel (set_target UkS16StateMaintenance unit) m
            else unit_retry_start fuel (set_target (state unit) unit) m 5000
        end
    else
      match state unit with
      | US_PRESTART => unit_purge_and_target fuel (set_target US_START unit) m
      | UkS16StateOnline | US_POSTSTART =>
          if decide (type unit = U_SIMPLE)
          then unit_enter_stop fuel (set_target UkS16StateOffline unit) m
          else if negb (bool_decide (type unit = U_GROUP)) && LL_empty (pids unit)
          then unit_enter_stop fuel (set_target UkS16StateOffline unit) m
          else Ok (unit, m)
      | _ => Ok (unit, m)
      end
  else if is_exit && bool_decide (pid info = secondary_pid unit) then
    if decide (state unit = US_POSTSTART) then
      let m := if timer_id unit =? 0 then m else timerset_del m (timer_id unit) in
      let unit := set_secondary_pid 0 unit in
      if S16ExitWasAbnormal (flags info) then
        match state_to_S16ServiceMethodype (state unit) with
        | None => Undefined
        | Some i =>
            let unit := fail_cnt_incr i unit in
            if fail_cnt unit i >? 5
            then unit_purge_and_target fuel (set_target UkS16StateMaintenance unit) m
            else unit_retry_start fuel (set_target US_PRESTART unit) m 5000
        end
      else (* successful exit from PostStart method *)
        Ok (unit_enter_online unit m)
    else Ok (unit, m)
  else Ok (unit, m).

End ExitFlags.

Definition unit_timer_event (fuel : nat) (unit : Unit) (m : Manager) (id : Z)
    : result (Unit * Manager) :=
  let unit := set_timer_id 0 unit in
  let m := timerset_del m id in
  match state unit with
  | US_STOP => unit_enter_stopterm fuel unit m
  | US_STOPTERM => Ok (unit, m)
  | US_STOPKILL => unit_enter_state fuel unit m (target unit)
  | US_PRESTART | US_START =>
      let unit := fail_cnt_incr UM_PRESTART unit in
      if fail_cnt unit UM_PRESTART >? 5
      then unit_purge_and_target fuel (set_target UkS16StateMaintenance unit) m
      else unit_purge_and_target fuel (set_target US_PRESTART unit) m
  | _ => Ok (unit, m)
  end.

Definition unit_notify_ready (fuel : nat) (unit : Unit) (m : Manager)
    : result (Unit * Manager) :=
  if decide (state unit = US_START)
  then let '(unit, m) := UnitTimerDereg unit m in unit_enter_poststart fuel unit m
  else Ok (unit, m).

(** ** Requests to a unit *)

Section Requests.

(** [note->type] read as a restarter request; the values of the enumerators
    are the S16 library's. *)
Variable rreq_type_of : S16.s16note_t -> S16.s16note_rreq_type_t.

(** Sends a note to the given unit. *)
Definition unit_msg (fuel : nat) (unit : Unit) (m : Manager) (note : S16.s16note_t)
    : result (Unit * Manager) :=
  match rreq_type_of note with
  | S16.RR_START => unit_enter_prestart fuel unit m
  | _ => Ok (unit, m)
  end.

End Requests.

(** ** What an event may do to a unit *)

(** [ev] ranges over the ways unit.c is entered from outside: a process
    tracker event, a method timer, the restart timer, a readiness
    notification, a request. *)
Inductive unit_event : Type :=
  | ev_ptevent (info : S16ProcessTrackerEvent)
  | ev_timer (id : Z)
  | ev_restart_timer (id : Z)
  | ev_notify_ready
  | ev_msg (note : S16.s16note_t).

Section Dispatch.

Variable S16ExitWasAbnormal : Z -> bool.
Variable rreq_type_of : S16.s16note_t -> S16.s16note_rreq_type_t.

Definition unit_dispatch (fuel : nat) (ev : unit_event) (unit : Unit) (m : Manager)
    : result (Unit * Manager) :=
  match ev with
  | ev_ptevent info => unit_ptevent S16ExitWasAbnormal fuel unit m info
  | ev_timer id => unit_timer_event fuel unit m id
  | ev_restart_timer id => unit_restart_begin_cb fuel unit m id
  | ev_notify_ready => unit_notify_ready fuel unit m
  | ev_msg note => unit_msg rreq_type_of fuel unit m note
  end.

End Dispatch.

(** What holds between [unit], [m] before and [unit'], [m'] after any of the
    functions that enter a state: the methods, the fail counters and the fork
    oracle are the same; the signals sent in between are all SIGTERM; a PID
    list that was the process tracker's watch list still is; and the state is
    not US_STOPKILL unless it was. *)
Definition unit_frame (unit : Unit) (m : Manager) (unit' : Unit) (m' : Manager) : Prop :=
  methods unit' = methods unit
  /\ fail_cnt unit' = fail_cnt unit
  /\ fork_pid m' = fork_pid m
  /\ (exists l, signals m' = signals m ++ l /\ Forall (fun x => x.2 = SIGTERM) l)
  /\ (pids unit = pt m -> pids unit' = pt m')
  /\ (state unit <> US_STOPKILL -> state unit' <> US_STOPKILL).

(** [f] keeps the frame whenever it comes back. *)
Definition keeps_frame (f : Unit -> Manager -> result (Unit * Manager)) : Prop :=
  forall unit m unit' m', f unit m = Ok (unit', m') -> unit_frame unit m unit' m'.

(** What holds across one event: as [unit_frame], except that a fail counter
    may have gone one step further. *)
Definition unit_event_ok (unit : Unit) (m : Manager) (unit' : Unit) (m' : Manager) : Prop :=
  methods unit' = methods unit
  /\ fork_pid m' = fork_pid m
  /\ (forall i, fail_cnt unit' i = fail_cnt unit i
                \/ fail_cnt unit' i = int_incr (fail_cnt unit i))
  /\ (exists l, signals m' = signals m ++ l /\ Forall (fun x => x.2 = SIGTERM) l)
  /\ (pids unit = pt m -> pids unit' = pt m')
  /\ (state unit <> US_STOPKILL -> state unit' <> US_STOPKILL).

End Restartd.

(** ** The world around a unit whose PreStart method keeps failing *)
Module Scenario.
Import Restartd.

(** How an attempt of the method ends. *)
Inductive failure : Type :=
  | abnormal_exit (flags : Z)   (* the method's process exits abnormally *)
  | timeout.                    (* the method's process outlives the 2 s timer *)

Definition exit_of (p : pid_t) (flags : Z) : S16ProcessTrackerEvent :=
  mk_ptevent kS16ProcessTrackerEventTypeExit p flags.

Section ExitFlags.
Variable S16ExitWasAbnormal : Z -> bool.

(** The timer set fires the pending restart timer, if there is one. *)
Definition fire_restart_timer (fuel : nat) (unit : Unit) (m : Manager)
    : result (Unit * Manager) :=
  match List.find (fun t => bool_decide (tm_cb t = cb_unit_restart_begin_cb)) (ts m) with
  | Some t => unit_restart_begin_cb fuel unit m (tm_id t)
  | None => Ok (unit, m)
  end.

(** The processes [l] exit one after the other, and the process tracker
    reports each exit. *)
Fixpoint exits (fuel : nat) (l : list pid_t) (flags : Z) (unit : Unit) (m : Manager)
    : result (Unit * Manager) :=
  match l with
  | [] => Ok (unit, m)
  | p :: l' =>
      do r <- unit_ptevent S16ExitWasAbnormal fuel unit m (exit_of p flags);
      exits fuel l' flags (fst r) (snd r)
  end.

(** One failed attempt, up to the point where the unit has settled again.
    After an abnormal exit the restart timer fires.  After a timeout the unit
    is stopping the processes it tracks, and they all exit. *)
Definition failed_attempt (fuel : nat) (f : failure) (unit : Unit) (m : Manager)
    : result (Unit * Manager) :=
  match f with
  | abnormal_exit flags =>
      do r <- unit_ptevent S16ExitWasAbnormal fuel unit m (exit_of (main_pid unit) flags);
      fire_restart_timer fuel (fst r) (snd r)
  | timeout =>
      do r <- unit_timer_event fuel unit m (timer_id unit);
      exits fuel (pids (fst r)) 0 (fst r) (snd r)
  end.

(** The failure is one: an exit counts only when its flags say abnormal. *)
Definition failure_ok (f : failure) : Prop :=
  match f with
  | abnormal_exit flags => S16ExitWasAbnormal flags = true
  | timeout => True
  end.

Fixpoint failed_attempts (fuel : nat) (fs : list failure) (unit : Unit) (m : Manager)
    : result (Unit * Manager) :=
  match fs with
  | [] => Ok (unit, m)
  | f :: fs' =>
      do r <- failed_attempt fuel f unit m;
      failed_attempts fuel fs' (fst r) (snd r)
  end.

End ExitFlags.

(** The unit is running its PreStart method, which has failed [k] times so
    far; forks succeed. *)
Definition in_prestart (k : Z) (unit : Unit) (m : Manager) : Prop :=
  state unit = US_PRESTART
  /\ methods unit UM_PRESTART <> None
  /\ main_pid unit <> 0
  /\ pids unit = [main_pid unit]
  /\ fail_cnt unit UM_PRESTART = k
  /\ (forall j, fork_pid m j <> 0)
  /\ (forall t, t ∈ ts m -> tm_cb t <> cb_unit_restart_begin_cb).

(** What is left of the unit once it has given up. *)
Definition in_maintenance (unit : Unit) : Prop :=
  state unit = UkS16StateMaintenance /\ target unit = UkS16StateMaintenance
  /\ fail_cnt unit UM_PRESTART = 6 /\ pids unit = [].

(** [f] never turns a state other than the Online value into it. *)
Definition never_online (f : Unit -> Manager -> result (Unit * Manager)) : Prop :=
  forall unit m unit' m',
    state unit <> UkS16StateOnline -> f unit m = Ok (unit', m') ->
    state unit' <> UkS16StateOnline.

(** An exit is abnormal when its flags are not 0 (for the examples). *)
Definition flags_nonzero (flags : Z) : bool := negb (flags =? 0).

Definition methods_pre_start (i : UnitMethodType) : option string :=
  match i with
  | UM_PRESTART => Some "/sbin/pre"
  | UM_START => Some "/sbin/daemon"
  | _ => None
  end.

(** A unit in PreStart, process 100 running its method. *)
Definition unit_in_prestart : Unit :=
  mk_Unit 1 U_SIMPLE methods_pre_start US_PRESTART UkS16StateNone 100 0 [100] 1 0
          (fun _ => 0).

Definition manager_in_prestart : Manager :=
  mk_Manager [100] [mk_timer 1 2000 cb_unit_timer_event] 2
             (fun k => 101 + Z.of_nat k) 1 [] 0 0.

(** The same unit once process 100 has gone and its timer is cancelled. *)
Definition unit_after_exit : Unit :=
  mk_Unit 1 U_SIMPLE methods_pre_start US_PRESTART US_PRESTART 0 0 [] 1 0 (fun _ => 1).

Definition manager_after_exit : Manager :=
  mk_Manager [] [] 2 (fun k => 101 + Z.of_nat k) 1 [] 0 0.

(** A unit whose Start method has just been forked (process 100), and which
    has a PostStart method. *)
Definition methods_post_start (i : UnitMethodType) : option string :=
  match i with
  | UM_START => Some "/sbin/daemon"
  | UM_POSTSTART => Some "/sbin/post"
  | _ => None
  end.

Definition unit_in_poststart : Unit :=
  mk_Unit 1 U_SIMPLE methods_post_start US_POSTSTART UkS16StateNone 100 101 [100; 101] 1 0
          (fun _ => 0).

Definition manager_in_poststart : Manager :=
  mk_Manager [100; 101] [mk_timer 1 2000 cb_unit_timer_event] 2
             (fun k => 102 + Z.of_nat k) 2 [] 0 0.

End Scenario.

(** ** Small graphs and units on which the properties are exercised *)
Module Examples.
Import S16 Graph.

Definition inst_vtx (p : S16Path) (st : S16State) (setup enabled to_off to_dis : bool)
    (deps dpts : list edge_t) : vertex_t :=
  mk_vertex p V_INST kS16RequireAll kS16RestartOnAny st setup enabled to_off to_dis deps dpts.

Definition svc_vtx (p : S16Path) (setup : bool) (deps dpts : list edge_t) : vertex_t :=
  mk_vertex p V_SVC kS16RequireAll kS16RestartOnAny kS16StateUninitialised
            setup false false false deps dpts.

Definition dg_vtx (p : S16Path) (k : S16DependencyGroupType)
    (r : S16DependencyGroupRestartOnCondition) (deps dpts : list edge_t) : vertex_t :=
  mk_vertex p V_DEPGROUP k r kS16StateUninitialised false false false false deps dpts.

Definition path_a_i : S16Path := S16PathNew "a" (Some "i").
Definition path_b : S16Path := S16PathNew "b" None.
Definition path_b_j : S16Path := S16PathNew "b" (Some "j").
Definition path_a_i_dg0 : S16Path := S16PathNew "a" (Some "i#depgroups/0").

(** Instance a:i (vertex 2) declares one dependency group (vertex 1) of kind
    [k] and intensity [r] whose only target is instance b:j (vertex 0). *)
Definition chain (k : S16DependencyGroupType) (r : S16DependencyGroupRestartOnCondition)
    (b_j a_i : list edge_t -> list edge_t -> vertex_t) : graph_t :=
  [ b_j [] [edge_new 0 1];
    dg_vtx path_a_i_dg0 k r [edge_new 1 0] [edge_new 1 2];
    a_i [edge_new 2 1] [] ].

(** Ranks for [chain]: along dependencies and along dependents. *)
Definition chain_rk_deps (v : vertex_id) : nat := Nat.min v 2.
Definition chain_rk_dpts (v : vertex_id) : nat := (2 - v)%nat.

(** b:j was never set up. *)
Definition g_require_any : graph_t :=
  chain kS16RequireAny kS16RestartOnAny
        (inst_vtx path_b_j kS16StateUninitialised false false false false)
        (inst_vtx path_a_i kS16StateOffline true true false false).

(** The group of a:i (vertex 2) is an exclusion (vertex 1) of the whole
    service b (vertex 0), whose one instance b:j (vertex 3) is up. *)
Definition g_exclude_service : graph_t :=
  [ svc_vtx path_b true [edge_new 0 3] [edge_new 0 1];
    dg_vtx path_a_i_dg0 kS16ExcludeAll kS16RestartOnAny [edge_new 1 0] [edge_new 1 2];
    inst_vtx path_a_i kS16StateOffline true true false false [edge_new 2 1] [];
    inst_vtx path_b_j kS16StateOnline true true false false [] [edge_new 3 0] ].

(** a:i excludes b:j; both are set up, neither runs. *)
Definition g_exclude : graph_t :=
  chain kS16ExcludeAll kS16RestartOnAny
        (inst_vtx path_b_j kS16StateOffline true true false false)
        (inst_vtx path_a_i kS16StateOffline true true false false).

(** a:i (vertex 2) excludes b:j (vertex 0) through its group (vertex 1);
    b:j declares a group of its own (vertex 3), which is about to get a:i as
    its target. *)
Definition g_exclude_cycle : graph_t :=
  [ inst_vtx path_b_j kS16StateOffline true true false false [edge_new 0 3] [edge_new 0 1];
    dg_vtx path_a_i_dg0 kS16ExcludeAll kS16RestartOnAny [edge_new 1 0] [edge_new 1 2];
    inst_vtx path_a_i kS16StateOffline true true false false [edge_new 2 1] [];
    dg_vtx (S16PathNew "b" (Some "j#depgroups/0")) kS16RequireAll kS16RestartOnAny
           [] [edge_new 3 0] ].

(** a:i requires b:j; both run, and a:i has been marked to go offline. *)
Definition g_going_down : graph_t :=
  chain kS16RequireAll kS16RestartOnAny
        (inst_vtx path_b_j kS16StateOnline true true true false)
        (inst_vtx path_a_i kS16StateOnline true true true false).

(** a:i requires b:j; b:j is up, a:i is not yet. *)
Definition g_coming_up : graph_t :=
  chain kS16RequireAll kS16RestartOnAny
        (inst_vtx path_b_j kS16StateOnline true true false false)
        (inst_vtx path_a_i kS16StateOffline true true false false).

(** a:i requires b:j and restarts on errors only; both run. *)
Definition g_restart_on_error : graph_t :=
  chain kS16RequireAll kS16RestartOnError
        (inst_vtx path_b_j kS16StateOnline true true false false)
        (inst_vtx path_a_i kS16StateOnline true true false false).

(** Vertex 0 depends on 1 and 2, vertex 1 on 3, vertex 2 on 3 and 4. *)
Definition g_diamond : graph_t :=
  [ svc_vtx (S16PathNew "s0" None) true [edge_new 0 1; edge_new 0 2] [];
    svc_vtx (S16PathNew "s1" None) true [edge_new 1 3] [edge_new 1 0];
    svc_vtx (S16PathNew "s2" None) true [edge_new 2 3; edge_new 2 4] [edge_new 2 0];
    svc_vtx (S16PathNew "s3" None) true [] [edge_new 3 1; edge_new 3 2];
    svc_vtx (S16PathNew "s4" None) true [] [edge_new 4 2] ].

End Examples.

(** ** More units on which the properties are exercised *)
Module UnitExamples.
Import Restartd Scenario.

Definition methods_with_stop (i : UnitMethodType) : option string :=
  match i with
  | UM_START => Some "/sbin/daemon"
  | UM_STOP => Some "/sbin/daemon-stop"
  | _ => None
  end.

(** A daemon (process 100) whose unit has a stop method. *)
Definition unit_with_stop : Unit :=
  mk_Unit 1 U_SIMPLE methods_with_stop US_START UkS16StateNone 100 0 [100] 0 0 (fun _ => 0).

(** A manager for which every fork fails. *)
Definition manager_fork_fails : Manager :=
  mk_Manager [100] [] 1 (fun _ => 0) 1 [] 0 0.

(** A unit that tracks no process, about to run a method. *)
Definition unit_idle : Unit :=
  mk_Unit 1 U_SIMPLE methods_pre_start UkS16StateOffline UkS16StateNone 0 0 [] 0 0
          (fun _ => 0).

Definition manager_idle_fork_fails : Manager :=
  mk_Manager [] [] 1 (fun _ => 0) 0 [] 0 0.

(** A unit that has sent SIGTERM to its two processes and is headed for
    Offline. *)
Definition unit_in_stopterm : Unit :=
  mk_Unit 1 U_SIMPLE methods_pre_start US_STOPTERM UkS16StateOffline 100 0 [100; 101] 2 0
          (fun _ => 0).

Definition manager_in_stopterm : Manager :=
  mk_Manager [100; 101] [mk_timer 2 2000 cb_unit_timer_event] 3
             (fun k => 102 + Z.of_nat k) 2 [(100, SIGTERM); (100, SIGTERM); (101, SIGTERM)]
             0 0.

End UnitExamples.

(** ** Sentences of the specification that the code does not bear out, stated
    as the specification words them *)
Module SpecClaims.
Import S16 Graph.

(** "dependency_add (u, v) rejects with cycle if reachable (v, u); otherwise
    adds symmetric edges", reachability being through dependency edges. *)
Definition dependency_add_claim (g : graph_t) (u v : vertex_id) : Prop :=
  (can_reach g v u -> exists p, vtx_dependency_add g u v [] = Ok (1, g, p))
  /\ (~ can_reach g v u -> vtx_dependency_add g u v [] = Ok (0, vtx_edge_add g u v, [])).

(** "can_go_down (v, root): true iff every dependent either (a) is an
    Instance with to_offline set, or (b) recursively can_go_down. If not
    root, a running Instance returns false." *)
Definition can_go_down_claim (fuel : nat) (g : graph_t) (v : vertex_id) (root : bool)
    : Prop :=
  vtx_can_go_down fuel g v root = Ok true <->
    (forall e, e ∈ dependents (vtx g v) ->
       (type (vtx g (to e)) = V_INST /\ to_offline (vtx g (to e)) = true)
       \/ vtx_can_go_down fuel g (to e) false = Ok true)
    /\ ~ (root = false /\ type (vtx g v) = V_INST /\ vtx_is_running g v = true).

(** "Duplicate SC_ONLINE for an already-Online vertex is a no-op and must not
    re-emit downstream notifications." *)
Definition sc_online_noop_claim (NDEBUG : bool) (fuel : nat) (g : graph_t)
    (notes : s16note_list_t) (v : vertex_id) (reason : Z) : Prop :=
  state (vtx g v) = kS16StateOnline ->
  exists added,
    vtx_process_state_change NDEBUG fuel g notes v SC_ONLINE reason = Ok (g, notes ++ added)
    /\ forall x, x ∈ added -> note_type x <> N_STATE_CHANGE SC_ONLINE.

End SpecClaims.

(** * Properties *)

Lemma bind_Ok_inv {A B : Type} (m : result A) (k : A -> result B) (b : B) :
  bind m k = Ok b -> exists a, m = Ok a /\ k a = Ok b.
Proof. destruct m as [a| | |]; simpl; intros H; eauto; discriminate. Qed.

Lemma refines_refl {A : Type} (r : result A) : refines r r.
Proof. by right. Qed.

Lemma refines_bind {A B : Type} (m m' : result A) (k k' : A -> result B) :
  refines m m' -> (forall a, refines (k a) (k' a)) -> refines (bind m k) (bind m' k').
Proof.
  intros [->| <-] Hk; [by left|]. destruct m; simpl; [apply Hk | by right ..].
Qed.

Lemma refines_Ok {A : Type} (r r' : result A) a : refines r r' -> r = Ok a -> r' = Ok a.
Proof. intros [->| <-]; [discriminate | done]. Qed.

Lemma refines_halts {A : Type} (r r' : result A) : refines r r' -> halts r -> r' = r.
Proof. intros [->| <-]; [contradiction | done]. Qed.

Lemma halts_bind {A B : Type} (m : result A) (k : A -> result B) :
  halts m -> (forall a, m = Ok a -> halts (k a)) -> halts (bind m k).
Proof. destruct m; simpl; intros Hm Hk; [by apply Hk | done ..]. Qed.

Module GraphProps.
Import S16 Graph Examples SpecClaims.

Lemma vtx_lookup g v x : g !! v = Some x -> vtx g v = x.
Proof. unfold vtx. intros ->. reflexivity. Qed.

Lemma vtx_dangling g v : (length g <= v)%nat -> vtx g v = vertex_null.
Proof. intros H. unfold vtx. rewrite lookup_ge_None_2; [reflexivity | lia]. Qed.

(** *** Termination of the reachability search *)

Lemma unseen_mono l seen seen' :
  seen ⊆ seen' -> (unseen l seen' <= unseen l seen)%nat.
Proof.
  intros Hsub. unfold unseen. induction l as [|a l IH]; [reflexivity|].
  rewrite !filter_cons. destruct (decide (a ∉ seen')) as [H1|H1];
    destruct (decide (a ∉ seen)) as [H2|H2]; simpl; try lia.
  exfalso. apply H2. intros Ha. apply H1. apply Hsub. exact Ha.
Qed.

Lemma unseen_add l seen v :
  v ∈ l -> v ∉ seen -> (unseen l (seen ++ [v]) < unseen l seen)%nat.
Proof.
  intros Hvl Hn. unfold unseen. revert Hvl.
  induction l as [|a l IH]; intros Hvl; [by apply elem_of_nil in Hvl|].
  assert (Hle : (length (filter (fun i => i ∉ seen ++ [v]) l)
                 <= length (filter (fun i => i ∉ seen) l))%nat).
  { apply (unseen_mono l seen (seen ++ [v])). intros x Hx. apply elem_of_app. by left. }
  rewrite !filter_cons.
  destruct (decide (a = v)) as [->|Hne].
  - destruct (decide (v ∉ seen ++ [v])) as [H1|H1].
    { exfalso. apply H1. apply elem_of_app. right. by apply list_elem_of_singleton. }
    destruct (decide (v ∉ seen)) as [H2|H2]; [|contradiction]. simpl. lia.
  - apply elem_of_cons in Hvl as [->|Hl]; [done|]. specialize (IH Hl).
    destruct (decide (a ∉ seen ++ [v])) as [H1|H1];
      destruct (decide (a ∉ seen)) as [H2|H2]; simpl; try lia.
    exfalso. apply H2. intros Ha. apply H1. apply elem_of_app. by left.
Qed.

Lemma reach_edges_total n g to_ es :
  reach_total_at n g to_ ->
  forall seen p, (unseen (seq 0 (length g)) seen < n)%nat ->
    exists c seen' p',
      reach_edges (fun w s q => vtx_is_reachable_internal n g w to_ s q) es seen p
        = Ok (c, seen', p') /\ seen ⊆ seen'.
Proof.
  intros IH. induction es as [|e es IHes]; intros seen p Hlt; simpl.
  - exists true, seen, p. split; [reflexivity | set_solver].
  - destruct (IH (to e) seen p Hlt) as (c & s1 & p1 & -> & Hs1). simpl.
    destruct c.
    + destruct (IHes s1 p1) as (c2 & s2 & p2 & -> & Hs2).
      { pose proof (unseen_mono (seq 0 (length g)) _ _ Hs1). lia. }
      exists c2, s2, p2. split; [reflexivity | set_solver].
    + exists false, s1, p1. split; [reflexivity | assumption].
Qed.

Lemma vtx_is_reachable_internal_total n g to_ : reach_total_at n g to_.
Proof.
  induction n as [|n IH]; intros v seen p Hlt; [lia|].
  simpl. unfold vertex_list_find_eq.
  destruct (bool_decide (v ∈ seen)) eqn:Hseen.
  { exists false, seen, p. split; [reflexivity | set_solver]. }
  apply bool_decide_eq_false in Hseen.
  destruct (decide (dg_type (vtx g v) = kS16ExcludeAll)).
  { eexists _, _, _. split; [reflexivity | unfold vertex_list_add; set_solver]. }
  destruct (decide (v = to_)).
  { eexists _, _, _. split; [reflexivity | unfold vertex_list_add; set_solver]. }
  destruct (decide (v < length g)%nat) as [Hv|Hv].
  - destruct (reach_edges_total n g to_ (dependencies (vtx g v)) IH
                (vertex_list_add seen v) p) as (c & s1 & p1 & -> & Hs1).
    { assert (Hvg : v ∈ seq 0 (length g)) by (apply elem_of_seq; lia).
      pose proof (unseen_add _ _ _ Hvg Hseen). unfold vertex_list_add. lia. }
    simpl. eexists _, _, _. split; [reflexivity | unfold vertex_list_add in *; set_solver].
  - rewrite vtx_dangling by lia. simpl.
    eexists _, _, _. split; [reflexivity | unfold vertex_list_add; set_solver].
Qed.

Lemma unseen_le l seen : (unseen l seen <= length l)%nat.
Proof. unfold unseen. apply length_filter. Qed.

Lemma vtx_is_reachable_total g from_ to_ p :
  exists b p', vtx_is_reachable g from_ to_ p = Ok (b, p').
Proof.
  unfold vtx_is_reachable.
  destruct (vtx_is_reachable_internal_total (S (length g)) g to_ from_ [] p)
    as (c & s1 & p1 & -> & _).
  { pose proof (unseen_le (seq 0 (length g)) []). rewrite length_seq in H. lia. }
  simpl. eauto.
Qed.


(** *** What the search leaves in [pathTo] *)

Lemma reach_edges_sound n g to_ es :
  reach_sound_at n g to_ ->
  forall seen c seen' p,
    reach_edges (fun w s q => vtx_is_reachable_internal n g w to_ s q) es seen []
      = Ok (c, seen', p) ->
    p = [] \/ (c = false /\ exists e, e ∈ es /\ dep_path g (to e) to_ p).
Proof.
  intros IH. induction es as [|e es IHes]; intros seen c seen' p; simpl.
  - intros [= <- <- <-]. left. reflexivity.
  - intros H. apply bind_Ok_inv in H as ([[c1 s1] p1] & H1 & H2).
    destruct (IH _ _ _ _ _ H1) as [-> | [-> Hp]].
    + destruct c1.
      * destruct (IHes _ _ _ _ H2) as [-> | (-> & e' & He' & Hp)]; [by left|].
        right. split; [reflexivity|]. exists e'. split; [set_solver | assumption].
      * injection H2 as <- <- <-. by left.
    + injection H2 as <- <- <-. right. split; [reflexivity|].
      exists e. split; [set_solver | assumption].
Qed.

Lemma vtx_is_reachable_internal_sound n g to_ : reach_sound_at n g to_.
Proof.
  induction n as [|n IH]; intros v seen c seen' p; simpl; [discriminate|].
  destruct (vertex_list_find_eq seen v).
  { intros [= <- <- <-]. by left. }
  destruct (decide (dg_type (vtx g v) = kS16ExcludeAll)) as [|Hex].
  { intros [= <- <- <-]. by left. }
  destruct (decide (v = to_)) as [->|Hne].
  { intros [= <- <- <-]. right. split; [reflexivity|]. by constructor. }
  intros H. apply bind_Ok_inv in H as ([[c1 s1] p1] & H1 & H2).
  injection H2 as <- <- <-.
  destruct (reach_edges_sound n g to_ _ IH _ _ _ _ H1) as [-> | (-> & e & He & Hp)].
  - by left.
  - right. split; [reflexivity|].
    destruct (decide (vertex_list_size p1 = 0%nat)) as [Hz|Hz].
    + destruct p1; [inversion Hp | discriminate].
    + unfold vertex_list_lpush. by econstructor.
Qed.

Lemma dep_path_can_reach g v w p : dep_path g v w p -> can_reach g v w.
Proof. induction 1; [constructor | by econstructor]. Qed.

Lemma dep_path_nonempty g v w p : dep_path g v w p -> p <> [].
Proof. by destruct 1. Qed.

(** *** Stores *)

Lemma vtx_store_eq f v g : (v < length g)%nat -> vtx (store f v g) v = f (vtx g v).
Proof.
  intros Hv. unfold vtx, store. rewrite list_lookup_alter_eq.
  destruct (lookup_lt_is_Some_2 g v Hv) as [x ->]. reflexivity.
Qed.

Lemma vtx_store_ne f v w g : w <> v -> vtx (store f v g) w = vtx g w.
Proof. intros Hne. unfold vtx, store. by rewrite list_lookup_alter_ne. Qed.

Lemma vtx_store_dangling f v w g :
  (length g <= v)%nat -> vtx (store f v g) w = vtx g w.
Proof.
  intros Hv. destruct (decide (w = v)) as [->|Hne]; [|by apply vtx_store_ne].
  unfold vtx, store. rewrite list_lookup_alter_eq.
  by rewrite lookup_ge_None_2 by lia.
Qed.

Lemma store_length f v g : length (store f v g) = length g.
Proof. unfold store. apply length_alter. Qed.

Lemma vtx_edge_add_dependencies g u v :
  (u < length g)%nat ->
  dependencies (vtx (vtx_edge_add g u v) u) = dependencies (vtx g u) ++ [edge_new u v].
Proof.
  intros Hu. unfold vtx_edge_add.
  destruct (decide (u = v)) as [<-|Hne].
  - rewrite vtx_store_eq by (rewrite store_length; lia). simpl.
    by rewrite vtx_store_eq.
  - rewrite vtx_store_ne by done. by rewrite vtx_store_eq.
Qed.

Lemma vtx_edge_add_dependents g u v :
  (v < length g)%nat ->
  dependents (vtx (vtx_edge_add g u v) v) = dependents (vtx g v) ++ [edge_new v u].
Proof.
  intros Hv. unfold vtx_edge_add.
  rewrite vtx_store_eq by (rewrite store_length; lia). simpl.
  destruct (decide (v = u)) as [->|Hne].
  - by rewrite vtx_store_eq.
  - by rewrite vtx_store_ne.
Qed.

Lemma vtx_edge_add_dependencies_ne g u v w :
  w <> u -> dependencies (vtx (vtx_edge_add g u v) w) = dependencies (vtx g w).
Proof.
  intros Hne. unfold vtx_edge_add.
  destruct (decide (w = v)) as [->|Hwv].
  - destruct (decide (v < length g)%nat).
    + rewrite vtx_store_eq by (rewrite store_length; lia). simpl. by rewrite vtx_store_ne.
    + rewrite vtx_store_dangling by (rewrite store_length; lia).
      by rewrite vtx_store_ne.
  - by rewrite !vtx_store_ne.
Qed.

Lemma vtx_edge_add_dependents_ne g u v w :
  w <> v -> dependents (vtx (vtx_edge_add g u v) w) = dependents (vtx g w).
Proof.
  intros Hne. unfold vtx_edge_add. rewrite vtx_store_ne by done.
  destruct (decide (w = u)) as [->|Hwu].
  - destruct (decide (u < length g)%nat).
    + by rewrite vtx_store_eq.
    + by rewrite vtx_store_dangling by lia.
  - by rewrite vtx_store_ne.
Qed.

(** What vtx_dependency_add does keep of its contract.  Called on two
    vertices of the graph with an empty [pathTo], it always comes back, with
    1 or with 0.  When it yields 1 the heap is untouched and [pathTo] holds a
    chain of dependency edges from [v] to [u] none of whose vertices is a
    kS16ExcludeAll group, so [v] does reach [u]: it never rejects an edge that
    closes no cycle.  When it yields 0, [pathTo] is still empty and the
    symmetric pair has been added: [u]'s dependencies end in the edge u->v,
    [v]'s dependents end in the edge v->u, and no other edge list changed.
    The converse, that an edge which closes a cycle is rejected, does not
    hold (see [dependency_add_accepts_cycle]). *)
Lemma vtx_dependency_add_spec (g : graph_t) (u v : vertex_id)
    (Hu : (u < length g)%nat) (Hv : (v < length g)%nat) :
  exists r g' p,
    vtx_dependency_add g u v [] = Ok (r, g', p) /\
    ((r = 1 /\ g' = g /\ dep_path g v u p /\ can_reach g v u)
     \/ (r = 0 /\ p = [] /\ g' = vtx_edge_add g u v
         /\ dependencies (vtx g' u) = dependencies (vtx g u) ++ [edge_new u v]
         /\ dependents (vtx g' v) = dependents (vtx g v) ++ [edge_new v u]
         /\ (forall w, w <> u -> dependencies (vtx g' w) = dependencies (vtx g w))
         /\ (forall w, w <> v -> dependents (vtx g' w) = dependents (vtx g w)))).
Proof.
  unfold vtx_dependency_add, vtx_is_reachable.
  destruct (vtx_is_reachable_internal_total (S (length g)) g u v [] [])
    as (c & s1 & p1 & Hrun & _).
  { pose proof (unseen_le (seq 0 (length g)) []) as Hle.
    rewrite length_seq in Hle. lia. }
  rewrite Hrun. cbn [bind].
  destruct (vtx_is_reachable_internal_sound _ _ _ _ _ _ _ _ Hrun) as [-> | [-> Hp]].
  - cbn. eexists _, _, _. split; [reflexivity|]. right.
    repeat split; auto using vtx_edge_add_dependencies, vtx_edge_add_dependents,
      vtx_edge_add_dependencies_ne, vtx_edge_add_dependents_ne.
  - destruct p1 as [|a p1]; [inversion Hp|]. cbn.
    eexists _, _, _. split; [reflexivity|]. left.
    repeat split; eauto using dep_path_can_reach.
Qed.

(** *** vtx_can_go_down *)

Lemma can_go_down_loop_spec rec g es b :
  can_go_down_loop rec g es = Ok b ->
  (b = true <-> forall e, e ∈ es -> skipped g (to e) \/ rec (to e) = Ok true).
Proof.
  revert b. induction es as [|e es IH]; intros b; simpl.
  - intros [= <-]. split; [|done]. intros _ e He. by apply elem_of_nil in He.
  - destruct (bool_decide (type (vtx g (to e)) = V_INST)
              && negb (to_offline (vtx g (to e)))) eqn:Hskip.
    + intros H. rewrite (IH _ H). 
      apply andb_true_iff in Hskip as [Ht Ho].
      apply bool_decide_eq_true in Ht. apply negb_true_iff in Ho.
      split.
      * intros Hall e' He'. apply elem_of_cons in He' as [->|He']; [by left | auto].
      * intros Hall e' He'. apply Hall. apply elem_of_cons. by right.
    + intros H. apply bind_Ok_inv in H as (b1 & Hrec & H).
      assert (Hns : ~ skipped g (to e)).
      { intros [Ht Ho]. rewrite Ht, Ho in Hskip. by rewrite bool_decide_eq_true_2 in Hskip. }
      destruct b1; simpl in H.
      * rewrite (IH _ H). split.
        -- intros Hall e' He'. apply elem_of_cons in He' as [->|He']; [by right | auto].
        -- intros Hall e' He'. apply Hall. apply elem_of_cons. by right.
      * injection H as <-. split; [done|]. intros Hall.
        destruct (Hall e) as [Hs|Hr]; [apply elem_of_cons; by left | done | congruence].
Qed.

Lemma can_go_down_loop_total rec g es :
  (forall e, e ∈ es -> exists b, rec (to e) = Ok b) ->
  exists b, can_go_down_loop rec g es = Ok b.
Proof.
  induction es as [|e es IH]; intros Hrec; simpl; [eauto|].
  destruct IH as [b Hb]. { intros e' He'. apply Hrec. apply elem_of_cons. by right. }
  destruct (_ && _); [eauto|].
  destruct (Hrec e) as [b1 ->]. { apply elem_of_cons. by left. }
  simpl. destruct b1; simpl; eauto.
Qed.

Lemma vtx_can_go_down_total g rk :
  dpts_ranked g rk ->
  forall n v root, (rk v < n)%nat -> exists b, vtx_can_go_down n g v root = Ok b.
Proof.
  intros Hrk. induction n as [|n IH]; intros v root Hn; [lia|]. simpl.
  destruct (can_go_down_loop_total (fun w => vtx_can_go_down n g w false) g
              (dependents (vtx g v))) as [b ->].
  { intros e He. apply IH. specialize (Hrk v e He). lia. }
  simpl. destruct b; simpl; [|eauto].
  destruct (_ && _); eauto.
Qed.

Lemma can_go_down_loop_mono (rec rec' : vertex_id -> result bool) g es b :
  (forall w b, rec w = Ok b -> rec' w = Ok b) ->
  can_go_down_loop rec g es = Ok b -> can_go_down_loop rec' g es = Ok b.
Proof.
  intros Hrec. revert b. induction es as [|e es IH]; intros b; simpl; [done|].
  destruct (_ && _); [apply IH|].
  intros H. apply bind_Ok_inv in H as (b1 & H1 & H2).
  rewrite (Hrec _ _ H1). simpl. destruct b1; simpl in *; [by apply IH | done].
Qed.

Lemma vtx_can_go_down_mono g n :
  forall v root b, vtx_can_go_down n g v root = Ok b ->
  forall m, (n <= m)%nat -> vtx_can_go_down m g v root = Ok b.
Proof.
  induction n as [|n IH]; intros v root b H m Hm; [discriminate|].
  destruct m as [|m]; [lia|]. simpl in *.
  apply bind_Ok_inv in H as (b1 & H1 & H2).
  rewrite (can_go_down_loop_mono _ (fun w => vtx_can_go_down m g w false) _ _ _ 
            ltac:(intros w b' Hw; apply (IH _ _ _ Hw); lia) H1).
  exact H2.
Qed.

(** C6 (as amended).  On a graph whose dependent edges are acyclic and with
    fuel above the rank of [v], vtx_can_go_down (v, root) comes back, and it
    yields true exactly when every dependent of [v] either is an Instance
    whose to_offline flag is NOT set (the loop steps over it) or itself
    satisfies vtx_can_go_down (d, false), and it is not the case that [root]
    is false while [v] is an Instance that is Online or Degraded. *)
Theorem vtx_can_go_down_spec (g : graph_t) (rk : vertex_id -> nat) (v : vertex_id)
    (root : bool) (n : nat) (Hrk : dpts_ranked g rk) (Hn : (rk v < n)%nat) :
  exists b, vtx_can_go_down n g v root = Ok b /\
    (b = true <->
       (forall e, e ∈ dependents (vtx g v) ->
          (type (vtx g (to e)) = V_INST /\ to_offline (vtx g (to e)) = false)
          \/ vtx_can_go_down n g (to e) false = Ok true)
       /\ ~ (root = false /\ type (vtx g v) = V_INST /\ vtx_is_running g v = true)).
Proof.
  destruct n as [|n]; [lia|].
  destruct (vtx_can_go_down_total g rk Hrk (S n) v root Hn) as [b Hb].
  exists b. split; [exact Hb|].
  simpl in Hb. apply bind_Ok_inv in Hb as (b1 & Hloop & Hb).
  pose proof (can_go_down_loop_spec _ _ _ _ Hloop) as Hspec.
  assert (Hfuel : forall e, e ∈ dependents (vtx g v) ->
            (vtx_can_go_down n g (to e) false = Ok true
             <-> vtx_can_go_down (S n) g (to e) false = Ok true)).
  { intros e He. split; intros H.
    - apply (vtx_can_go_down_mono _ _ _ _ _ H). lia.
    - destruct (vtx_can_go_down_total g rk Hrk n (to e) false) as [b' Hb'].
      { specialize (Hrk v e He). lia. }
      rewrite (vtx_can_go_down_mono _ _ _ _ _ Hb' (S n)) in H by lia. congruence. }
  unfold vtx_is_running.
  destruct b1; simpl in Hb.
  - assert (Hall : forall e, e ∈ dependents (vtx g v) ->
              skipped g (to e) \/ vtx_can_go_down (S n) g (to e) false = Ok true).
    { intros e He. destruct (proj1 Hspec eq_refl e He) as [?|?]; [by left|].
      right. by apply Hfuel. }
    destruct (bool_decide (type (vtx g v) = V_INST)) eqn:Ht;
      destruct (bool_decide (state (vtx g v) = kS16StateOnline)
                || bool_decide (state (vtx g v) = kS16StateDegraded)) eqn:Hr;
      destruct root; simpl in Hb; injection Hb as <-;
      try apply bool_decide_eq_true in Ht; try apply bool_decide_eq_false in Ht;
      split; try done; try (intros _; split; [exact Hall|]; intros (? & ? & ?); congruence).
    intros [_ Hno]. exfalso. apply Hno. done.
  - injection Hb as <-. split; [done|]. intros [Hall _].
    assert (true = false); [|done]. symmetry. apply Hspec. intros e He.
    destruct (Hall e He) as [?|?]; [by left|]. right. by apply Hfuel.
Qed.


(** *** Satisfiability *)

Section Sat.
Variable NDEBUG : bool.

Lemma assert_halts c : halts (assert NDEBUG c).
Proof. unfold assert. by destruct (NDEBUG || c). Qed.

Lemma sat_fold_edges_refines (f f' : vertex_id -> result satisfied_t) es sat :
  (forall w, refines (f w) (f' w)) ->
  refines (sat_fold_edges f es sat) (sat_fold_edges f' es sat).
Proof.
  intros Hf. revert sat. induction es as [|e es IH]; intros sat; simpl; [apply refines_refl|].
  apply refines_bind; [apply Hf | intros a; apply IH].
Qed.

Lemma require_any_loop_refines (f f' : vertex_id -> result satisfied_t) es sat :
  (forall w, refines (f w) (f' w)) ->
  refines (require_any_loop f es sat) (require_any_loop f' es sat).
Proof.
  intros Hf. revert sat. induction es as [|e es IH]; intros sat; simpl; [apply refines_refl|].
  apply refines_bind; [apply Hf | intros a].
  destruct (decide (a = SATISFIED)); [apply refines_refl | apply IH].
Qed.

Lemma optional_all_loop_refines (f f' : vertex_id -> result satisfied_t) g es sat :
  (forall w, refines (f w) (f' w)) ->
  refines (optional_all_loop NDEBUG f g es sat) (optional_all_loop NDEBUG f' g es sat).
Proof.
  intros Hf. revert sat. induction es as [|e es IH]; intros sat; simpl; [apply refines_refl|].
  apply refines_bind; [apply refines_refl | intros _].
  apply refines_bind.
  { destruct (decide (type (vtx g (to e)) = V_INST)); [|apply refines_refl].
    apply refines_bind; [apply Hf | intros a; apply refines_refl]. }
  intros sat1. apply refines_bind; [|intros a; apply IH].
  destruct (decide (type (vtx g (to e)) = V_SVC)); [|apply refines_refl].
  by apply sat_fold_edges_refines.
Qed.

Lemma depgroup_is_satisfied_S n g v rec :
  depgroup_is_satisfied NDEBUG (S n) g v rec =
    match dg_type (vtx g v) with
    | kS16RequireAll =>
        sat_fold_edges (fun w => vtx_satisfies NDEBUG n g w rec)
                       (dependencies (vtx g v)) SATISFIED
    | kS16RequireAny =>
        if decide (dependencies (vtx g v) = []) then Ok SATISFIED
        else require_any_loop (fun w => vtx_satisfies NDEBUG n g w rec)
                              (dependencies (vtx g v))
                              (bool_of_int (satisfied_val UNSATISFIABLE))
    | kS16OptionalAll =>
        optional_all_loop NDEBUG (fun w => vtx_inst_satisfies_optional NDEBUG n g w rec) g
                          (dependencies (vtx g v)) SATISFIED
    | kS16ExcludeAll => exclude_all_loop NDEBUG g (dependencies (vtx g v)) SATISFIED
    end.
Proof. reflexivity. Qed.

Lemma vtx_satisfies_S n g v rec :
  vtx_satisfies NDEBUG (S n) g v rec =
    if decide (type (vtx g v) = V_INST) then vtx_inst_satisfies NDEBUG n g v rec
    else depgroup_is_satisfied NDEBUG n g v rec.
Proof. reflexivity. Qed.

Lemma sat_refines g n :
  forall v rec,
    refines (depgroup_is_satisfied NDEBUG n g v rec) (depgroup_is_satisfied NDEBUG (S n) g v rec)
    /\ refines (vtx_inst_satisfies NDEBUG n g v rec) (vtx_inst_satisfies NDEBUG (S n) g v rec)
    /\ refines (vtx_inst_satisfies_optional NDEBUG n g v rec)
               (vtx_inst_satisfies_optional NDEBUG (S n) g v rec)
    /\ refines (vtx_satisfies NDEBUG n g v rec) (vtx_satisfies NDEBUG (S n) g v rec).
Proof.
  induction n as [|n IH]; intros v rec; [repeat split; by left|].
  repeat split.
  - rewrite !depgroup_is_satisfied_S. destruct (dg_type (vtx g v)).
    + apply sat_fold_edges_refines. intros w. apply IH.
    + destruct (decide _); [apply refines_refl|].
      apply require_any_loop_refines. intros w. apply IH.
    + apply optional_all_loop_refines. intros w. apply IH.
    + apply refines_refl.
  - cbn [vtx_inst_satisfies].
    apply refines_bind; [apply refines_refl | intros _].
    destruct (_ || _); [apply refines_refl|].
    destruct (state (vtx g v)); try apply refines_refl.
    destruct (negb rec); [apply refines_refl|].
    apply refines_bind; [apply IH | intros a; apply refines_refl].
  - cbn [vtx_inst_satisfies_optional].
    apply refines_bind; [apply refines_refl | intros _].
    destruct (negb (is_setup _)); [apply refines_refl|].
    destruct (state (vtx g v)); try apply refines_refl.
    destruct (negb rec); [apply refines_refl|].
    apply refines_bind; [apply IH | intros a; apply refines_refl].
  - rewrite !vtx_satisfies_S. destruct (decide _); apply IH.
Qed.

Lemma depgroup_is_satisfied_mono g n m v rec :
  (n <= m)%nat ->
  refines (depgroup_is_satisfied NDEBUG n g v rec) (depgroup_is_satisfied NDEBUG m g v rec).
Proof.
  induction 1 as [|m Hle IH]; [apply refines_refl|].
  destruct IH as [->|IH]; [by left|]. rewrite IH. apply sat_refines.
Qed.

(** Halting *)

Lemma vtx_inst_satisfies_exclusion_halts g v :
  halts (vtx_inst_satisfies_exclusion NDEBUG g v).
Proof.
  unfold vtx_inst_satisfies_exclusion. apply halts_bind; [apply assert_halts|].
  intros _ _. destruct (negb _); [done|]. by destruct (state (vtx g v)).
Qed.

Lemma sat_fold_edges_halts (f : vertex_id -> result satisfied_t) es sat :
  (forall e, e ∈ es -> halts (f (to e))) -> halts (sat_fold_edges f es sat).
Proof.
  revert sat. induction es as [|e es IH]; intros sat Hf; simpl; [done|].
  apply halts_bind; [apply Hf; apply elem_of_cons; by left|].
  intros a _. apply IH. intros e' He'. apply Hf. apply elem_of_cons. by right.
Qed.

Lemma require_any_loop_halts (f : vertex_id -> result satisfied_t) es sat :
  (forall e, e ∈ es -> halts (f (to e))) -> halts (require_any_loop f es sat).
Proof.
  revert sat. induction es as [|e es IH]; intros sat Hf; simpl; [done|].
  apply halts_bind; [apply Hf; apply elem_of_cons; by left|].
  intros a _. destruct (decide _); [done|].
  apply IH. intros e' He'. apply Hf. apply elem_of_cons. by right.
Qed.

Lemma optional_all_loop_halts (f : vertex_id -> result satisfied_t) g es sat :
  (forall e, e ∈ es -> halts (f (to e))) ->
  (forall e e', e ∈ es -> e' ∈ dependencies (vtx g (to e)) -> halts (f (to e'))) ->
  halts (optional_all_loop NDEBUG f g es sat).
Proof.
  revert sat. induction es as [|e es IH]; intros sat Hf Hff; simpl; [done|].
  assert (He : e ∈ e :: es) by (apply elem_of_cons; by left).
  apply halts_bind; [apply assert_halts | intros _ _].
  apply halts_bind.
  { destruct (decide _); [|done]. apply halts_bind; [by apply Hf | done]. }
  intros sat1 _. apply halts_bind.
  { destruct (decide _); [|done]. apply sat_fold_edges_halts. intros e' He'. by eapply Hff. }
  intros sat2 _. apply IH.
  - intros e' He'. apply Hf. apply elem_of_cons. by right.
  - intros e1 e2 H1 H2. eapply Hff; [|exact H2]. apply elem_of_cons. by right.
Qed.

Lemma exclude_all_loop_halts g es sat : halts (exclude_all_loop NDEBUG g es sat).
Proof.
  revert sat. induction es as [|e es IH]; intros sat; simpl; [done|].
  apply halts_bind; [apply assert_halts | intros _ _].
  apply halts_bind.
  { destruct (decide _); [|done].
    apply halts_bind; [apply vtx_inst_satisfies_exclusion_halts | done]. }
  intros sat1 _. apply halts_bind; [|intros; apply IH].
  destruct (decide _); [|done]. apply sat_fold_edges_halts.
  intros. apply vtx_inst_satisfies_exclusion_halts.
Qed.

Lemma sat_halts g rk :
  deps_ranked g rk ->
  forall n v rec,
    ((3 * rk v < n)%nat -> halts (depgroup_is_satisfied NDEBUG n g v rec))
    /\ ((3 * rk v + 1 < n)%nat -> halts (vtx_inst_satisfies NDEBUG n g v rec))
    /\ ((3 * rk v + 1 < n)%nat -> halts (vtx_inst_satisfies_optional NDEBUG n g v rec))
    /\ ((3 * rk v + 2 < n)%nat -> halts (vtx_satisfies NDEBUG n g v rec)).
Proof.
  intros Hrk. induction n as [|n IH]; intros v rec; [repeat split; lia|].
  repeat split; intros Hn.
  - rewrite depgroup_is_satisfied_S. destruct (dg_type (vtx g v)).
    + apply sat_fold_edges_halts. intros e He. apply IH. specialize (Hrk v e He). lia.
    + destruct (decide _); [done|].
      apply require_any_loop_halts. intros e He. apply IH. specialize (Hrk v e He). lia.
    + apply optional_all_loop_halts.
      * intros e He. apply IH. specialize (Hrk v e He). lia.
      * intros e e' He He'. apply IH.
        pose proof (Hrk v e He). pose proof (Hrk (to e) e' He'). lia.
    + apply exclude_all_loop_halts.
  - cbn [vtx_inst_satisfies]. apply halts_bind; [apply assert_halts | intros _ _].
    destruct (_ || _); [done|]. destruct (state (vtx g v)); try done.
    destruct (negb rec); [done|].
    apply halts_bind; [apply IH; lia | done].
  - cbn [vtx_inst_satisfies_optional]. apply halts_bind; [apply assert_halts | intros _ _].
    destruct (negb (is_setup _)); [done|]. destruct (state (vtx g v)); try done.
    destruct (negb rec); [done|].
    apply halts_bind; [apply IH; lia | done].
  - rewrite vtx_satisfies_S. destruct (decide _); apply IH; lia.
Qed.

Lemma vtx_inst_can_come_up_halts g rk n v :
  deps_ranked g rk -> (3 * rk v < n)%nat -> halts (vtx_inst_can_come_up NDEBUG n g v).
Proof.
  intros Hrk Hn. unfold vtx_inst_can_come_up. destruct (_ && _); [|done].
  apply halts_bind; [by apply (sat_halts g rk Hrk) | done].
Qed.

Lemma vtx_inst_can_come_up_mono g n m v :
  (n <= m)%nat ->
  refines (vtx_inst_can_come_up NDEBUG n g v) (vtx_inst_can_come_up NDEBUG m g v).
Proof.
  intros Hle. unfold vtx_inst_can_come_up. destruct (_ && _); [|apply refines_refl].
  apply refines_bind; [by apply depgroup_is_satisfied_mono | intros; apply refines_refl].
Qed.

(** *** The kS16RequireAny case *)

Lemma require_any_loop_result (f : vertex_id -> result satisfied_t) es sat r :
  require_any_loop f es sat = Ok r -> r <> UNSATISFIABLE.
Proof.
  revert sat. induction es as [|e es IH]; intros sat; simpl.
  - intros [= <-]. by destruct sat.
  - intros H. apply bind_Ok_inv in H as (esat & _ & H).
    destruct (decide (esat = SATISFIED)); [by injection H as <- | by eapply IH].
Qed.

Lemma depgroup_require_any_never_unsatisfiable n g v rec r :
  dg_type (vtx g v) = kS16RequireAny ->
  depgroup_is_satisfied NDEBUG n g v rec = Ok r -> r <> UNSATISFIABLE.
Proof.
  intros Hk. destruct n as [|n]; [discriminate|].
  rewrite depgroup_is_satisfied_S, Hk.
  destruct (decide _); [by intros [= <-] | apply require_any_loop_result].
Qed.

End Sat.

(** *** Loops over edge lists *)

Lemma edges_do_halts (f : vertex_id -> result s16note_list_t) es :
  (forall e, e ∈ es -> halts (f (to e))) -> halts (edges_do f es).
Proof.
  induction es as [|e es IH]; intros Hf; simpl; [done|].
  apply halts_bind; [apply Hf; apply elem_of_cons; by left | intros a _].
  apply halts_bind; [|done]. apply IH. intros e' He'. apply Hf. apply elem_of_cons. by right.
Qed.

Lemma edges_do_total (f : vertex_id -> result s16note_list_t) es :
  (forall e, e ∈ es -> exists ns, f (to e) = Ok ns) -> exists ns, edges_do f es = Ok ns.
Proof.
  induction es as [|e es IH]; intros Hf; simpl; [eauto|].
  destruct (Hf e) as [a ->]; [apply elem_of_cons; by left|].
  destruct IH as [b ->]; [intros e' He'; apply Hf; apply elem_of_cons; by right|].
  simpl. eauto.
Qed.

Lemma edges_do_elem (f : vertex_id -> result s16note_list_t) es ns x :
  edges_do f es = Ok ns ->
  (x ∈ ns <-> exists e ns_e, e ∈ es /\ f (to e) = Ok ns_e /\ x ∈ ns_e).
Proof.
  revert ns. induction es as [|e es IH]; intros ns; simpl.
  - intros [= <-]. split; [intros H; by apply elem_of_nil in H|].
    intros (e & ? & He & _). by apply elem_of_nil in He.
  - intros H. apply bind_Ok_inv in H as (a & Ha & H).
    apply bind_Ok_inv in H as (b & Hb & [= <-]).
    rewrite elem_of_app, (IH _ Hb). split.
    + intros [Hx | (e' & ns_e & He' & Hf & Hx)].
      * exists e, a. split; [apply elem_of_cons; by left | done].
      * exists e', ns_e. split; [apply elem_of_cons; by right | done].
    + intros (e' & ns_e & He' & Hf & Hx). apply elem_of_cons in He' as [->|He'].
      * left. congruence.
      * right. eauto.
Qed.

Lemma edges_do_Ok_each (f : vertex_id -> result s16note_list_t) es ns :
  edges_do f es = Ok ns -> forall e, e ∈ es -> exists ns_e, f (to e) = Ok ns_e.
Proof.
  revert ns. induction es as [|e es IH]; intros ns H e' He'; simpl in H.
  - by apply elem_of_nil in He'.
  - apply bind_Ok_inv in H as (a & Ha & H). apply bind_Ok_inv in H as (b & Hb & _).
    apply elem_of_cons in He' as [->|He']; eauto.
Qed.

(** *** vtx_notify_stop *)

(** An [int] survives the trip through the enumeration's unsigned type and
    back. *)
Lemma int_of_restart_on_of_intptr r :
  - INT_MAX - 1 <= r <= INT_MAX -> int_of_restart_on (restart_on_of_intptr r) = r.
Proof.
  unfold INT_MAX, int_of_restart_on, restart_on_of_intptr. intros Hr.
  destruct (decide (0 <= r)) as [Hpos|Hneg].
  - rewrite Z.mod_small by lia. destruct (r <? 2 ^ 31) eqn:Hlt; [done|].
    apply Z.ltb_ge in Hlt. lia.
  - replace (r mod 2 ^ 32) with (r + 2 ^ 32).
    + destruct (r + 2 ^ 32 <? 2 ^ 31) eqn:Hlt; [apply Z.ltb_lt in Hlt; lia | lia].
    + apply Z.mod_unique with (q := -1); lia.
Qed.

(** The five intensities are their own unsigned values, and a negative
    [int] reads as a value above all of them. *)
Lemma restart_on_of_intptr_val r : restart_on_of_intptr (restart_on_val r) = restart_on_val r.
Proof. by destruct r. Qed.

Lemma restart_on_of_intptr_negative r :
  - INT_MAX - 1 <= r < 0 -> restart_on_of_intptr r = r + 2 ^ 32.
Proof.
  unfold INT_MAX, restart_on_of_intptr. intros Hr.
  symmetry. apply Z.mod_unique with (q := -1); lia.
Qed.

#[local] Arguments restart_on_of_intptr : simpl never.
#[local] Arguments int_of_restart_on : simpl never.

Lemma vtx_notify_stop_total g rk :
  dpts_ranked g rk ->
  forall k u r, (rk u < k)%nat -> exists ns, vtx_notify_stop k g u r = Ok ns.
Proof.
  intros Hrk. induction k as [|k IH]; intros u r Hk; [lia|]. cbn [vtx_notify_stop].
  assert (Hdo : exists ns, vtx_dependents_do g u (fun w => vtx_notify_stop k g w r) = Ok ns).
  { apply edges_do_total. intros e He. apply IH. specialize (Hrk u e He). lia. }
  destruct (type (vtx g u)); [done | by destruct (negb _); eauto |].
  destruct (decide _); [eauto|]. destruct (_ <? _); [eauto | done].
Qed.

Lemma vtx_notify_stop_elem g k :
  forall u r ns x, vtx_notify_stop k g u r = Ok ns ->
    (x ∈ ns <-> exists w, stop_walk g r u w /\ vtx_is_running g w = true
                          /\ x = s16note_new (N_STATE_CHANGE SC_OFFLINE) (path (vtx g w))
                                              (int_of_restart_on (restart_on_of_intptr r))).
Proof.
  induction k as [|k IH]; intros u r ns x; [discriminate|]. cbn [vtx_notify_stop].
  assert (Hdo : vtx_dependents_do g u (fun w => vtx_notify_stop k g w r) = Ok ns ->
          stop_passes g u r -> type (vtx g u) <> V_INST ->
          (x ∈ ns <-> exists w, stop_walk g r u w /\ vtx_is_running g w = true
                       /\ x = s16note_new (N_STATE_CHANGE SC_OFFLINE) (path (vtx g w))
                                           (int_of_restart_on (restart_on_of_intptr r)))).
  { intros H Hpass Hty. unfold vtx_dependents_do in H. rewrite (edges_do_elem _ _ _ _ H).
    split.
    - intros (e & ns_e & He & Hf & Hx). apply (IH _ _ _ _ Hf) in Hx as (w & Hw & Hr & ->).
      exists w. split; [by econstructor | done].
    - intros (w & Hw & Hr & ->). inversion Hw as [? Hi|? e ? _ He Hw']; subst; [done|].
      destruct (edges_do_Ok_each _ _ _ H e He) as [ns_e Hf].
      exists e, ns_e. split; [done|]. split; [done|]. apply (IH _ _ _ _ Hf). eauto. }
  assert (Hnone : ~ stop_passes g u r -> type (vtx g u) <> V_INST ->
          (x ∈ [] <-> exists w, stop_walk g r u w /\ vtx_is_running g w = true
                       /\ x = s16note_new (N_STATE_CHANGE SC_OFFLINE) (path (vtx g w))
                                           (int_of_restart_on (restart_on_of_intptr r)))).
  { intros Hno Hty. split; [intros H; by apply elem_of_nil in H|].
    intros (w & Hw & _). inversion Hw; subst; done. }
  destruct (type (vtx g u)) eqn:Hty.
  - intros H. apply Hdo; [done | by left | done].
  - destruct (vtx_is_running g u) eqn:Hrun; simpl; intros [= <-].
    + rewrite list_elem_of_singleton. split.
      * intros ->. exists u. split; [by constructor | done].
      * intros (w & Hw & _ & ->). inversion Hw as [|? e ? Hp]; subst; [done|].
        destruct Hp as [?|[? _]]; congruence.
    + split; [intros H; by apply elem_of_nil in H|].
      intros (w & Hw & Hr & _). inversion Hw as [|? e ? Hp]; subst; [congruence|].
      destruct Hp as [?|[? _]]; congruence.
  - destruct (decide (dg_type (vtx g u) = kS16ExcludeAll)) as [Hex|Hex].
    { intros [= <-]. apply Hnone; [|done]. intros [?|(_ & ? & _)]; [congruence | done]. }
    destruct (restart_on_val (restart_on (vtx g u)) <? restart_on_of_intptr r) eqn:Hlt.
    { intros [= <-]. apply Hnone; [|done]. apply Z.ltb_lt in Hlt.
      intros [?|(_ & _ & ?)]; [congruence | lia]. }
    intros H. apply Hdo; [done | | done]. right. apply Z.ltb_ge in Hlt. done.
Qed.

(** A negative reason reads as a value above all five intensities, so no
    group hands it on. *)
Lemma vtx_notify_stop_negative g n v r :
  type (vtx g v) = V_DEPGROUP -> - INT_MAX - 1 <= r < 0 ->
  vtx_notify_stop (S n) g v r = Ok [].
Proof.
  intros Hty Hr. cbn [vtx_notify_stop]. rewrite Hty.
  destruct (decide _); [done|].
  rewrite restart_on_of_intptr_negative by done.
  destruct (_ <? _) eqn:Hlt; [done|]. apply Z.ltb_ge in Hlt.
  unfold INT_MAX in Hr. destruct (restart_on (vtx g v)); cbn in Hlt; lia.
Qed.

(** *** vtx_offline_dependency *)

Lemma vtx_offline_dependency_total g rk1 rk2 B :
  deps_ranked g rk1 -> dpts_ranked g rk2 -> (forall w, (rk2 w < B)%nat) ->
  forall k u r, (B + rk1 u < k)%nat -> exists ns, vtx_offline_dependency k g u r = Ok ns.
Proof.
  intros H1 H2 HB. induction k as [|k IH]; intros u r Hk; [lia|]. 
  cbn [vtx_offline_dependency].
  destruct (_ && _); [eauto|]. destruct (decide _).
  - destruct (vtx_can_go_down_total g rk2 H2 (S k) u true) as [b ->].
    { specialize (HB u). lia. }
    simpl. eauto.
  - apply edges_do_total. intros e He. apply IH. specialize (H1 u e He). lia.
Qed.

Lemma vtx_offline_dependency_elem g K k :
  (k <= K)%nat ->
  forall u r ns x, vtx_offline_dependency k g u r = Ok ns ->
    (x ∈ ns <-> exists w, offline_walk g u w /\ to_offline (vtx g w) = true
                          /\ vtx_can_go_down K g w true = Ok true
                          /\ x = s16note_new (N_STATE_CHANGE SC_OFFLINE) (path (vtx g w)) r).
Proof.
  induction k as [|k IH]; intros HK u r ns x; [discriminate|].
  cbn [vtx_offline_dependency].
  destruct (decide (type (vtx g u) = V_INST)) as [Hty|Hty].
  - rewrite bool_decide_eq_true_2 by done. cbn [andb].
    destruct (to_offline (vtx g u)) eqn:Hoff; cbn [negb].
    + intros H. apply bind_Ok_inv in H as (down & Hdown & [= <-]).
      pose proof (vtx_can_go_down_mono _ _ _ _ _ Hdown K HK) as HdownK.
      destruct down.
      * unfold vtx_offline. rewrite list_elem_of_singleton. split.
        -- intros ->. exists u. split; [by constructor | done].
        -- intros (w & Hw & _ & _ & ->). inversion Hw; subst; done.
      * split; [intros H; by apply elem_of_nil in H|].
        intros (w & Hw & _ & Hd & _). inversion Hw; subst; [congruence | done].
    + intros [= <-]. split; [intros H; by apply elem_of_nil in H|].
      intros (w & Hw & Ho & _). inversion Hw; subst; [congruence | done].
  - rewrite bool_decide_eq_false_2 by done. cbn [andb].
    intros H. unfold vtx_dependencies_do in H. rewrite (edges_do_elem _ _ _ _ H). split.
    + intros (e & ns_e & He & Hf & Hx).
      apply (IH ltac:(lia) _ _ _ _ Hf) in Hx as (w & Hw & ? & ? & ->).
      exists w. split; [by econstructor | done].
    + intros (w & Hw & Ho & Hd & ->). inversion Hw as [|? e ? _ He Hw']; subst; [done|].
      destruct (edges_do_Ok_each _ _ _ H e He) as [ns_e Hf].
      exists e, ns_e. split; [done|]. split; [done|]. apply (IH ltac:(lia) _ _ _ _ Hf). eauto.
Qed.

(** *** vtx_notify_start *)

Section Start.
Variable NDEBUG : bool.

Lemma vtx_notify_start_halts g rk1 rk2 B :
  deps_ranked g rk1 -> dpts_ranked g rk2 -> (forall w, (rk1 w < B)%nat) ->
  forall k u r, (3 * B + rk2 u < k)%nat -> halts (vtx_notify_start NDEBUG k g u r).
Proof.
  intros H1 H2 HB. induction k as [|k IH]; intros u r Hk; [lia|].
  cbn [vtx_notify_start].
  assert (Hdo : forall r', halts (vtx_dependents_do g u
                                    (fun w => vtx_notify_start NDEBUG k g w r'))).
  { intros r'. apply edges_do_halts. intros e He. apply IH. specialize (H2 u e He). lia. }
  destruct (type (vtx g u)); [apply Hdo | | apply Hdo].
  apply halts_bind.
  - apply (vtx_inst_can_come_up_halts NDEBUG g rk1); [done|]. specialize (HB u). lia.
  - intros up _. destruct up; [|done]. by destruct (vtx_is_running g u).
Qed.

Lemma vtx_notify_start_elem g K k :
  (k <= K)%nat ->
  forall u r ns x, vtx_notify_start NDEBUG k g u r = Ok ns ->
    (x ∈ ns <-> exists w, start_walk g u w /\ vtx_inst_can_come_up NDEBUG K g w = Ok true
                          /\ vtx_is_running g w = false
                          /\ x = s16note_new (N_STATE_CHANGE SC_ONLINE) (path (vtx g w)) 0).
Proof.
  induction k as [|k IH]; intros HK u r ns x; [discriminate|].
  cbn [vtx_notify_start].
  assert (Hdo : forall r', type (vtx g u) <> V_INST ->
          vtx_dependents_do g u (fun w => vtx_notify_start NDEBUG k g w r') = Ok ns ->
          (x ∈ ns <-> exists w, start_walk g u w
                        /\ vtx_inst_can_come_up NDEBUG K g w = Ok true
                        /\ vtx_is_running g w = false
                        /\ x = s16note_new (N_STATE_CHANGE SC_ONLINE) (path (vtx g w)) 0)).
  { intros r' Hty H. unfold vtx_dependents_do in H. rewrite (edges_do_elem _ _ _ _ H). split.
    - intros (e & ns_e & He & Hf & Hx).
      apply (IH ltac:(lia) _ _ _ _ Hf) in Hx as (w & Hw & ? & ? & ->).
      exists w. split; [by econstructor | done].
    - intros (w & Hw & Hc & Hr & ->). inversion Hw as [|? e ? _ He Hw']; subst; [done|].
      destruct (edges_do_Ok_each _ _ _ H e He) as [ns_e Hf].
      exists e, ns_e. split; [done|]. split; [done|]. apply (IH ltac:(lia) _ _ _ _ Hf). eauto. }
  destruct (type (vtx g u)) eqn:Hty; [by apply Hdo | | by apply Hdo].
  intros H. apply bind_Ok_inv in H as (up & Hup & H).
  pose proof (refines_Ok _ _ _ (vtx_inst_can_come_up_mono NDEBUG g _ K u HK) Hup) as HupK.
  destruct up.
  - destruct (vtx_is_running g u) eqn:Hrun; injection H as <-.
    + split; [intros H; by apply elem_of_nil in H|].
      intros (w & Hw & _ & Hr & _). inversion Hw; subst; [congruence | done].
    + rewrite list_elem_of_singleton. split.
      * intros ->. exists u. split; [by constructor | done].
      * intros (w & Hw & _ & _ & ->). inversion Hw; subst; done.
  - injection H as <-. split; [intros H; by apply elem_of_nil in H|].
    intros (w & Hw & Hc & _). inversion Hw; subst; [congruence | done].
Qed.

End Start.

(** *** Stores that leave the edges alone *)

Lemma vtx_store f v g w :
  vtx (store f v g) w = vtx g w \/ (w = v /\ vtx (store f v g) w = f (vtx g v)).
Proof.
  destruct (decide (w = v)) as [->|Hne]; [|left; by apply vtx_store_ne].
  destruct (decide (v < length g)%nat).
  - right. split; [done | by apply vtx_store_eq].
  - left. apply vtx_store_dangling. lia.
Qed.

Lemma store_dependencies f v g w :
  (forall x, dependencies (f x) = dependencies x) ->
  dependencies (vtx (store f v g) w) = dependencies (vtx g w).
Proof. intros Hf. destruct (vtx_store f v g w) as [->|[-> ->]]; [done | apply Hf]. Qed.

Lemma store_dependents f v g w :
  (forall x, dependents (f x) = dependents x) ->
  dependents (vtx (store f v g) w) = dependents (vtx g w).
Proof. intros Hf. destruct (vtx_store f v g w) as [->|[-> ->]]; [done | apply Hf]. Qed.

Lemma store_deps_ranked f v g rk :
  (forall x, dependencies (f x) = dependencies x) ->
  deps_ranked g rk -> deps_ranked (store f v g) rk.
Proof. intros Hf Hrk w e. rewrite store_dependencies by done. apply Hrk. Qed.

Lemma store_dpts_ranked f v g rk :
  (forall x, dependents (f x) = dependents x) ->
  dpts_ranked g rk -> dpts_ranked (store f v g) rk.
Proof. intros Hf Hrk w e. rewrite store_dependents by done. apply Hrk. Qed.

(** *** Without asserts nothing stops the program *)

Lemma bind_not_Abort {A B : Type} (m : result A) (k : A -> result B) :
  m <> Abort -> (forall a, k a <> Abort) -> bind m k <> Abort.
Proof. destruct m; simpl; intros Hm Hk; [apply Hk | done ..]. Qed.

Lemma sat_fold_edges_not_Abort (f : vertex_id -> result satisfied_t) es sat :
  (forall w, f w <> Abort) -> sat_fold_edges f es sat <> Abort.
Proof.
  intros Hf. revert sat. induction es as [|e es IH]; intros sat; simpl; [done|].
  apply bind_not_Abort; [apply Hf | intros a; apply IH].
Qed.

Lemma require_any_loop_not_Abort (f : vertex_id -> result satisfied_t) es sat :
  (forall w, f w <> Abort) -> require_any_loop f es sat <> Abort.
Proof.
  intros Hf. revert sat. induction es as [|e es IH]; intros sat; simpl; [done|].
  apply bind_not_Abort; [apply Hf | intros a].
  destruct (decide _); [done | apply IH].
Qed.

Lemma vtx_inst_satisfies_exclusion_not_Abort g v :
  vtx_inst_satisfies_exclusion true g v <> Abort.
Proof.
  unfold vtx_inst_satisfies_exclusion. cbn.
  destruct (negb _); [done|]. by destruct (state (vtx g v)).
Qed.

Lemma optional_all_loop_not_Abort (f : vertex_id -> result satisfied_t) g es sat :
  (forall w, f w <> Abort) -> optional_all_loop true f g es sat <> Abort.
Proof.
  intros Hf. revert sat. induction es as [|e es IH]; intros sat; simpl; [done|].
  apply bind_not_Abort.
  { destruct (decide _); [|done]. apply bind_not_Abort; [apply Hf | done]. }
  intros sat1. apply bind_not_Abort; [|intros; apply IH].
  destruct (decide _); [|done]. by apply sat_fold_edges_not_Abort.
Qed.

Lemma exclude_all_loop_not_Abort g es sat : exclude_all_loop true g es sat <> Abort.
Proof.
  revert sat. induction es as [|e es IH]; intros sat; simpl; [done|].
  apply bind_not_Abort.
  { destruct (decide _); [|done].
    apply bind_not_Abort; [apply vtx_inst_satisfies_exclusion_not_Abort | done]. }
  intros sat1. apply bind_not_Abort; [|intros; apply IH].
  destruct (decide _); [|done]. apply sat_fold_edges_not_Abort.
  intros. apply vtx_inst_satisfies_exclusion_not_Abort.
Qed.

Lemma sat_not_Abort g n :
  forall v rec,
    depgroup_is_satisfied true n g v rec <> Abort
    /\ vtx_inst_satisfies true n g v rec <> Abort
    /\ vtx_inst_satisfies_optional true n g v rec <> Abort
    /\ vtx_satisfies true n g v rec <> Abort.
Proof.
  induction n as [|n IH]; intros v rec; [done|].
  repeat split.
  - rewrite depgroup_is_satisfied_S. destruct (dg_type (vtx g v)).
    + apply sat_fold_edges_not_Abort. intros w. apply IH.
    + destruct (decide _); [done|]. apply require_any_loop_not_Abort. intros w. apply IH.
    + apply optional_all_loop_not_Abort. intros w. apply IH.
    + apply exclude_all_loop_not_Abort.
  - cbn [vtx_inst_satisfies]. cbn.
    destruct (_ || _); [done|]. destruct (state (vtx g v)); try done.
    destruct (negb rec); [done|]. apply bind_not_Abort; [apply IH | done].
  - cbn [vtx_inst_satisfies_optional]. cbn.
    destruct (negb (is_setup _)); [done|]. destruct (state (vtx g v)); try done.
    destruct (negb rec); [done|]. apply bind_not_Abort; [apply IH | done].
  - rewrite vtx_satisfies_S. destruct (decide _); apply IH.
Qed.

Lemma vtx_inst_can_come_up_not_Abort g n v : vtx_inst_can_come_up true n g v <> Abort.
Proof.
  unfold vtx_inst_can_come_up. destruct (_ && _); [|done].
  apply bind_not_Abort; [apply sat_not_Abort | done].
Qed.

Lemma edges_do_not_Abort (f : vertex_id -> result s16note_list_t) es :
  (forall w, f w <> Abort) -> edges_do f es <> Abort.
Proof.
  intros Hf. induction es as [|e es IH]; simpl; [done|].
  apply bind_not_Abort; [apply Hf | intros a]. apply bind_not_Abort; [apply IH | done].
Qed.

Lemma vtx_notify_start_not_Abort g n : forall v r, vtx_notify_start true n g v r <> Abort.
Proof.
  induction n as [|n IH]; intros v r; [done|]. cbn [vtx_notify_start].
  destruct (type (vtx g v)); try (apply edges_do_not_Abort; intros w; apply IH).
  apply bind_not_Abort; [apply vtx_inst_can_come_up_not_Abort|].
  intros up. destruct up; [|done]. by destruct (vtx_is_running g v).
Qed.

(** *** vtx_process_state_change *)

Lemma offlined_vtx g v :
  (v < length g)%nat ->
  vtx (offlined g v) v = set_to_offline false (set_state kS16StateOffline (vtx g v)).
Proof.
  intros Hv. unfold offlined.
  rewrite vtx_store_eq by (rewrite store_length; lia). by rewrite vtx_store_eq.
Qed.

Lemma offlined_vtx_ne g v w : w <> v -> vtx (offlined g v) w = vtx g w.
Proof. intros Hne. unfold offlined. by rewrite !vtx_store_ne. Qed.

Lemma offlined_deps_ranked g v rk : deps_ranked g rk -> deps_ranked (offlined g v) rk.
Proof. intros H. unfold offlined. by do 2 (apply store_deps_ranked; [done|]). Qed.

Lemma offlined_dpts_ranked g v rk : dpts_ranked g rk -> dpts_ranked (offlined g v) rk.
Proof. intros H. unfold offlined. by do 2 (apply store_dpts_ranked; [done|]). Qed.

Lemma offlined_path g v w : path (vtx (offlined g v) w) = path (vtx g w).
Proof.
  destruct (decide (w = v)) as [->|Hne]; [|by rewrite offlined_vtx_ne].
  unfold offlined, store, vtx. rewrite !list_lookup_alter_eq.
  by destruct (g !! v).
Qed.

(** C3.  Processing SC_OFFLINE (v, reason), [reason] an [int], on an acyclic
    graph, with enough fuel, sets v.state to Offline and clears v.to_offline,
    and touches no other field and no other vertex.  If to_offline was set
    before, the notes appended are: one SC_OFFLINE note, with the reason
    given, for exactly the Instances reached from v's dependencies (through
    groups and services) that are pending offline and can go down; then one
    SC_DISABLED note for v, with the reason given, when v.to_disable is set;
    then the stop notifications.  If to_offline was not set, the notes are one
    SC_ONLINE note for v, with the reason given, when v can come up (none
    when it cannot), followed by the stop notifications; a failed assert
    while evaluating can_come_up stops the program, which takes a build
    without NDEBUG.  The stop notifications are one SC_OFFLINE note, with the
    reason given, for exactly the running Instances that vtx_notify_stop
    reaches from v's dependents. *)
Theorem sc_offline_spec (NDEBUG : bool) (g : graph_t) (rk1 rk2 : vertex_id -> nat)
    (B fuel : nat) (notes : s16note_list_t) (v : vertex_id) (reason : Z)
    (H1 : deps_ranked g rk1) (H2 : dpts_ranked g rk2)
    (HB : forall w, (rk1 w < B)%nat /\ (rk2 w < B)%nat)
    (Hfuel : (4 * B < fuel)%nat) (Hv : (v < length g)%nat)
    (Hint : - INT_MAX - 1 <= reason <= INT_MAX) :
  let g' := offlined g v in
  let run := vtx_process_state_change NDEBUG fuel g notes v SC_OFFLINE reason in
  let note type_ w := s16note_new (N_STATE_CHANGE type_) (path (vtx g w)) reason in
  vtx g' v = set_to_offline false (set_state kS16StateOffline (vtx g v))
  /\ (forall w, w <> v -> vtx g' w = vtx g w)
  /\ exists stops,
       (forall x, x ∈ stops <->
          exists e w, e ∈ dependents (vtx g v)
            /\ stop_walk g' reason (to e) w
            /\ vtx_is_running g' w = true
            /\ x = note SC_OFFLINE w)
       /\ (to_offline (vtx g v) = true ->
             exists walk,
               run = Ok (g', notes ++ (walk ++ (if to_disable (vtx g v)
                                                then [note SC_DISABLED v] else []))
                                   ++ stops)
               /\ forall x, x ∈ walk <->
                    exists e w, e ∈ dependencies (vtx g v)
                      /\ offline_walk g' (to e) w
                      /\ to_offline (vtx g' w) = true
                      /\ vtx_can_go_down fuel g' w true = Ok true
                      /\ x = note SC_OFFLINE w)
       /\ (to_offline (vtx g v) = false ->
             match vtx_inst_can_come_up NDEBUG fuel g' v with
             | Ok true => run = Ok (g', notes ++ [note SC_ONLINE v] ++ stops)
             | Ok false => run = Ok (g', notes ++ stops)
             | Abort => run = Abort /\ NDEBUG = false
             | _ => False
             end).
Proof.
  intros g' run note.
  pose proof (offlined_vtx g v Hv) as Hgv. fold g' in Hgv.
  pose proof (offlined_deps_ranked g v rk1 H1) as H1'.
  pose proof (offlined_dpts_ranked g v rk2 H2) as H2'. fold g' in H1', H2'.
  split; [exact Hgv|]. split; [intros w Hw; by apply offlined_vtx_ne|].
  destruct (edges_do_total (fun w => vtx_notify_stop fuel g' w reason)
              (dependents (vtx g' v))) as [stops Hstops].
  { intros e He. apply (vtx_notify_stop_total g' rk2 H2'). specialize (HB (to e)). lia. }
  exists stops.
  assert (Hpath : forall w, path (vtx g' w) = path (vtx g w))
    by (intros w; apply offlined_path).
  assert (Hdis : to_disable (vtx g' v) = to_disable (vtx g v)) by (by rewrite Hgv).
  assert (Hdeps : dependencies (vtx g' v) = dependencies (vtx g v)) by (by rewrite Hgv).
  assert (Hdpts : dependents (vtx g' v) = dependents (vtx g v)) by (by rewrite Hgv).
  split.
  { intros x. rewrite (edges_do_elem _ _ _ _ Hstops), Hdpts. subst note. cbn beta. split.
    - intros (e & ns_e & He & Hf & Hx).
      apply (vtx_notify_stop_elem g' fuel _ _ _ _ Hf) in Hx as (w & Hw & Hr & ->).
      exists e, w. rewrite int_of_restart_on_of_intptr, Hpath by done. done.
    - intros (e & w & He & Hw & Hr & ->).
      destruct (edges_do_Ok_each _ _ _ Hstops e) as [ns_e Hf]; [by rewrite Hdpts|].
      exists e, ns_e. split; [done|]. split; [done|].
      apply (vtx_notify_stop_elem g' fuel _ _ _ _ Hf).
      exists w. rewrite int_of_restart_on_of_intptr, Hpath by done. done. }
  subst run note. cbn beta. unfold vtx_process_state_change. fold (offlined g v). fold g'.
  unfold vtx_dependents_do. rewrite Hstops.
  split.
  - intros Hoff. rewrite Hoff.
    destruct (edges_do_total (fun w => vtx_offline_dependency fuel g' w reason)
                (dependencies (vtx g' v))) as [walk Hwalk].
    { intros e He. apply (vtx_offline_dependency_total g' rk1 rk2 B H1' H2').
      - intros w. apply HB.
      - specialize (HB (to e)). lia. }
    exists walk. unfold vtx_dependencies_do. rewrite Hwalk. cbn [bind].
    unfold vtx_disable. rewrite Hdis, Hpath. split; [reflexivity|].
    intros x. rewrite (edges_do_elem _ _ _ _ Hwalk). rewrite Hdeps. split.
    + intros (e & ns_e & He & Hf & Hx).
      apply (vtx_offline_dependency_elem g' fuel fuel (le_n _) _ _ _ _ Hf) in Hx
        as (w & Hw & ? & ? & ->).
      exists e, w. by rewrite Hpath.
    + intros (e & w & He & Hw & Ho & Hd & ->).
      destruct (edges_do_Ok_each _ _ _ Hwalk e) as [ns_e Hf]; [by rewrite Hdeps|].
      exists e, ns_e. split; [done|]. split; [done|].
      apply (vtx_offline_dependency_elem g' fuel fuel (le_n _) _ _ _ _ Hf).
      exists w. by rewrite Hpath.
  - intros Hoff. rewrite Hoff.
    pose proof (vtx_inst_can_come_up_halts NDEBUG g' rk1 fuel v H1') as Hh.
    destruct (vtx_inst_can_come_up NDEBUG fuel g' v) as [[|]| | |] eqn:Hup; cbn [bind].
    + unfold vtx_online. by rewrite Hpath.
    + reflexivity.
    + split; [reflexivity|]. destruct NDEBUG; [|reflexivity].
      by apply vtx_inst_can_come_up_not_Abort in Hup.
    + apply Hh. specialize (HB v). lia.
    + apply Hh. specialize (HB v). lia.
Qed.
Lemma store_id f v (g : graph_t) :
  (forall x, g !! v = Some x -> f x = x) -> store f v g = g.
Proof.
  intros Hf. unfold store. apply list_eq. intros i.
  destruct (decide (i = v)) as [->|Hne].
  - rewrite list_lookup_alter_eq. destruct (g !! v) as [x|] eqn:Hx; [|done].
    simpl. by rewrite Hf.
  - by rewrite list_lookup_alter_ne.
Qed.

Lemma set_state_same x s : state x = s -> set_state s x = x.
Proof. intros <-. by destruct x. Qed.

(** C7 (as amended).  Processing SC_ONLINE for a vertex that is already
    Online leaves the whole heap as it was (state and flags of every vertex),
    but the handler does not compare the old state with the new one: it
    notifies v's dependents again, and the notes appended are an SC_ONLINE
    with reason 0 for exactly the Instances reached from v's dependents
    (through groups and services) that can come up and are not running.
    The only other outcome is a failed assert, in a build without NDEBUG. *)
Theorem sc_online_again (NDEBUG : bool) (g : graph_t) (rk1 rk2 : vertex_id -> nat)
    (B fuel : nat) (notes : s16note_list_t) (v : vertex_id) (reason : Z)
    (H1 : deps_ranked g rk1) (H2 : dpts_ranked g rk2)
    (HB : forall w, (rk1 w < B)%nat /\ (rk2 w < B)%nat)
    (Hfuel : (4 * B < fuel)%nat)
    (Honline : state (vtx g v) = kS16StateOnline) :
  let run := vtx_process_state_change NDEBUG fuel g notes v SC_ONLINE reason in
  (NDEBUG = false /\ run = Abort)
  \/ exists added,
       run = Ok (g, notes ++ added)
       /\ forall x, x ∈ added <->
            exists e w, e ∈ dependents (vtx g v)
              /\ start_walk g (to e) w
              /\ vtx_inst_can_come_up NDEBUG fuel g w = Ok true
              /\ vtx_is_running g w = false
              /\ x = s16note_new (N_STATE_CHANGE SC_ONLINE) (path (vtx g w)) 0.
Proof.
  intros run. subst run. unfold vtx_process_state_change.
  rewrite store_id.
  2:{ intros x Hx. apply set_state_same. by rewrite <- (vtx_lookup g v x Hx). }
  assert (Hh : halts (vtx_dependents_do g v (fun w => vtx_notify_start NDEBUG fuel g w reason))).
  { apply edges_do_halts. intros e He.
    apply (vtx_notify_start_halts NDEBUG g rk1 rk2 B H1 H2); [intros w; apply HB|].
    pose proof (HB (to e)). lia. }
  destruct (vtx_dependents_do g v _) as [added| | |] eqn:Hdo; try done.
  2:{ left. split; [|reflexivity]. destruct NDEBUG; [|reflexivity].
      exfalso. revert Hdo. apply edges_do_not_Abort. intros w.
      apply vtx_notify_start_not_Abort. }
  right. exists added. split; [reflexivity|].
  intros x. unfold vtx_dependents_do in Hdo. rewrite (edges_do_elem _ _ _ _ Hdo). split.
  - intros (e & ns_e & He & Hf & Hx).
    apply (vtx_notify_start_elem NDEBUG g fuel fuel (le_n _) _ _ _ _ Hf) in Hx
      as (w & Hw & ? & ? & ->).
    by exists e, w.
  - intros (e & w & He & Hw & Hc & Hr & ->).
    destruct (edges_do_Ok_each _ _ _ Hdo e He) as [ns_e Hf].
    exists e, ns_e. split; [done|]. split; [done|].
    apply (vtx_notify_start_elem NDEBUG g fuel fuel (le_n _) _ _ _ _ Hf). eauto.
Qed.

(** C4.  For a DepGroup vertex [v] and a stop of intensity [reason]: when
    v's kind is not kS16ExcludeAll and v.restart_on >= reason (in the order
    None < Error < Restart < Refresh < Any), vtx_notify_stop hands the stop,
    with the same reason, to each of v's dependents, and every dependent that
    is a running Instance gets its SC_OFFLINE note; when v's kind is
    kS16ExcludeAll or v.restart_on < reason, nothing at all is appended. *)
Theorem vtx_notify_stop_depgroup (g : graph_t) (rk : vertex_id -> nat) (v : vertex_id)
    (n : nat) (reason : S16DependencyGroupRestartOnCondition)
    (Hrk : dpts_ranked g rk) (Hn : (rk v <= n)%nat)
    (Hty : type (vtx g v) = V_DEPGROUP) :
  (dg_type (vtx g v) <> kS16ExcludeAll
   /\ restart_on_val reason <= restart_on_val (restart_on (vtx g v)) ->
     exists ns,
       vtx_notify_stop (S n) g v (restart_on_val reason) = Ok ns
       /\ vtx_dependents_do g v (fun w => vtx_notify_stop n g w (restart_on_val reason)) = Ok ns
       /\ forall e, e ∈ dependents (vtx g v) ->
            type (vtx g (to e)) = V_INST -> vtx_is_running g (to e) = true ->
            s16note_new (N_STATE_CHANGE SC_OFFLINE) (path (vtx g (to e)))
                        (restart_on_val reason) ∈ ns)
  /\ (dg_type (vtx g v) = kS16ExcludeAll
      \/ restart_on_val (restart_on (vtx g v)) < restart_on_val reason ->
        vtx_notify_stop (S n) g v (restart_on_val reason) = Ok []).
Proof.
  split.
  - intros [Hex Hle].
    destruct (vtx_notify_stop_total g rk Hrk (S n) v (restart_on_val reason)) as [ns Hns];
      [lia|].
    exists ns. split; [exact Hns|].
    pose proof Hns as Hrun.
    cbn [vtx_notify_stop] in Hns. rewrite Hty, restart_on_of_intptr_val in Hns.
    destruct (decide _) as [|_]; [done|].
    destruct (_ <? _) eqn:Hlt; [apply Z.ltb_lt in Hlt; lia|].
    split; [exact Hns|].
    intros e He Hi Hr. apply (vtx_notify_stop_elem g (S n) _ _ _ _ Hrun).
    exists (to e). split; [|split; [done|]].
    + eapply stop_walk_edge; [right | exact He | by constructor].
      by rewrite restart_on_of_intptr_val.
    + rewrite restart_on_of_intptr_val. by destruct reason.
  - intros Hno. cbn [vtx_notify_stop]. rewrite Hty, restart_on_of_intptr_val.
    destruct (decide _) as [|Hex]; [done|].
    destruct Hno as [|Hlt]; [done|]. apply Z.ltb_lt in Hlt. by rewrite Hlt.
Qed.

(** *** The example graphs are acyclic *)

Ltac solve_ranked :=
  let v := fresh "v" in
  let e := fresh "e" in
  let He := fresh "He" in
  intros v e He;
  do 5 (try destruct v as [|v]); cbn in He;
  repeat (apply elem_of_cons in He as [-> | He]);
  try (by apply elem_of_nil in He); cbn; lia.

Lemma chain_deps_ranked k r st_b su_b en_b of_b di_b st_a su_a en_a of_a di_a :
  deps_ranked (chain k r (inst_vtx path_b_j st_b su_b en_b of_b di_b)
                         (inst_vtx path_a_i st_a su_a en_a of_a di_a)) chain_rk_deps.
Proof. solve_ranked. Defined.

Lemma chain_dpts_ranked k r st_b su_b en_b of_b di_b st_a su_a en_a of_a di_a :
  dpts_ranked (chain k r (inst_vtx path_b_j st_b su_b en_b of_b di_b)
                         (inst_vtx path_a_i st_a su_a en_a of_a di_a)) chain_rk_dpts.
Proof. solve_ranked. Defined.

Lemma chain_rk_bounded w : (chain_rk_deps w < 3)%nat /\ (chain_rk_dpts w < 3)%nat.
Proof. unfold chain_rk_deps, chain_rk_dpts. lia. Defined.

(** *** C1 *)

(** C1, at the failing input.  Vertex 1 of [g_require_any] is a
    kS16RequireAny group whose one target, instance b:j, was never set up and
    is therefore UNSATISFIABLE; depgroup_is_satisfied nevertheless yields
    UNSATISFIED for the group, with or without NDEBUG, because its local
    [sat] is a [bool]. *)
Theorem require_any_all_unsatisfiable :
  dg_type (vtx g_require_any 1) = kS16RequireAny
  /\ dependencies (vtx g_require_any 1) = [edge_new 1 0]
  /\ vtx_satisfies true 9 g_require_any 0 true = Ok UNSATISFIABLE
  /\ vtx_satisfies false 9 g_require_any 0 true = Ok UNSATISFIABLE
  /\ depgroup_is_satisfied true 9 g_require_any 1 true = Ok UNSATISFIED
  /\ depgroup_is_satisfied false 9 g_require_any 1 true = Ok UNSATISFIED.
Proof. repeat split. Qed.

(** *** C5 *)

(** C5, at the failing input.  Vertex 1 of [g_exclude_service] is a
    kS16ExcludeAll group whose target is the Service b (vertex 0), whose one
    Instance b:j (vertex 3) is Online and enabled, so the exclusion rule on
    the Instance gives UNSATISFIABLE.  depgroup_is_satisfied applies the rule
    to the Service instead: compiled with NDEBUG it yields UNSATISFIED (the
    Service's own state), compiled without it the assert on the vertex type
    stops the program. *)
Theorem exclude_all_service_target :
  dg_type (vtx g_exclude_service 1) = kS16ExcludeAll
  /\ dependencies (vtx g_exclude_service 1) = [edge_new 1 0]
  /\ type (vtx g_exclude_service 0) = V_SVC
  /\ dependencies (vtx g_exclude_service 0) = [edge_new 0 3]
  /\ type (vtx g_exclude_service 3) = V_INST
  /\ vtx_inst_satisfies_exclusion true g_exclude_service 3 = Ok UNSATISFIABLE
  /\ vtx_inst_satisfies_exclusion true g_exclude_service 0 = Ok UNSATISFIED
  /\ depgroup_is_satisfied true 9 g_exclude_service 1 true = Ok UNSATISFIED
  /\ depgroup_is_satisfied false 9 g_exclude_service 1 true = Abort.
Proof. repeat split. Qed.

(** The kS16ExcludeAll case reads the records of the group's direct targets
    and nothing else: what state the Instances of a targeted Service are in
    makes no difference to it. *)
Lemma exclude_all_loop_reads_targets_only NDEBUG g g' es sat :
  (forall e, e ∈ es -> vtx g' (to e) = vtx g (to e)) ->
  exclude_all_loop NDEBUG g' es sat = exclude_all_loop NDEBUG g es sat.
Proof.
  revert sat. induction es as [|e es IH]; intros sat Heq; simpl; [done|].
  assert (He : vtx g' (to e) = vtx g (to e)) by (apply Heq; apply elem_of_cons; by left).
  assert (Hex : vtx_inst_satisfies_exclusion NDEBUG g' (to e)
                = vtx_inst_satisfies_exclusion NDEBUG g (to e)).
  { unfold vtx_inst_satisfies_exclusion. by rewrite He. }
  rewrite He, Hex.
  destruct (assert NDEBUG _); simpl; try done.
  destruct (if decide (type (vtx g (to e)) = V_INST) then _ else _) as [sat1| | |];
    simpl; try done.
  destruct (if decide (type (vtx g (to e)) = V_SVC) then _ else _) as [sat2| | |];
    simpl; try done.
  apply IH. intros e' He'. apply Heq. apply elem_of_cons. by right.
Qed.

(** *** C2 *)

(** A chain through a kS16ExcludeAll group is not a cycle to the code, by
    the guard in vtx_is_reachable_internal: in [g_exclude_cycle] a:i reaches
    the group of b:j through its own exclusion group, and adding the edge from
    that group to a:i is not rejected. *)
Lemma dependency_add_claim_fails : ~ dependency_add_claim g_exclude_cycle 3 2.
Proof.
  intros [Hrej _]. destruct Hrej as [p Hp].
  - apply (can_reach_edge _ 2%nat (edge_new 2 1)); [by apply list_elem_of_singleton|].
    apply (can_reach_edge _ 1%nat (edge_new 1 0)); [by apply list_elem_of_singleton|].
    apply (can_reach_edge _ 0%nat (edge_new 0 3)); [by apply list_elem_of_singleton|].
    apply can_reach_here.
  - vm_compute in Hp. discriminate.
Qed.

(** A stale [pathTo] makes every later call reject. *)
Lemma reach_edges_stale
    (rec : vertex_id -> vertex_list_t -> vertex_list_t -> result reach_t) es :
  (forall w s p c s' p', p <> [] -> rec w s p = Ok (c, s', p') -> p' <> []) ->
  forall seen p c seen' p',
    p <> [] -> reach_edges rec es seen p = Ok (c, seen', p') -> p' <> [].
Proof.
  intros Hrec. induction es as [|e es IH]; intros seen p c seen' p' Hp H; simpl in H.
  - by injection H as <- <- <-.
  - apply bind_Ok_inv in H as ([[c2 s2] p2] & H2 & H).
    pose proof (Hrec _ _ _ _ _ _ Hp H2) as Hp2.
    destruct c2; [by eapply IH | by injection H as <- <- <-].
Qed.

Lemma vtx_is_reachable_internal_stale n g to_ :
  forall v seen p c seen' p',
    p <> [] -> vtx_is_reachable_internal n g v to_ seen p = Ok (c, seen', p') -> p' <> [].
Proof.
  induction n as [|n IH]; intros v seen p c seen' p' Hp; [discriminate|]. simpl.
  destruct (vertex_list_find_eq seen v); [by intros [= <- <- <-]|].
  destruct (decide _); [by intros [= <- <- <-]|].
  destruct (decide _); [by intros [= <- <- <-]|].
  intros H. apply bind_Ok_inv in H as ([[c1 s1] p1] & H1 & [= <- <- <-]).
  pose proof (reach_edges_stale _ _ IH _ _ _ _ _ Hp H1) as Hp1.
  destruct (decide (vertex_list_size p1 = 0%nat)) as [Hz|Hz]; [|done].
  by destruct p1.
Qed.

Lemma vtx_dependency_add_stale_path g u v p :
  p <> [] -> exists p', vtx_dependency_add g u v p = Ok (1, g, p').
Proof.
  intros Hp. unfold vtx_dependency_add, vtx_is_reachable.
  destruct (vtx_is_reachable_internal_total (S (length g)) g u v [] p)
    as (c & s1 & p1 & Hrun & _).
  { pose proof (unseen_le (seq 0 (length g)) []) as Hle.
    rewrite length_seq in Hle. lia. }
  rewrite Hrun. cbn [bind].
  pose proof (vtx_is_reachable_internal_stale _ _ _ _ _ _ _ _ _ Hp Hrun) as Hp1.
  destruct p1; [done|]. cbn. eauto.
Qed.

(** The search gives up at the first vertex it meets a second time: in
    [g_diamond] vertex 0 reaches vertex 4, the search does not find it, and
    the edge that closes the cycle is added. *)
Lemma vtx_is_reachable_misses_diamond :
  can_reach g_diamond 0 4
  /\ vtx_is_reachable g_diamond 0 4 [] = Ok (false, [])
  /\ exists g', vtx_dependency_add g_diamond 4 0 [] = Ok (0, g', []).
Proof.
  split; [|split; [reflexivity | eexists; reflexivity]].
  apply (can_reach_edge _ 0%nat (edge_new 0 2)); [set_solver|].
  apply (can_reach_edge _ 2%nat (edge_new 2 4)); [set_solver|].
  apply can_reach_here.
Qed.

Lemma g_diamond_no_exclusion w : dg_type (vtx g_diamond w) <> kS16ExcludeAll.
Proof. do 5 (try destruct w as [|w]); done. Qed.

(** C2, at the failing input.  No vertex of [g_diamond] is a kS16ExcludeAll
    group, and vertex 0 reaches vertex 4 through the dependency edges 0 -> 2
    and 2 -> 4; a dependency of 4 on 0 closes a cycle, and the claim has it
    rejected.  vtx_dependency_add, entered with an empty [pathTo], returns 0
    and adds the edge pair: the search went 0, 1, 3, then 2, met 3 a second
    time there and gave up before it looked at 4.  The graph it leaves holds
    the cycle 4 -> 0 -> 2 -> 4. *)
Theorem dependency_add_accepts_cycle :
  (forall w, dg_type (vtx g_diamond w) <> kS16ExcludeAll)
  /\ can_reach g_diamond 0 4
  /\ dep_path g_diamond 0 4 [0; 2; 4]%nat
  /\ vtx_is_reachable_internal 6 g_diamond 0 4 [] [] = Ok (false, [0; 1; 3; 2]%nat, [])
  /\ vtx_dependency_add g_diamond 4 0 [] = Ok (0, vtx_edge_add g_diamond 4 0, [])
  /\ dep_path (vtx_edge_add g_diamond 4 0) 4 4 [4; 0; 2; 4]%nat
  /\ ~ dependency_add_claim g_diamond 4 0.
Proof.
  assert (Hreach : can_reach g_diamond 0 4).
  { apply (can_reach_edge _ 0%nat (edge_new 0 2)); [set_solver|].
    apply (can_reach_edge _ 2%nat (edge_new 2 4)); [set_solver|].
    apply can_reach_here. }
  split; [exact g_diamond_no_exclusion|]. split; [exact Hreach|]. split.
  { apply (dep_path_edge _ 0%nat (edge_new 0 2)); [done | set_solver |].
    apply (dep_path_edge _ 2%nat (edge_new 2 4)); [done | set_solver |].
    by apply dep_path_here. }
  split; [reflexivity|]. split; [reflexivity|]. split.
  { apply (dep_path_edge _ 4%nat (edge_new 4 0)); [done | set_solver |].
    apply (dep_path_edge _ 0%nat (edge_new 0 2)); [done | set_solver |].
    apply (dep_path_edge _ 2%nat (edge_new 2 4)); [done | set_solver |].
    by apply dep_path_here. }
  intros [Hrej _]. destruct (Hrej Hreach) as [p Hp]. vm_compute in Hp. discriminate.
Qed.

(** *** C6 *)

(** C6 as stated fails: the only dependent of the group in [g_going_down] is
    an Instance with to_offline set, which is still Online; the code says the
    group cannot go down. *)
Lemma can_go_down_claim_fails : ~ can_go_down_claim 9 g_going_down 1 false.
Proof.
  intros [_ Hclaim].
  assert (Hdown : vtx_can_go_down 9 g_going_down 1 false = Ok true).
  { apply Hclaim. split.
    - intros e He. left. cbn in He. apply list_elem_of_singleton in He as ->.
      by split.
    - intros (_ & Hty & _). discriminate Hty. }
  vm_compute in Hdown. discriminate.
Qed.

Lemma vtx_can_go_down_spec_witness :
  dpts_ranked g_going_down chain_rk_dpts /\ (chain_rk_dpts 1 < 9)%nat
  /\ exists b, vtx_can_go_down 9 g_going_down 1 false = Ok b.
Proof.
  assert (Hrk : dpts_ranked g_going_down chain_rk_dpts) by apply chain_dpts_ranked.
  assert (Hn : (chain_rk_dpts 1 < 9)%nat) by (cbn; lia).
  split; [exact Hrk|]. split; [exact Hn|].
  destruct (vtx_can_go_down_spec g_going_down chain_rk_dpts 1 false 9 Hrk Hn) as (b & Hb & _).
  by exists b.
Defined.

(** *** C7 *)

(** C7 as stated fails: b:j is Online already, and a second SC_ONLINE for it
    appends an SC_ONLINE note for a:i. *)
Lemma sc_online_noop_claim_fails : ~ sc_online_noop_claim false 9 g_coming_up [] 0 0.
Proof.
  intros Hclaim. destruct Hclaim as (added & Hrun & Hnone); [reflexivity|].
  vm_compute in Hrun. injection Hrun as <-.
  eapply Hnone; [by apply list_elem_of_singleton | reflexivity].
Qed.


Lemma sc_online_again_witness :
  deps_ranked g_coming_up chain_rk_deps /\ dpts_ranked g_coming_up chain_rk_dpts
  /\ (forall w, (chain_rk_deps w < 3)%nat /\ (chain_rk_dpts w < 3)%nat)
  /\ (4 * 3 < 13)%nat
  /\ state (vtx g_coming_up 0) = kS16StateOnline
  /\ ((false = false
       /\ vtx_process_state_change false 13 g_coming_up [] 0 SC_ONLINE 0 = Abort)
      \/ exists added,
           vtx_process_state_change false 13 g_coming_up [] 0 SC_ONLINE 0
             = Ok (g_coming_up, [] ++ added)).
Proof.
  assert (H1 : deps_ranked g_coming_up chain_rk_deps) by apply chain_deps_ranked.
  assert (H2 : dpts_ranked g_coming_up chain_rk_dpts) by apply chain_dpts_ranked.
  assert (Hf : (4 * 3 < 13)%nat) by lia.
  assert (Ho : state (vtx g_coming_up 0) = kS16StateOnline) by reflexivity.
  repeat (split; [assumption || exact chain_rk_bounded|]).
  destruct (sc_online_again false g_coming_up chain_rk_deps chain_rk_dpts 3 13 [] 0 0
              H1 H2 chain_rk_bounded Hf Ho) as [Hrun|(added & Hrun & _)].
  - left. exact Hrun.
  - right. exists added. exact Hrun.
Defined.

(** *** C3 *)

(** The handler run on the example graphs.  In [g_going_down] a:i was
    pending offline: its going offline releases b:j, which is pending too and
    can now go down. *)
Lemma sc_offline_going_down :
  vtx_process_state_change false 13 g_going_down [] 2 SC_OFFLINE 2
  = Ok (offlined g_going_down 2, [s16note_new (N_STATE_CHANGE SC_OFFLINE) path_b_j 2]).
Proof. reflexivity. Qed.

(** In [g_restart_on_error] b:j goes offline unasked while a:i, which
    restarts on errors only, runs: b:j is asked to come up again, and a:i is
    stopped when the reason is an error, not when it is a restart, and not
    when it is negative, which vtx_notify_stop reads as a value above every
    intensity. *)
Lemma sc_offline_restart_on_error :
  let run reason := vtx_process_state_change false 13 g_restart_on_error [] 0 SC_OFFLINE reason in
  let online reason := s16note_new (N_STATE_CHANGE SC_ONLINE) path_b_j reason in
  let offline reason := s16note_new (N_STATE_CHANGE SC_OFFLINE) path_a_i reason in
  run 1 = Ok (offlined g_restart_on_error 0, [online 1; offline 1])
  /\ run 2 = Ok (offlined g_restart_on_error 0, [online 2])
  /\ run (-1) = Ok (offlined g_restart_on_error 0, [online (-1)]).
Proof. repeat split. Qed.

Lemma sc_offline_spec_witness :
  deps_ranked g_going_down chain_rk_deps /\ dpts_ranked g_going_down chain_rk_dpts
  /\ (forall w, (chain_rk_deps w < 3)%nat /\ (chain_rk_dpts w < 3)%nat)
  /\ (4 * 3 < 13)%nat
  /\ (2 < length g_going_down)%nat
  /\ - INT_MAX - 1 <= 2 <= INT_MAX
  /\ let g := g_going_down in
     let g' := offlined g 2 in
     let run := vtx_process_state_change false 13 g [] 2 SC_OFFLINE 2 in
     let note type_ w := s16note_new (N_STATE_CHANGE type_) (path (vtx g w)) 2 in
     vtx g' 2 = set_to_offline false (set_state kS16StateOffline (vtx g 2))
     /\ (forall w, w <> 2%nat -> vtx g' w = vtx g w)
     /\ exists stops,
          (forall x, x ∈ stops <->
             exists e w, e ∈ dependents (vtx g 2)
               /\ stop_walk g' 2 (to e) w
               /\ vtx_is_running g' w = true
               /\ x = note SC_OFFLINE w)
          /\ (to_offline (vtx g 2) = true ->
                exists walk,
                  run = Ok (g', [] ++ (walk ++ (if to_disable (vtx g 2)
                                                then [note SC_DISABLED 2%nat] else []))
                                   ++ stops)
                  /\ forall x, x ∈ walk <->
                       exists e w, e ∈ dependencies (vtx g 2)
                         /\ offline_walk g' (to e) w
                         /\ to_offline (vtx g' w) = true
                         /\ vtx_can_go_down 13 g' w true = Ok true
                         /\ x = note SC_OFFLINE w)
          /\ (to_offline (vtx g 2) = false ->
                match vtx_inst_can_come_up false 13 g' 2 with
                | Ok true => run = Ok (g', [] ++ [note SC_ONLINE 2%nat] ++ stops)
                | Ok false => run = Ok (g', [] ++ stops)
                | Abort => run = Abort /\ false = false
                | _ => False
                end).
Proof.
  assert (H1 : deps_ranked g_going_down chain_rk_deps) by apply chain_deps_ranked.
  assert (H2 : dpts_ranked g_going_down chain_rk_dpts) by apply chain_dpts_ranked.
  assert (Hf : (4 * 3 < 13)%nat) by lia.
  assert (Hv : (2 < length g_going_down)%nat) by (simpl; lia).
  assert (Hint : - INT_MAX - 1 <= 2 <= INT_MAX) by (unfold INT_MAX; lia).
  repeat (split; [assumption || exact chain_rk_bounded|]).
  exact (sc_offline_spec false g_going_down chain_rk_deps chain_rk_dpts 3 13 [] 2 2
           H1 H2 chain_rk_bounded Hf Hv Hint).
Defined.

(** *** C4 *)

Lemma vtx_notify_stop_depgroup_witness :
  dpts_ranked g_restart_on_error chain_rk_dpts /\ (chain_rk_dpts 1 <= 8)%nat
  /\ type (vtx g_restart_on_error 1) = V_DEPGROUP
  /\ vtx_notify_stop 9 g_restart_on_error 1 (restart_on_val kS16RestartOnRestart) = Ok [].
Proof.
  assert (H2 : dpts_ranked g_restart_on_error chain_rk_dpts) by apply chain_dpts_ranked.
  assert (Hn : (chain_rk_dpts 1 <= 8)%nat) by (cbn; lia).
  assert (Hty : type (vtx g_restart_on_error 1) = V_DEPGROUP) by reflexivity.
  repeat (split; [assumption|]).
  apply (proj2 (vtx_notify_stop_depgroup g_restart_on_error chain_rk_dpts 1 8
                  kS16RestartOnRestart H2 Hn Hty)).
  right. cbn. lia.
Defined.
(** *** Looking vertices up *)

Lemma vertex_list_find_Some l name i :
  vertex_list_find l match_vertex_by_path name = Some i <->
  (exists x, l !! i = Some x /\ path x = name)
  /\ forall j y, (j < i)%nat -> l !! j = Some y -> path y <> name.
Proof.
  revert i. induction l as [|x l IH]; intros i; simpl.
  - split; [done|]. intros [(y & Hy & _) _]. by rewrite lookup_nil in Hy.
  - unfold match_vertex_by_path at 1, S16PathEqual.
    destruct (decide (path x = name)) as [Hx|Hx].
    + rewrite bool_decide_eq_true_2 by done. split.
      * intros [= <-]. split; [by exists x|]. intros j y Hj. lia.
      * intros [_ Hmin]. destruct i as [|i]; [done|].
        exfalso. apply (Hmin 0%nat x); [lia | done | done].
    + rewrite bool_decide_eq_false_2 by done. split.
      * intros H. destruct (vertex_list_find l match_vertex_by_path name) as [k|];
          [|done]. injection H as <-.
        destruct (proj1 (IH k) eq_refl) as [(y & Hy & Hp) Hmin]. split; [by exists y|].
        intros [|j] z Hj Hz; simpl in Hz; [congruence|]. apply (Hmin j); [lia | done].
      * intros [(y & Hy & Hp) Hmin]. destruct i as [|i]; simpl in Hy; [congruence|].
        assert (Hk : vertex_list_find l match_vertex_by_path name = Some i).
        { apply IH. split; [by exists y|]. intros j z Hj Hz.
          apply (Hmin (S j)); [lia | done]. }
        by rewrite Hk.
Qed.

Lemma vertex_list_find_None l name :
  vertex_list_find l match_vertex_by_path name = None <-> name ∉ (path <$> l).
Proof.
  induction l as [|x l IH]; simpl.
  - split; [intros _ H; by apply elem_of_nil in H | done].
  - unfold match_vertex_by_path at 1, S16PathEqual.
    destruct (decide (path x = name)) as [Hx|Hx].
    + rewrite bool_decide_eq_true_2 by done. split; [done|].
      intros H. exfalso. apply H. apply elem_of_cons. by left.
    + rewrite bool_decide_eq_false_2 by done.
      destruct (vertex_list_find l match_vertex_by_path name) as [k|]; simpl.
      * split; [done|]. intros H. exfalso.
        assert (Hn : name ∉ path <$> l).
        { intros Hin. apply H. apply elem_of_cons. by right. }
        apply IH in Hn. done.
      * split; [|done]. intros _ Hin. apply elem_of_cons in Hin as [->|Hin]; [done|].
        by apply (proj1 IH).
Qed.

Lemma vtx_find_by_path_lt g name i :
  vtx_find_by_path g name = Some i -> (i < length g)%nat /\ path (vtx g i) = name.
Proof.
  unfold vtx_find_by_path. intros H. apply vertex_list_find_Some in H as [(x & Hx & Hp) _].
  split; [by eapply lookup_lt_Some | by rewrite (vtx_lookup _ _ _ Hx)].
Qed.

(** The search reads the paths and nothing else. *)
Lemma vtx_find_by_path_paths g g' name :
  path <$> g' = path <$> g -> vtx_find_by_path g' name = vtx_find_by_path g name.
Proof.
  unfold vtx_find_by_path. revert g'. induction g as [|x g IH]; intros [|x' g'] Heq;
    try done. simpl in Heq. injection Heq as Hx Hg. simpl.
  unfold match_vertex_by_path at 1 3. rewrite Hx. by rewrite (IH _ Hg).
Qed.

Lemma vtx_find_by_path_app g l name i :
  vtx_find_by_path g name = Some i -> vtx_find_by_path (g ++ l) name = Some i.
Proof.
  unfold vtx_find_by_path. intros H. apply vertex_list_find_Some in H as [(x & Hx & Hp) Hmin].
  apply vertex_list_find_Some. split.
  - exists x. split; [|done]. by apply lookup_app_l_Some.
  - intros j y Hj Hy. apply (Hmin j); [done|].
    rewrite lookup_app_l in Hy; [done|]. apply lookup_lt_Some in Hx. lia.
Qed.

Lemma vtx_find_by_path_new g x :
  vtx_find_by_path g (path x) = None -> vtx_find_by_path (g ++ [x]) (path x) = Some (length g).
Proof.
  unfold vtx_find_by_path. intros H. apply vertex_list_find_None in H.
  apply vertex_list_find_Some. split.
  - exists x. split; [|done]. rewrite lookup_app_r by lia.
    by rewrite Nat.sub_diag.
  - intros j y Hj Hy. rewrite lookup_app_l in Hy by lia.
    intros Hp. apply H. rewrite <- Hp. apply list_elem_of_fmap. exists y.
    split; [done|]. by eapply list_elem_of_lookup_2.
Qed.

(** With one vertex per path, the path of a vertex leads back to it. *)
Lemma vtx_find_by_path_inv g v :
  paths_distinct g -> (v < length g)%nat -> vtx_find_by_path g (path (vtx g v)) = Some v.
Proof.
  intros Hnd Hv. unfold vtx_find_by_path. apply vertex_list_find_Some.
  destruct (lookup_lt_is_Some_2 g v Hv) as [x Hx]. rewrite (vtx_lookup _ _ _ Hx).
  split; [by exists x|]. intros j y Hj Hy Hp.
  assert (j = v); [|lia].
  apply (NoDup_lookup (path <$> g) j v (path x)); [done | |];
    rewrite list_lookup_fmap; [rewrite Hy | rewrite Hx]; simpl; congruence.
Qed.


Lemma vtx_app_l g l i : (i < length g)%nat -> vtx (g ++ l) i = vtx g i.
Proof. intros Hi. unfold vtx. by rewrite lookup_app_l. Qed.

Lemma vtx_app_new g x : vtx (g ++ [x]) (length g) = x.
Proof. unfold vtx. rewrite lookup_app_r by lia. by rewrite Nat.sub_diag. Qed.

Lemma paths_store f v g :
  (forall x, path (f x) = path x) -> path <$> store f v g = path <$> g.
Proof.
  intros Hf. unfold store. apply list_eq. intros i.
  rewrite !list_lookup_fmap. destruct (decide (i = v)) as [->|Hne].
  - rewrite list_lookup_alter_eq. destruct (g !! v); simpl; [by rewrite Hf | done].
  - by rewrite list_lookup_alter_ne.
Qed.

Lemma paths_vtx_edge_add g u v : path <$> vtx_edge_add g u v = path <$> g.
Proof. unfold vtx_edge_add. by rewrite !paths_store. Qed.

Lemma vtx_find_or_add_found g p ty dg ro :
  vtx_find_by_path (snd (vtx_find_or_add g p ty dg ro)) p
  = Some (fst (vtx_find_or_add g p ty dg ro)).
Proof.
  unfold vtx_find_or_add.
  destruct (vtx_find_by_path g p) as [nv|] eqn:Hfind; cbn [fst snd]; [done|].
  apply (vtx_find_by_path_new g (mk_vertex p ty dg ro kS16StateUninitialised
                                           false false false false [] [])).
  exact Hfind.
Qed.

Lemma vtx_find_or_add_stable g p ty dg ro q i :
  vtx_find_by_path g q = Some i ->
  vtx_find_by_path (snd (vtx_find_or_add g p ty dg ro)) q = Some i
  /\ vtx (snd (vtx_find_or_add g p ty dg ro)) i = vtx g i.
Proof.
  intros Hq. unfold vtx_find_or_add.
  destruct (vtx_find_by_path g p) as [nv|]; cbn [snd]; [done|].
  split; [by apply vtx_find_by_path_app|].
  apply vtx_app_l. by apply vtx_find_by_path_lt in Hq as [? _].
Qed.

Lemma vtx_find_or_add_paths g p ty dg ro :
  path <$> snd (vtx_find_or_add g p ty dg ro)
  = if bool_decide (p ∈ (path <$> g)) then path <$> g else (path <$> g) ++ [p].
Proof.
  unfold vtx_find_or_add.
  destruct (vtx_find_by_path g p) as [nv|] eqn:Hfind; cbn [snd].
  - rewrite bool_decide_eq_true_2; [done|].
    apply vtx_find_by_path_lt in Hfind as [Hlt <-].
    apply list_elem_of_fmap. exists (vtx g nv). split; [done|].
    destruct (lookup_lt_is_Some_2 g nv Hlt) as [x Hx].
    rewrite (vtx_lookup _ _ _ Hx). by eapply list_elem_of_lookup_2.
  - apply vertex_list_find_None in Hfind. rewrite bool_decide_eq_false_2 by done.
    by rewrite fmap_app.
Qed.

Lemma vtx_find_or_add_lt g p ty dg ro :
  (fst (vtx_find_or_add g p ty dg ro) < length (snd (vtx_find_or_add g p ty dg ro)))%nat.
Proof.
  unfold vtx_find_or_add. destruct (vtx_find_by_path g p) as [nv|] eqn:Hfind; cbn [fst snd].
  - by apply vtx_find_by_path_lt in Hfind as [? _].
  - rewrite length_app. simpl. lia.
Qed.

Lemma vtx_find_or_add_length g p ty dg ro :
  (length g <= length (snd (vtx_find_or_add g p ty dg ro)))%nat.
Proof.
  unfold vtx_find_or_add. destruct (vtx_find_by_path g p); cbn [snd]; [done|].
  rewrite length_app. lia.
Qed.

Lemma vtx_find_or_add_nodup g p ty dg ro :
  paths_distinct g -> paths_distinct (snd (vtx_find_or_add g p ty dg ro)).
Proof.
  intros Hg. unfold paths_distinct. rewrite vtx_find_or_add_paths.
  destruct (bool_decide (p ∈ path <$> g)) eqn:Hin; [done|].
  apply bool_decide_eq_false in Hin.
  apply NoDup_app. split; [done|]. split.
  - intros x Hx Hx'. apply list_elem_of_singleton in Hx' as ->. done.
  - apply NoDup_singleton.
Qed.

(** *** The edge lists stay owned and mirrored *)

Lemma vtx_edge_add_length g u v : length (vtx_edge_add g u v) = length g.
Proof. unfold vtx_edge_add. by rewrite !store_length. Qed.

Lemma vtx_edge_add_deps g u v w :
  (u < length g)%nat ->
  dependencies (vtx (vtx_edge_add g u v) w)
  = if decide (w = u) then dependencies (vtx g u) ++ [edge_new u v]
    else dependencies (vtx g w).
Proof.
  intros Hu. destruct (decide (w = u)) as [->|Hne].
  - by apply vtx_edge_add_dependencies.
  - by apply vtx_edge_add_dependencies_ne.
Qed.

Lemma vtx_edge_add_dpts g u v w :
  (v < length g)%nat ->
  dependents (vtx (vtx_edge_add g u v) w)
  = if decide (w = v) then dependents (vtx g v) ++ [edge_new v u]
    else dependents (vtx g w).
Proof.
  intros Hv. destruct (decide (w = v)) as [->|Hne].
  - by apply vtx_edge_add_dependents.
  - by apply vtx_edge_add_dependents_ne.
Qed.

Lemma vtx_edge_add_wf g u v :
  (u < length g)%nat -> (v < length g)%nat -> graph_wf g -> graph_wf (vtx_edge_add g u v).
Proof.
  intros Hu Hv [Hown Hmir]. split.
  - intros w e. rewrite vtx_edge_add_length, vtx_edge_add_deps, vtx_edge_add_dpts by done.
    intros [He|He].
    + destruct (decide (w = u)) as [->|Hne]; [|apply Hown; by left].
      apply elem_of_app in He as [He|He]; [apply Hown; by left|].
      apply list_elem_of_singleton in He as ->. done.
    + destruct (decide (w = v)) as [->|Hne]; [|apply Hown; by right].
      apply elem_of_app in He as [He|He]; [apply Hown; by right|].
      apply list_elem_of_singleton in He as ->. done.
  - intros a b. rewrite vtx_edge_add_deps, vtx_edge_add_dpts by done.
    destruct (decide (a = u)) as [->|Ha]; destruct (decide (b = v)) as [->|Hb];
      rewrite ?elem_of_app, ?list_elem_of_singleton, (Hmir _ _).
    + split; (intros [?|?]; [by left | by right]).
    + split; [intros [?|?]; [done | congruence] | by left].
    + split; [by left | intros [?|?]; [done | congruence]].
    + done.
Qed.

Lemma graph_wf_ext g g' :
  (length g <= length g')%nat ->
  (forall w, dependencies (vtx g' w) = dependencies (vtx g w)) ->
  (forall w, dependents (vtx g' w) = dependents (vtx g w)) ->
  graph_wf g -> graph_wf g'.
Proof.
  intros Hlen Hd Hp [Hown Hmir]. split.
  - intros w e. rewrite Hd, Hp. intros He. destruct (Hown w e He) as (? & ? & ?).
    split; [done|]. split; lia.
  - intros a b. rewrite Hd, Hp. apply Hmir.
Qed.

Lemma store_wf f v g :
  (forall x, dependencies (f x) = dependencies x) ->
  (forall x, dependents (f x) = dependents x) ->
  graph_wf g -> graph_wf (store f v g).
Proof.
  intros Hd Hp. apply graph_wf_ext.
  - by rewrite store_length.
  - intros w. by apply store_dependencies.
  - intros w. by apply store_dependents.
Qed.

Lemma vtx_find_or_add_vtx g p ty dg ro w :
  vtx (snd (vtx_find_or_add g p ty dg ro)) w = vtx g w
  \/ (dependencies (vtx (snd (vtx_find_or_add g p ty dg ro)) w) = []
      /\ dependents (vtx (snd (vtx_find_or_add g p ty dg ro)) w) = []
      /\ (length g <= w)%nat).
Proof.
  unfold vtx_find_or_add. destruct (vtx_find_by_path g p); cbn [snd]; [by left|].
  destruct (decide (w < length g)%nat) as [Hw|Hw]; [left; by apply vtx_app_l|].
  right. destruct (decide (w = length g)) as [->|Hne].
  - rewrite vtx_app_new. simpl. split; [done|]. split; [done | lia].
  - rewrite vtx_dangling by (rewrite length_app; simpl; lia). simpl.
    split; [done|]. split; [done | lia].
Qed.

Lemma vtx_find_or_add_wf g p ty dg ro :
  graph_wf g -> graph_wf (snd (vtx_find_or_add g p ty dg ro)).
Proof.
  assert (Hnone : forall w, (length g <= w)%nat ->
            dependencies (vtx g w) = [] /\ dependents (vtx g w) = []).
  { intros w Hw. by rewrite vtx_dangling. }
  apply graph_wf_ext.
  - apply vtx_find_or_add_length.
  - intros w. destruct (vtx_find_or_add_vtx g p ty dg ro w) as [->|(-> & _ & Hw)]; [done|].
    symmetry. by apply Hnone.
  - intros w. destruct (vtx_find_or_add_vtx g p ty dg ro w) as [->|(_ & -> & Hw)]; [done|].
    symmetry. by apply Hnone.
Qed.

Lemma graph_wf_check g : edges_owned_b g && edges_mirrored_b g = true -> graph_wf g.
Proof.
  intros H. apply andb_prop in H as [Hown Hmir].
  unfold edges_owned_b in Hown. rewrite forallb_forall in Hown.
  unfold edges_mirrored_b in Hmir. rewrite forallb_forall in Hmir.
  assert (Hown' : edges_owned g).
  { intros v e He. destruct (decide (v < length g)%nat) as [Hv|Hv].
    - specialize (Hown v). rewrite forallb_forall in Hown.
      assert (Hin : In e (dependencies (vtx g v) ++ dependents (vtx g v))).
      { apply list_elem_of_In. apply elem_of_app. done. }
      specialize (Hown ltac:(apply in_seq; lia) e Hin).
      apply andb_prop in Hown as [H1 H2].
      apply bool_decide_eq_true in H1. apply bool_decide_eq_true in H2. done.
    - rewrite vtx_dangling in He by lia. simpl in He.
      destruct He as [He|He]; by apply elem_of_nil in He. }
  split; [done|]. intros a b. split; intros He.
  - destruct (Hown' a _ (or_introl He)) as (_ & Ha & _).
    specialize (Hmir a ltac:(apply in_seq; lia)). apply andb_prop in Hmir as [H1 _].
    rewrite forallb_forall in H1. specialize (H1 _ (proj1 (list_elem_of_In _ _) He)).
    by apply bool_decide_eq_true in H1.
  - destruct (Hown' b _ (or_intror He)) as (_ & Hb & _).
    specialize (Hmir b ltac:(apply in_seq; lia)). apply andb_prop in Hmir as [_ H2].
    rewrite forallb_forall in H2. specialize (H2 _ (proj1 (list_elem_of_In _ _) He)).
    by apply bool_decide_eq_true in H2.
Qed.

(** vtx_dependency_add on a well-formed graph: whatever [pathTo] holds, the
    call comes back, and the graph it leaves has the same vertices with the
    same paths, and edge lists that are still owned and mirrored. *)
Theorem vtx_dependency_add_wf (g : graph_t) (u v : vertex_id) (p : vertex_list_t)
    (Hg : graph_wf g) (Hu : (u < length g)%nat) (Hv : (v < length g)%nat) :
  exists r g' p',
    vtx_dependency_add g u v p = Ok (r, g', p')
    /\ (r = 0 \/ r = 1)
    /\ graph_wf g' /\ length g' = length g /\ path <$> g' = path <$> g.
Proof.
  unfold vtx_dependency_add.
  destruct (vtx_is_reachable_total g v u p) as (b & p' & ->). cbn [bind].
  destruct b.
  - exists 1, g, p'. split; [done|]. split; [by right|]. done.
  - exists 0, (vtx_edge_add g u v), p'. split; [done|]. split; [by left|].
    split; [by apply vtx_edge_add_wf|].
    split; [apply vtx_edge_add_length | apply paths_vtx_edge_add].
Qed.


(** *** graph_install_service *)

Lemma vtx_edge_add_is_setup g u v w :
  is_setup (vtx (vtx_edge_add g u v) w) = is_setup (vtx g w).
Proof.
  unfold vtx_edge_add.
  destruct (vtx_store (fun x => set_dependents (edge_list_add (dependents x) (edge_new v u)) x)
              v (store (fun x => set_dependencies
                                   (edge_list_add (dependencies x) (edge_new u v)) x) u g) w)
    as [->|[-> ->]]; simpl;
  match goal with
  | |- context [vtx (store ?f u g) ?z] =>
      destruct (vtx_store f u g z) as [->|[-> ->]]; simpl; done
  end.
Qed.

Lemma vtx_find_by_path_edge_add g u v q :
  vtx_find_by_path (vtx_edge_add g u v) q = vtx_find_by_path g q.
Proof. apply vtx_find_by_path_paths. apply paths_vtx_edge_add. Qed.

Lemma vtx_find_or_add_old g p ty dg ro w :
  (w < length g)%nat -> vtx (snd (vtx_find_or_add g p ty dg ro)) w = vtx g w.
Proof.
  intros Hw. destruct (vtx_find_or_add_vtx g p ty dg ro w) as [->|(_ & _ & ?)]; [done | lia].
Qed.

(** What one round of the loop of graph_install_service does. *)
Lemma install_inst_edge_step sv g inst_ :
  (sv < length g)%nat ->
  let g' := install_inst_edge sv g inst_ in
  (length g <= length g')%nat
  /\ (forall q i, vtx_find_by_path g q = Some i -> vtx_find_by_path g' q = Some i)
  /\ (exists iv, vtx_find_by_path g' (inst_path inst_) = Some iv
                 /\ dependencies (vtx g' sv) = dependencies (vtx g sv) ++ [edge_new sv iv]
                 /\ edge_new iv sv ∈ dependents (vtx g' iv))
  /\ (forall w e, e ∈ dependents (vtx g w) -> e ∈ dependents (vtx g' w))
  /\ (graph_wf g -> graph_wf g')
  /\ (paths_distinct g -> paths_distinct g').
Proof.
  intros Hsv. cbv zeta. unfold install_inst_edge, install_inst.
  pose proof (vtx_find_or_add_found g (inst_path inst_) V_INST kS16RequireAll kS16RestartOnAny)
    as Hfound.
  pose proof (vtx_find_or_add_stable g (inst_path inst_) V_INST kS16RequireAll kS16RestartOnAny)
    as Hstable.
  pose proof (vtx_find_or_add_lt g (inst_path inst_) V_INST kS16RequireAll kS16RestartOnAny)
    as Hlt.
  pose proof (vtx_find_or_add_length g (inst_path inst_) V_INST kS16RequireAll kS16RestartOnAny)
    as Hlen.
  pose proof (vtx_find_or_add_old g (inst_path inst_) V_INST kS16RequireAll kS16RestartOnAny)
    as Hold.
  pose proof (vtx_find_or_add_wf g (inst_path inst_) V_INST kS16RequireAll kS16RestartOnAny)
    as Hwf.
  pose proof (vtx_find_or_add_nodup g (inst_path inst_) V_INST kS16RequireAll kS16RestartOnAny)
    as Hnd.
  destruct (vtx_find_or_add g (inst_path inst_) V_INST kS16RequireAll kS16RestartOnAny)
    as [iv ga]. cbn [fst snd] in *.
  split; [by rewrite vtx_edge_add_length|].
  split.
  { intros q i Hq. rewrite vtx_find_by_path_edge_add. by apply Hstable. }
  split.
  { exists iv. split; [by rewrite vtx_find_by_path_edge_add|].
    split.
    - rewrite vtx_edge_add_dependencies by lia. by rewrite Hold.
    - rewrite vtx_edge_add_dependents by lia. apply elem_of_app. right.
      by apply list_elem_of_singleton. }
  split.
  { intros w e He.
    assert (Hw : (w < length g)%nat).
    { destruct (decide (w < length g)%nat); [done|].
      rewrite vtx_dangling in He by lia. by apply elem_of_nil in He. }
    rewrite vtx_edge_add_dpts by lia. rewrite <- (Hold w Hw) in He.
    destruct (decide (w = iv)) as [->|_]; [|done]. apply elem_of_app. by left. }
  split.
  { intros Hg. apply vtx_edge_add_wf; [lia | lia | by apply Hwf]. }
  intros Hg. unfold paths_distinct. rewrite paths_vtx_edge_add. by apply Hnd.
Qed.

Lemma install_fold sv insts :
  forall g, (sv < length g)%nat ->
  let g' := foldl (install_inst_edge sv) g insts in
  (length g <= length g')%nat
  /\ (forall q i, vtx_find_by_path g q = Some i -> vtx_find_by_path g' q = Some i)
  /\ (exists ivs,
        Forall2 (fun inst_ iv => vtx_find_by_path g' (inst_path inst_) = Some iv
                                 /\ edge_new iv sv ∈ dependents (vtx g' iv)) insts ivs
        /\ dependencies (vtx g' sv) = dependencies (vtx g sv) ++ (edge_new sv <$> ivs))
  /\ (forall w e, e ∈ dependents (vtx g w) -> e ∈ dependents (vtx g' w))
  /\ (graph_wf g -> graph_wf g')
  /\ (paths_distinct g -> paths_distinct g').
Proof.
  induction insts as [|inst_ insts IH]; intros g Hsv; cbv zeta; simpl.
  - split; [done|]. split; [done|]. split; [|done].
    exists []. split; [constructor | by rewrite app_nil_r].
  - destruct (install_inst_edge_step sv g inst_ Hsv)
      as (Hlen1 & Hst1 & (iv & Hiv & Hdeps1 & Hdpt1) & Hmono1 & Hwf1 & Hnd1).
    destruct (IH (install_inst_edge sv g inst_) ltac:(lia))
      as (Hlen2 & Hst2 & (ivs & Hivs & Hdeps2) & Hmono2 & Hwf2 & Hnd2).
    split; [lia|]. split; [by auto|]. split; [|split; [by auto | split; by auto]].
    exists (iv :: ivs). split.
    + constructor; [|done]. split; [by apply Hst2 | by apply Hmono2].
    + rewrite Hdeps2, Hdeps1. simpl. by rewrite <- app_assoc.
Qed.

(** graph_install_service is idempotent: installing a service a second time
    hands back the same vertex and leaves the graph as the first call made
    it. *)
Theorem graph_install_service_idempotent (g : graph_t) (svc_ : S16Service) :
  graph_install_service (snd (graph_install_service g svc_)) svc_
  = graph_install_service g svc_.
Proof.
  unfold graph_install_service at 2 3.
  pose proof (vtx_find_or_add_found g (svc_path svc_) V_SVC kS16RequireAll kS16RestartOnAny)
    as Hfound.
  pose proof (vtx_find_or_add_lt g (svc_path svc_) V_SVC kS16RequireAll kS16RestartOnAny)
    as Hlt.
  destruct (vtx_find_or_add g (svc_path svc_) V_SVC kS16RequireAll kS16RestartOnAny)
    as [sv g1]. cbn [fst snd] in *.
  destruct (is_setup (vtx g1 sv)) eqn:Hsetup; cbn [snd].
  - unfold graph_install_service, vtx_find_or_add. rewrite Hfound. by rewrite Hsetup.
  - destruct (install_fold sv (svc_insts svc_) g1 Hlt) as (Hlen & Hst & _).
    set (g2 := foldl (install_inst_edge sv) g1 (svc_insts svc_)) in *.
    assert (Hfind3 : vtx_find_by_path (store (set_is_setup true) sv g2) (svc_path svc_)
                     = Some sv).
    { rewrite (vtx_find_by_path_paths g2) by (by apply paths_store). by apply Hst. }
    unfold graph_install_service, vtx_find_or_add. rewrite Hfind3.
    by rewrite vtx_store_eq by lia.
Qed.

(** What graph_install_service leaves behind.  The service's vertex is found
    under the service's path and is set up, and every vertex that could be
    looked up before still can.  If the service was not set up already, its
    dependencies have gained one edge per declared instance, in the order of
    the declaration, each to the vertex found under that instance's path,
    which holds the mirror edge among its dependents. *)
Theorem graph_install_service_builds (g : graph_t) (svc_ : S16Service) :
  let r := graph_install_service g svc_ in
  vtx_find_by_path (snd r) (svc_path svc_) = Some (fst r)
  /\ is_setup (vtx (snd r) (fst r)) = true
  /\ (forall q i, vtx_find_by_path g q = Some i -> vtx_find_by_path (snd r) q = Some i)
  /\ ((forall i, vtx_find_by_path g (svc_path svc_) = Some i -> is_setup (vtx g i) = false) ->
      exists ivs,
        Forall2 (fun inst_ iv =>
                   vtx_find_by_path (snd r) (inst_path inst_) = Some iv
                   /\ edge_new iv (fst r) ∈ dependents (vtx (snd r) iv))
                (svc_insts svc_) ivs
        /\ dependencies (vtx (snd r) (fst r))
           = dependencies (vtx g (fst r)) ++ (edge_new (fst r) <$> ivs)).
Proof.
  cbv zeta. unfold graph_install_service.
  pose proof (vtx_find_or_add_found g (svc_path svc_) V_SVC kS16RequireAll kS16RestartOnAny)
    as Hfound.
  pose proof (vtx_find_or_add_stable g (svc_path svc_) V_SVC kS16RequireAll kS16RestartOnAny)
    as Hstable.
  pose proof (vtx_find_or_add_lt g (svc_path svc_) V_SVC kS16RequireAll kS16RestartOnAny)
    as Hlt.
  pose proof (vtx_find_or_add_vtx g (svc_path svc_) V_SVC kS16RequireAll kS16RestartOnAny)
    as Hvtx.
  destruct (vtx_find_or_add g (svc_path svc_) V_SVC kS16RequireAll kS16RestartOnAny)
    as [sv g1] eqn:Hfa. cbn [fst snd] in *.
  destruct (is_setup (vtx g1 sv)) eqn:Hsetup; cbn [fst snd].
  - split; [done|]. split; [done|]. split; [intros q i Hq; by apply Hstable|].
    intros Hnot. exfalso.
    destruct (vtx_find_by_path g (svc_path svc_)) as [i|] eqn:Hfind.
    + destruct (Hstable _ _ Hfind) as [Hi Hv]. 
      assert (i = sv) by congruence. subst i.
      rewrite Hv, (Hnot _ eq_refl) in Hsetup. done.
    + unfold vtx_find_or_add in Hfa. rewrite Hfind in Hfa. injection Hfa as <- <-.
      rewrite vtx_app_new in Hsetup. done.
  - destruct (install_fold sv (svc_insts svc_) g1 Hlt)
      as (Hlen & Hst & (ivs & Hivs & Hdeps) & Hmono & _).
    set (g2 := foldl (install_inst_edge sv) g1 (svc_insts svc_)) in *.
    assert (Hp : forall q, vtx_find_by_path (store (set_is_setup true) sv g2) q
                           = vtx_find_by_path g2 q).
    { intros q. apply vtx_find_by_path_paths. by apply paths_store. }
    split; [rewrite Hp; by apply Hst|].
    split; [by rewrite vtx_store_eq by lia|].
    split; [intros q i Hq; rewrite Hp; apply Hst; by apply Hstable|].
    intros _. exists ivs. split.
    + eapply Forall2_impl; [exact Hivs|]. intros inst_ iv [H1 H2]. rewrite Hp.
      split; [done|]. by rewrite store_dependents.
    + rewrite store_dependencies by done. rewrite Hdeps. f_equal.
      destruct (Hvtx sv) as [->|(Hd & _ & Hge)]; [done|].
      rewrite Hd. by rewrite vtx_dangling.
Qed.

(** graph_install_service keeps the graph well formed: one vertex per path,
    every edge owned by its list and within the graph, the two edge lists
    mirroring each other. *)
Theorem graph_install_service_wf (g : graph_t) (svc_ : S16Service)
    (Hwf : graph_wf g) (Hnd : paths_distinct g) :
  let r := graph_install_service g svc_ in
  graph_wf (snd r) /\ paths_distinct (snd r)
  /\ (fst r < length (snd r))%nat /\ (length g <= length (snd r))%nat.
Proof.
  cbv zeta. unfold graph_install_service.
  pose proof (vtx_find_or_add_lt g (svc_path svc_) V_SVC kS16RequireAll kS16RestartOnAny)
    as Hlt.
  pose proof (vtx_find_or_add_length g (svc_path svc_) V_SVC kS16RequireAll kS16RestartOnAny)
    as Hlen.
  pose proof (vtx_find_or_add_wf g (svc_path svc_) V_SVC kS16RequireAll kS16RestartOnAny Hwf)
    as Hwf1.
  pose proof (vtx_find_or_add_nodup g (svc_path svc_) V_SVC kS16RequireAll kS16RestartOnAny Hnd)
    as Hnd1.
  destruct (vtx_find_or_add g (svc_path svc_) V_SVC kS16RequireAll kS16RestartOnAny)
    as [sv g1]. cbn [fst snd] in *.
  destruct (is_setup (vtx g1 sv)); cbn [fst snd]; [done|].
  destruct (install_fold sv (svc_insts svc_) g1 Hlt) as (Hlen2 & _ & _ & _ & Hwf2 & Hnd2).
  split; [apply store_wf; by auto|].
  split; [unfold paths_distinct; rewrite paths_store by done; by apply Hnd2|].
  rewrite store_length. lia.
Qed.

(** *** vtx_find_or_add *)

(** vtx_find_or_add and vtx_find_by_path: the vertex handed back is the one a
    lookup of the path finds afterwards; every earlier lookup still finds the
    same, unchanged vertex; a path the graph already has leaves the graph as
    it is, whatever kind of vertex was asked for; a new path gets a vertex at
    the end of the list, Uninitialised, with no flag set and no edge. *)
Theorem vtx_find_or_add_lookup (g : graph_t) (p : S16Path) (ty : vertex_type_t)
    (dg : S16DependencyGroupType) (ro : S16DependencyGroupRestartOnCondition) :
  let r := vtx_find_or_add g p ty dg ro in
  vtx_find_by_path (snd r) p = Some (fst r)
  /\ (forall q i, vtx_find_by_path g q = Some i ->
        vtx_find_by_path (snd r) q = Some i /\ vtx (snd r) i = vtx g i)
  /\ (p ∈ (path <$> g) -> snd r = g)
  /\ (p ∉ (path <$> g) ->
        fst r = length g
        /\ snd r = g ++ [mk_vertex p ty dg ro kS16StateUninitialised
                                   false false false false [] []]).
Proof.
  cbv zeta. split; [apply vtx_find_or_add_found|].
  split; [intros q i; apply vtx_find_or_add_stable|].
  unfold vtx_find_or_add.
  destruct (vtx_find_by_path g p) as [nv|] eqn:Hfind; cbn [fst snd].
  - split; [done|]. intros Hnot. apply vertex_list_find_None in Hnot.
    unfold vtx_find_by_path in Hfind. congruence.
  - split; [|done]. intros Hin. by apply vertex_list_find_None in Hfind.
Qed.

(** vtx_find_or_add keeps the paths of the graph distinct, and with distinct
    paths a lookup by the path of a vertex finds that very vertex. *)
Theorem vtx_find_or_add_paths_distinct (g : graph_t) (p : S16Path) (ty : vertex_type_t)
    (dg : S16DependencyGroupType) (ro : S16DependencyGroupRestartOnCondition)
    (Hg : paths_distinct g) :
  let g' := snd (vtx_find_or_add g p ty dg ro) in
  paths_distinct g'
  /\ forall v, (v < length g')%nat -> vtx_find_by_path g' (path (vtx g' v)) = Some v.
Proof.
  cbv zeta. pose proof (vtx_find_or_add_nodup g p ty dg ro Hg) as Hd.
  split; [exact Hd|]. intros v Hv. by apply vtx_find_by_path_inv.
Qed.

(** *** The examples are well formed *)

Lemma g_coming_up_wf : graph_wf g_coming_up /\ paths_distinct g_coming_up.
Proof. split; [by apply graph_wf_check | unfold paths_distinct; compute_done]. Defined.

Lemma vtx_find_or_add_paths_distinct_witness :
  let g' := snd (vtx_find_or_add g_coming_up path_b V_SVC kS16RequireAll kS16RestartOnAny) in
  paths_distinct g'
  /\ forall v, (v < length g')%nat -> vtx_find_by_path g' (path (vtx g' v)) = Some v.
Proof.
  apply (vtx_find_or_add_paths_distinct g_coming_up path_b V_SVC kS16RequireAll
           kS16RestartOnAny).
  apply g_coming_up_wf.
Defined.

Lemma vtx_dependency_add_wf_witness :
  exists r g' p',
    vtx_dependency_add g_coming_up 0 2 [] = Ok (r, g', p')
    /\ (r = 0 \/ r = 1)
    /\ graph_wf g' /\ length g' = length g_coming_up /\ path <$> g' = path <$> g_coming_up.
Proof.
  apply (vtx_dependency_add_wf g_coming_up 0 2 []).
  - apply g_coming_up_wf.
  - simpl. lia.
  - simpl. lia.
Defined.

(** Service b with its instance b:j, which the graph already has, and a new
    instance b:k. *)
Lemma graph_install_service_wf_witness :
  let r := graph_install_service g_coming_up
             (mk_S16Service path_b
                [mk_S16ServiceInstance path_b_j [];
                 mk_S16ServiceInstance (S16PathNew "b" (Some "k")) []] []) in
  graph_wf (snd r) /\ paths_distinct (snd r)
  /\ (fst r < length (snd r))%nat /\ (length g_coming_up <= length (snd r))%nat.
Proof.
  apply (graph_install_service_wf g_coming_up); apply g_coming_up_wf.
Defined.

(** *** Names of dependency groups *)

Lemma string_length_app (s1 s2 : string) :
  String.length (s1 +:+ s2) = (String.length s1 + String.length s2)%nat.
Proof. induction s1 as [|c s1 IH]; simpl; [done | by rewrite IH]. Qed.

Lemma depgroup_name_length ot cnt :
  (String.length (depgroup_name ot cnt) + 1
   = (String.length (depgroup_name_measured ot cnt) + 1) + 10)%nat.
Proof.
  unfold depgroup_name, depgroup_name_measured.
  rewrite !string_length_app. simpl. lia.
Qed.

Lemma make_depgroup_path_undefined p cnt : make_depgroup_path p cnt = Undefined.
Proof.
  unfold make_depgroup_path, sprintf.
  pose proof (depgroup_name_length
                (match inst p with Some i => i | None => svc p end) cnt) as Hlen.
  destruct (decide _) as [Hfit|Hfit]; [lia | reflexivity].
Qed.

(** make_depgroup_path measures the name with the format "%s>%d" and writes
    it with the format "%s#depgroups/%d": the buffer it allocates is ten bytes
    short of what sprintf writes into it, for every path and every index, so
    no call stays within defined behaviour. *)
Theorem make_depgroup_path_overruns (p : S16Path) (cnt : Z) :
  let ot := match inst p with Some i => i | None => svc p end in
  (String.length (depgroup_name ot cnt) + 1
   = (String.length (depgroup_name_measured ot cnt) + 1) + 10)%nat
  /\ sprintf (String.length (depgroup_name_measured ot cnt) + 1) (depgroup_name ot cnt)
     = Undefined
  /\ make_depgroup_path p cnt = Undefined.
Proof.
  cbv zeta. split; [apply depgroup_name_length|].
  split; [|apply make_depgroup_path_undefined].
  unfold sprintf.
  pose proof (depgroup_name_length
                (match inst p with Some i => i | None => svc p end) cnt) as Hlen.
  destruct (decide _) as [Hfit|Hfit]; [lia | reflexivity].
Qed.

(** *** vtx_setup *)

Lemma update_loop_cases f v dgs cnt g p :
  update_loop f v dgs cnt g p = if decide (dgs = []) then Ok g else Undefined.
Proof.
  destruct dgs as [|dg dgs]; simpl; [done|]. by rewrite make_depgroup_path_undefined.
Qed.

Section SetupProps.
Variable NDEBUG : bool.
Variable hdl : S16Path -> option s16db_lookup_result.

Lemma vtx_setup_S n g v :
  vtx_setup NDEBUG hdl (S n) g v
  = if is_setup (vtx g v) then Ok g
    else vtx_update NDEBUG hdl n
           (store (set_is_enabled true) v (store (set_is_setup true) v g)) v.
Proof. reflexivity. Qed.

Lemma vtx_update_cases n g v :
  vtx_update NDEBUG hdl (S (S n)) g v
  = match declared_depgroups hdl (vtx g v) with
    | Some [] => Ok g
    | _ => Undefined
    end.
Proof.
  cbn [vtx_update]. unfold declared_depgroups.
  destruct (type (vtx g v)); [| |done].
  - destruct (hdl (path (vtx g v))) as [[i|s]|]; [done | | done].
    rewrite update_loop_cases. by destruct (svc_depgroups s).
  - destruct (hdl (path (vtx g v))) as [[i|s]|]; [| done | done].
    rewrite update_loop_cases. by destruct (inst_depgroups i).
Qed.

(** vtx_setup.  A vertex that is set up already is left alone.  One that is
    not gets is_setup and is_enabled set, and that is all the call does when
    the repository declares no dependency group for it (or the vertex is a
    group itself); a second call then changes nothing.  With a group declared
    the call leaves defined behaviour, the name of the first group overrunning
    its buffer; so it does when the repository holds no object of the vertex's
    kind under its path, the result of the lookup being read unchecked. *)
Theorem vtx_setup_once (n : nat) (g : graph_t) (v : vertex_id) :
  let g1 := store (set_is_enabled true) v (store (set_is_setup true) v g) in
  (is_setup (vtx g v) = true -> vtx_setup NDEBUG hdl (S n) g v = Ok g)
  /\ (is_setup (vtx g v) = false ->
        vtx_setup NDEBUG hdl (S (S (S n))) g v
        = match declared_depgroups hdl (vtx g v) with
          | Some [] => Ok g1
          | _ => Undefined
          end)
  /\ ((v < length g)%nat -> vtx_setup NDEBUG hdl (S n) g1 v = Ok g1).
Proof.
  cbv zeta. split; [|split].
  - intros Hs. rewrite vtx_setup_S. by rewrite Hs.
  - intros Hs. rewrite vtx_setup_S, Hs, vtx_update_cases.
    assert (Heq : declared_depgroups hdl
                    (vtx (store (set_is_enabled true) v (store (set_is_setup true) v g)) v)
                  = declared_depgroups hdl (vtx g v)).
    { unfold declared_depgroups.
      destruct (vtx_store (set_is_enabled true) v (store (set_is_setup true) v g) v)
        as [->|[_ ->]];
      destruct (vtx_store (set_is_setup true) v g v) as [->|[_ ->]]; done. }
    by rewrite Heq.
  - intros Hv. rewrite vtx_setup_S.
    rewrite vtx_store_eq by (by rewrite store_length). simpl.
    by rewrite vtx_store_eq.
Qed.

End SetupProps.

(** *** vtx_notify_admin_disable *)


Lemma up_to_offline_fields g g' w :
  up_to_offline g g' ->
  type (vtx g' w) = type (vtx g w) /\ dg_type (vtx g' w) = dg_type (vtx g w)
  /\ restart_on (vtx g' w) = restart_on (vtx g w)
  /\ dependents (vtx g' w) = dependents (vtx g w)
  /\ dependencies (vtx g' w) = dependencies (vtx g w).
Proof.
  intros H. specialize (H w).
  split; [exact (f_equal type H)|]. split; [exact (f_equal dg_type H)|].
  split; [exact (f_equal restart_on H)|]. split; [exact (f_equal dependents H)|].
  exact (f_equal dependencies H).
Qed.

Lemma up_to_offline_refl g : up_to_offline g g.
Proof. by intros w. Qed.

Lemma up_to_offline_trans g1 g2 g3 :
  up_to_offline g1 g2 -> up_to_offline g2 g3 -> up_to_offline g1 g3.
Proof. intros H1 H2 w. by rewrite H2, H1. Qed.

Lemma up_to_offline_sym g1 g2 : up_to_offline g1 g2 -> up_to_offline g2 g1.
Proof. intros H w. by rewrite H. Qed.

Lemma up_to_offline_store g v b : up_to_offline g (store (set_to_offline b) v g).
Proof.
  intros w. destruct (vtx_store (set_to_offline b) v g w) as [->|[-> ->]]; done.
Qed.

Lemma disable_walk_up_to_offline g g' u w :
  up_to_offline g g' -> disable_walk g u w -> disable_walk g' u w.
Proof.
  intros Heq. induction 1 as [u Hty|u e w Hpass He _ IH].
  - constructor. destruct (up_to_offline_fields g g' u Heq) as (-> & _). done.
  - destruct (up_to_offline_fields g g' u Heq) as (Ht & Hd & Hr & Hp & _).
    apply (disable_walk_edge _ u e w); [|by rewrite Hp | done].
    unfold disable_passes. by rewrite Ht, Hd, Hr.
Qed.

Lemma up_to_offline_dpts_ranked g g' rk :
  up_to_offline g g' -> dpts_ranked g rk -> dpts_ranked g' rk.
Proof.
  intros Heq Hrk v e. destruct (up_to_offline_fields g g' v Heq) as (_ & _ & _ & -> & _).
  apply Hrk.
Qed.

Lemma edges_do_st_marks (f : graph_t -> vertex_id -> result graph_t) rk es :
  (forall g e, e ∈ es -> dpts_ranked g rk -> disable_marks g (to e) (f g (to e))) ->
  forall g, dpts_ranked g rk ->
    exists g', edges_do_st f es g = Ok g' /\ length g' = length g /\ up_to_offline g g'
      /\ forall w, to_offline (vtx g' w) = true
                   <-> to_offline (vtx g w) = true
                       \/ exists e, e ∈ es /\ disable_walk g (to e) w.
Proof.
  induction es as [|e es IH]; intros Hf g Hrk; simpl.
  - exists g. split; [done|]. split; [done|]. split; [apply up_to_offline_refl|].
    intros w. split; [by left|]. intros [?|(e & He & _)]; [done|]. by apply elem_of_nil in He.
  - destruct (Hf g e ltac:(apply elem_of_cons; by left) Hrk) as (g1 & -> & Hlen1 & Heq1 & Hm1).
    cbn [bind].
    destruct (IH ltac:(intros g0 e0 He0; apply Hf; apply elem_of_cons; by right) g1
                 (up_to_offline_dpts_ranked _ _ _ Heq1 Hrk))
      as (g2 & -> & Hlen2 & Heq2 & Hm2).
    exists g2. split; [done|]. split; [congruence|].
    split; [by eapply up_to_offline_trans|].
    intros w. rewrite Hm2, Hm1. split.
    + intros [[?|Hw]|(e' & He' & Hw)]; [by left | |].
      * right. exists e. split; [apply elem_of_cons; by left | done].
      * right. exists e'. split; [apply elem_of_cons; by right|].
        by apply (disable_walk_up_to_offline g1 g); [apply up_to_offline_sym|].
    + intros [?|(e' & He' & Hw)]; [by left; left|].
      apply elem_of_cons in He' as [->|He']; [by left; right|].
      right. exists e'. split; [done|]. by apply (disable_walk_up_to_offline g g1).
Qed.

Lemma vtx_notify_admin_disable_marks_at rk n :
  forall g u reason, dpts_ranked g rk -> (rk u < n)%nat ->
    disable_marks g u (vtx_notify_admin_disable n g u reason).
Proof.
  induction n as [|n IH]; intros g u reason Hrk Hn; [lia|].
  cbn [vtx_notify_admin_disable].
  assert (Hloop : forall g1, up_to_offline g g1 ->
            exists g', edges_do_st (fun g0 w => vtx_notify_admin_disable n g0 w reason)
                                   (dependents (vtx g u)) g1 = Ok g'
              /\ length g' = length g1 /\ up_to_offline g1 g'
              /\ forall w, to_offline (vtx g' w) = true
                           <-> to_offline (vtx g1 w) = true
                               \/ exists e, e ∈ dependents (vtx g u)
                                            /\ disable_walk g1 (to e) w).
  { intros g1 Heq. apply (edges_do_st_marks _ rk).
    - intros g0 e He Hrk0. apply IH; [done|]. specialize (Hrk u e He). lia.
    - by eapply up_to_offline_dpts_ranked. }
  assert (Hnone : ~ disable_passes g u -> type (vtx g u) <> V_INST ->
            disable_marks g u (Ok g)).
  { intros Hno Hty. exists g. split; [done|]. split; [done|].
    split; [apply up_to_offline_refl|]. intros w. split; [by left|].
    intros [?|Hw]; [done|]. inversion Hw; subst; done. }
  assert (Hpass : disable_passes g u -> type (vtx g u) <> V_INST ->
            disable_marks g u
              (edges_do_st (fun g0 w => vtx_notify_admin_disable n g0 w reason)
                           (dependents (vtx g u)) g)).
  { intros Hp Hty. destruct (Hloop g (up_to_offline_refl g)) as (g' & -> & Hlen & Heq & Hm).
    exists g'. split; [done|]. split; [done|]. split; [done|].
    intros w. rewrite Hm. split.
    - intros [?|(e & He & Hw)]; [by left|]. right. by econstructor.
    - intros [?|Hw]; [by left|]. right. inversion Hw as [|? e ? _ He Hw']; subst; [done|].
      by exists e. }
  destruct (type (vtx g u)) eqn:Hty.
  - apply Hpass; [right; by left | done].
  - (* an Instance: marked, then its dependents *)
    assert (Hu : (u < length g)%nat).
    { destruct (decide (u < length g)%nat); [done|].
      rewrite vtx_dangling in Hty by lia. done. }
    rewrite store_dependents by done.
    destruct (Hloop (store (set_to_offline true) u g) (up_to_offline_store g u true))
      as (g' & -> & Hlen & Heq & Hm).
    exists g'. split; [done|]. split; [by rewrite Hlen, store_length|].
    split; [eapply up_to_offline_trans; [apply up_to_offline_store | done]|].
    intros w. rewrite Hm. split.
    + intros [Hw|(e & He & Hw)].
      * destruct (decide (w = u)) as [->|Hne].
        -- right. by constructor.
        -- left. by rewrite vtx_store_ne in Hw.
      * right. apply (disable_walk_edge _ u e w); [by left | done|].
        apply (disable_walk_up_to_offline _ g) in Hw; [done|].
        apply up_to_offline_sym, up_to_offline_store.
    + intros [Hw|Hw].
      * left. destruct (decide (w = u)) as [->|Hne].
        -- by rewrite vtx_store_eq.
        -- by rewrite vtx_store_ne.
      * inversion Hw as [|? e ? _ He Hw']; subst.
        -- left. by rewrite vtx_store_eq.
        -- right. exists e. split; [done|].
           apply (disable_walk_up_to_offline g); [apply up_to_offline_store | done].
  - destruct (decide (dg_type (vtx g u) = kS16ExcludeAll)) as [Hex|Hex].
    { rewrite bool_decide_eq_true_2 by done. cbn [orb]. apply Hnone; [|done].
      intros [?|[?|(_ & ? & _)]]; congruence. }
    rewrite (bool_decide_eq_false_2 _ Hex). cbn [orb].
    destruct (decide (restart_on (vtx g u) = kS16RestartOnNone)) as [Hr1|Hr1].
    { rewrite bool_decide_eq_true_2 by done. cbn [orb]. apply Hnone; [|done].
      intros [?|[?|(_ & _ & ? & _)]]; congruence. }
    rewrite (bool_decide_eq_false_2 _ Hr1). cbn [orb].
    destruct (decide (restart_on (vtx g u) = kS16RestartOnError)) as [Hr2|Hr2].
    { rewrite bool_decide_eq_true_2 by done. apply Hnone; [|done].
      intros [?|[?|(_ & _ & _ & ?)]]; congruence. }
    rewrite (bool_decide_eq_false_2 _ Hr2).
    apply Hpass; [|done]. right; right. done.
Qed.


(** vtx_notify_admin_disable on a graph whose dependent edges are acyclic:
    the call comes back, and all it has changed are to_offline flags.  The
    flag is set on exactly the Instances the walk arrives at: [u] itself when
    it is one, and on from any vertex that hands the request on (an Instance,
    a Service, a group that is not kS16ExcludeAll and restarts on more than
    errors) to its dependents. *)
Theorem vtx_notify_admin_disable_spec (g : graph_t) (rk : vertex_id -> nat)
    (u : vertex_id) (n : nat) (reason : Z)
    (Hrk : dpts_ranked g rk) (Hn : (rk u < n)%nat) :
  exists g',
    vtx_notify_admin_disable n g u reason = Ok g'
    /\ length g' = length g
    /\ (forall w, set_to_offline false (vtx g' w) = set_to_offline false (vtx g w))
    /\ (forall w, to_offline (vtx g' w) = true
                  <-> to_offline (vtx g w) = true \/ disable_walk g u w).
Proof.
  destruct (vtx_notify_admin_disable_marks_at rk n g u reason Hrk Hn)
    as (g' & Hrun & Hlen & Heq & Hm).
  exists g'. split; [exact Hrun|]. split; [exact Hlen|]. split; [|exact Hm].
  intros w. apply Heq.
Qed.

Lemma vtx_notify_admin_disable_spec_witness :
  exists g',
    vtx_notify_admin_disable 3 g_coming_up 0 0 = Ok g'
    /\ length g' = length g_coming_up
    /\ (forall w, set_to_offline false (vtx g' w) = set_to_offline false (vtx g_coming_up w))
    /\ (forall w, to_offline (vtx g' w) = true
                  <-> to_offline (vtx g_coming_up w) = true \/ disable_walk g_coming_up 0 w).
Proof.
  apply (vtx_notify_admin_disable_spec g_coming_up chain_rk_dpts 0 3 0).
  - apply chain_dpts_ranked.
  - vm_compute. lia.
Defined.

(** Whatever the graph, a call that comes back has changed to_offline flags
    only. *)
Lemma edges_do_st_up_to_offline (f : graph_t -> vertex_id -> result graph_t) es :
  (forall g w g', f g w = Ok g' -> up_to_offline g g' /\ length g' = length g) ->
  forall g g', edges_do_st f es g = Ok g' -> up_to_offline g g' /\ length g' = length g.
Proof.
  intros Hf. induction es as [|e es IH]; intros g g'; simpl.
  - intros [= <-]. split; [apply up_to_offline_refl | done].
  - intros H. apply bind_Ok_inv in H as (g1 & H1 & H2).
    destruct (Hf _ _ _ H1) as [Ha Hb]. destruct (IH _ _ H2) as [Hc Hd].
    split; [by eapply up_to_offline_trans | congruence].
Qed.

Lemma vtx_notify_admin_disable_up_to_offline n :
  forall g u reason g', vtx_notify_admin_disable n g u reason = Ok g' ->
    up_to_offline g g' /\ length g' = length g.
Proof.
  induction n as [|n IH]; intros g u reason g'; [discriminate|].
  cbn [vtx_notify_admin_disable].
  assert (Hloop : forall g1 es,
            edges_do_st (fun g0 w => vtx_notify_admin_disable n g0 w reason) es g1 = Ok g' ->
            up_to_offline g1 g' /\ length g' = length g1).
  { intros g1 es. apply edges_do_st_up_to_offline. intros g0 w g0'. apply IH. }
  destruct (type (vtx g u)).
  - apply Hloop.
  - intros H. destruct (Hloop _ _ H) as [Ha Hb]. split.
    + eapply up_to_offline_trans; [apply up_to_offline_store | exact Ha].
    + by rewrite Hb, store_length.
  - destruct (_ || _); [|apply Hloop]. intros [= <-].
    split; [apply up_to_offline_refl | done].
Qed.


(** *** Loops over the vertex list *)

Lemma vertices_do_total (f : vertex_id -> result s16note_list_t) vs :
  (forall v, v ∈ vs -> exists ns, f v = Ok ns) -> exists ns, vertices_do f vs = Ok ns.
Proof.
  induction vs as [|v vs IH]; intros Hf; simpl; [eauto|].
  destruct (Hf v) as [a ->]; [apply elem_of_cons; by left|].
  destruct IH as [b ->]; [intros v' Hv'; apply Hf; apply elem_of_cons; by right|].
  simpl. eauto.
Qed.

Lemma vertices_do_elem (f : vertex_id -> result s16note_list_t) vs ns x :
  vertices_do f vs = Ok ns ->
  (x ∈ ns <-> exists v ns_v, v ∈ vs /\ f v = Ok ns_v /\ x ∈ ns_v).
Proof.
  revert ns. induction vs as [|v vs IH]; intros ns; simpl.
  - intros [= <-]. split; [intros H; by apply elem_of_nil in H|].
    intros (v & ? & Hv & _). by apply elem_of_nil in Hv.
  - intros H. apply bind_Ok_inv in H as (a & Ha & H).
    apply bind_Ok_inv in H as (b & Hb & [= <-]).
    rewrite elem_of_app, (IH _ Hb). split.
    + intros [Hx | (v' & ns_v & Hv' & Hf & Hx)].
      * exists v, a. split; [apply elem_of_cons; by left | done].
      * exists v', ns_v. split; [apply elem_of_cons; by right | done].
    + intros (v' & ns_v & Hv' & Hf & Hx). apply elem_of_cons in Hv' as [->|Hv'].
      * left. congruence.
      * right. eauto.
Qed.

(** *** Vertices that differ in flags and state only *)

Lemma same_shape_refl x : same_shape x x.
Proof. by repeat split. Qed.

Lemma same_shape_trans x y z : same_shape x y -> same_shape y z -> same_shape x z.
Proof.
  intros (? & ? & ? & ? & ? & ? & ?) (? & ? & ? & ? & ? & ? & ?).
  repeat split; congruence.
Qed.

Lemma same_shape_store f v g w :
  (forall x, same_shape (f x) x) -> same_shape (vtx (store f v g) w) (vtx g w).
Proof.
  intros Hf. destruct (vtx_store f v g w) as [->|[-> ->]];
    [apply same_shape_refl | apply Hf].
Qed.

Lemma up_to_offline_same_shape g g' w :
  up_to_offline g g' -> same_shape (vtx g' w) (vtx g w).
Proof.
  intros H. specialize (H w).
  split; [exact (f_equal path H)|]. split; [exact (f_equal type H)|].
  split; [exact (f_equal dg_type H)|]. split; [exact (f_equal restart_on H)|].
  split; [exact (f_equal is_setup H)|]. split; [exact (f_equal dependencies H)|].
  exact (f_equal dependents H).
Qed.

Lemma disable_walk_same_shape g g' u w :
  (forall x, same_shape (vtx g' x) (vtx g x)) -> disable_walk g u w -> disable_walk g' u w.
Proof.
  intros Heq. induction 1 as [u Hty|u e w Hpass He _ IH].
  - constructor. destruct (Heq u) as (_ & -> & _). done.
  - destruct (Heq u) as (_ & Ht & Hd & Hr & _ & _ & Hp).
    apply (disable_walk_edge _ u e w); [|by rewrite Hp | done].
    unfold disable_passes. by rewrite Ht, Hd, Hr.
Qed.

Lemma same_shape_sym x y : same_shape x y -> same_shape y x.
Proof. intros (? & ? & ? & ? & ? & ? & ?). by repeat split. Qed.

Lemma same_shape_dpts_ranked g g' rk :
  (forall x, same_shape (vtx g' x) (vtx g x)) -> dpts_ranked g rk -> dpts_ranked g' rk.
Proof.
  intros Heq Hrk v e. destruct (Heq v) as (_ & _ & _ & _ & _ & _ & ->). apply Hrk.
Qed.


(** The heap after the three assignments of the A_DISABLE case. *)
Lemma disabled_vtx g v :
  (v < length g)%nat ->
  vtx (store (set_is_enabled false) v
         (store (set_to_offline true) v (store (set_to_disable true) v g))) v
  = set_is_enabled false (set_to_offline true (set_to_disable true (vtx g v))).
Proof.
  intros Hv. rewrite vtx_store_eq by (by rewrite !store_length).
  rewrite vtx_store_eq by (by rewrite !store_length). by rewrite vtx_store_eq.
Qed.

Lemma disabled_vtx_ne g v w :
  w <> v ->
  vtx (store (set_is_enabled false) v
         (store (set_to_offline true) v (store (set_to_disable true) v g))) w
  = vtx g w.
Proof. intros Hne. by rewrite !vtx_store_ne. Qed.

Lemma disabled_same_shape g v w :
  same_shape (vtx (store (set_is_enabled false) v
                     (store (set_to_offline true) v (store (set_to_disable true) v g))) w)
             (vtx g w).
Proof.
  eapply same_shape_trans; [apply same_shape_store; intros x; by repeat split|].
  eapply same_shape_trans; [apply same_shape_store; intros x; by repeat split|].
  apply same_shape_store. intros x. by repeat split.
Qed.

(** A_DISABLE on a graph whose dependent edges are acyclic.  The handler
    comes back.  On [v] it has set to_disable and to_offline and cleared
    is_enabled; it has set to_offline on the Instances that
    vtx_notify_admin_disable reaches from [v]'s dependents, and has changed
    nothing else.  It has queued one SC_OFFLINE note, with the intensity
    kS16RestartOnRestart whatever [reason] was given, for every Instance of
    the graph that is now marked to_offline and can go down. *)
Theorem admin_disable_spec (g : graph_t) (rk : vertex_id -> nat) (B fuel : nat)
    (notes : s16note_list_t) (v : vertex_id) (reason : Z)
    (Hrk : dpts_ranked g rk) (HB : forall w, (rk w < B)%nat) (Hfuel : (B < fuel)%nat)
    (Hv : (v < length g)%nat) :
  exists g' ns,
    vtx_process_admin_req fuel g notes v A_DISABLE reason = Ok (g', notes ++ ns)
    /\ length g' = length g
    /\ set_to_offline false (vtx g' v)
       = set_to_offline false (set_is_enabled false (set_to_disable true (vtx g v)))
    /\ (forall w, w <> v ->
          set_to_offline false (vtx g' w) = set_to_offline false (vtx g w))
    /\ (forall w, to_offline (vtx g' w) = true
                  <-> to_offline (vtx g w) = true \/ w = v
                      \/ exists e, e ∈ dependents (vtx g v) /\ disable_walk g (to e) w)
    /\ (forall x, x ∈ ns
                  <-> exists w, (w < length g)%nat /\ type (vtx g w) = V_INST
                        /\ to_offline (vtx g' w) = true
                        /\ vtx_can_go_down fuel g' w true = Ok true
                        /\ x = s16note_new (N_STATE_CHANGE SC_OFFLINE) (path (vtx g w))
                                           (restart_on_val kS16RestartOnRestart)).
Proof.
  unfold vtx_process_admin_req.
  set (g0 := store (set_is_enabled false) v
               (store (set_to_offline true) v (store (set_to_disable true) v g))).
  assert (Hshape0 : forall x, same_shape (vtx g0 x) (vtx g x))
    by (intros x; apply disabled_same_shape).
  assert (Hrk0 : dpts_ranked g0 rk) by (by apply (same_shape_dpts_ranked g)).
  assert (Hdp0 : dependents (vtx g0 v) = dependents (vtx g v)).
  { by destruct (Hshape0 v) as (_ & _ & _ & _ & _ & _ & ->). }
  destruct (edges_do_st_marks (fun g1 w => vtx_notify_admin_disable fuel g1 w reason) rk
              (dependents (vtx g0 v))) with (g := g0)
    as (g' & Hrun & Hlen & Heq & Hm); [|done|].
  { intros g1 e He Hrk1. apply (vtx_notify_admin_disable_marks_at rk); [done|].
    specialize (HB (to e)). lia. }
  rewrite Hrun. cbn [bind].
  assert (Hshape : forall x, same_shape (vtx g' x) (vtx g x)).
  { intros x. eapply same_shape_trans; [by apply up_to_offline_same_shape | apply Hshape0]. }
  assert (Hrk' : dpts_ranked g' rk) by (by apply (same_shape_dpts_ranked g)).
  destruct (vtx_can_go_down_total g' rk Hrk' fuel v true) as [b0 ->].
  { specialize (HB v). lia. }
  cbn [bind].
  destruct (vertices_do_total
              (fun w => vtx_offline_if_possible fuel g' w (restart_on_val kS16RestartOnRestart))
              (seq 0 (length g'))) as [ns Hns].
  { intros w _. unfold vtx_offline_if_possible.
    destruct (negb _); [eauto|]. destruct (decide _); [|eauto].
    destruct (vtx_can_go_down_total g' rk Hrk' fuel w true) as [b ->].
    { specialize (HB w). lia. }
    simpl. eauto. }
  assert (Hlen' : length g' = length g)
    by (rewrite Hlen; unfold g0; by rewrite !store_length).
  rewrite Hns. cbn [bind]. exists g', ns. split; [done|].
  split; [exact Hlen'|].
  split.
  { rewrite Heq. unfold g0. by rewrite disabled_vtx. }
  split.
  { intros w Hne. rewrite Heq. unfold g0. by rewrite disabled_vtx_ne. }
  split.
  { intros w. rewrite Hm. rewrite Hdp0. split.
    - intros [Hw|(e & He & Hw)].
      + destruct (decide (w = v)) as [->|Hne]; [by right; left|].
        left. unfold g0 in Hw. by rewrite disabled_vtx_ne in Hw.
      + right; right. exists e. split; [done|].
        apply (disable_walk_same_shape g0 g); [|done].
        intros x. apply same_shape_sym, Hshape0.
    - intros [Hw|[->|(e & He & Hw)]].
      + left. destruct (decide (w = v)) as [->|Hne].
        * unfold g0. by rewrite disabled_vtx.
        * unfold g0. by rewrite disabled_vtx_ne.
      + left. unfold g0. by rewrite disabled_vtx.
      + right. exists e. split; [done|]. by apply (disable_walk_same_shape g g0). }
  intros x. rewrite (vertices_do_elem _ _ _ _ Hns). split.
  - intros (w & ns_w & Hw & Hf & Hx). apply elem_of_seq in Hw.
    unfold vtx_offline_if_possible in Hf.
    destruct (to_offline (vtx g' w)) eqn:Hoff; cbn [negb] in Hf;
      [|injection Hf as <-; by apply elem_of_nil in Hx].
    destruct (decide (type (vtx g' w) = V_INST)) as [Hty|Hty];
      [|injection Hf as <-; by apply elem_of_nil in Hx].
    apply bind_Ok_inv in Hf as (down & Hdown & [= <-]).
    destruct down; [|by apply elem_of_nil in Hx].
    unfold vtx_offline in Hx. apply list_elem_of_singleton in Hx as ->.
    destruct (Hshape w) as (Hp & Ht & _).
    exists w. split; [lia|]. split; [congruence|]. split; [done|]. split; [done|].
    by rewrite Hp.
  - intros (w & Hw & Hty & Hoff & Hdown & ->).
    destruct (Hshape w) as (Hp & Ht & _).
    exists w, (vtx_offline g' w (restart_on_val kS16RestartOnRestart)).
    split; [apply elem_of_seq; lia|]. split.
    + unfold vtx_offline_if_possible. rewrite Hoff. cbn [negb].
      rewrite decide_True by congruence. by rewrite Hdown.
    + unfold vtx_offline. rewrite Hp. by apply list_elem_of_singleton.
Qed.


Lemma admin_disable_spec_witness :
  exists g' ns,
    vtx_process_admin_req 4 g_coming_up [] 0 A_DISABLE 0 = Ok (g', [] ++ ns)
    /\ length g' = length g_coming_up
    /\ set_to_offline false (vtx g' 0)
       = set_to_offline false (set_is_enabled false (set_to_disable true (vtx g_coming_up 0)))
    /\ (forall w, w <> 0%nat ->
          set_to_offline false (vtx g' w) = set_to_offline false (vtx g_coming_up w))
    /\ (forall w, to_offline (vtx g' w) = true
                  <-> to_offline (vtx g_coming_up w) = true \/ w = 0%nat
                      \/ exists e, e ∈ dependents (vtx g_coming_up 0)
                                   /\ disable_walk g_coming_up (to e) w)
    /\ (forall x, x ∈ ns
                  <-> exists w, (w < length g_coming_up)%nat
                        /\ type (vtx g_coming_up w) = V_INST
                        /\ to_offline (vtx g' w) = true
                        /\ vtx_can_go_down 4 g' w true = Ok true
                        /\ x = s16note_new (N_STATE_CHANGE SC_OFFLINE)
                                           (path (vtx g_coming_up w))
                                           (restart_on_val kS16RestartOnRestart)).
Proof.
  apply (admin_disable_spec g_coming_up chain_rk_dpts 3 4 [] 0 0).
  - apply chain_dpts_ranked.
  - intros w. apply chain_rk_bounded.
  - lia.
  - simpl. lia.
Defined.

(** *** Processing a note stays within defined behaviour *)

Lemma bind_defined {A B : Type} (m : result A) (k : A -> result B) :
  m <> Undefined -> (forall a, k a <> Undefined) -> bind m k <> Undefined.
Proof. destruct m; simpl; intros Hm Hk; [apply Hk | done ..]. Qed.

Section Defined.
Variable NDEBUG : bool.

Lemma assert_defined c : assert NDEBUG c <> Undefined.
Proof. unfold assert. by destruct (NDEBUG || c). Qed.

Lemma sat_fold_edges_defined (f : vertex_id -> result satisfied_t) es sat :
  (forall w, f w <> Undefined) -> sat_fold_edges f es sat <> Undefined.
Proof.
  intros Hf. revert sat. induction es as [|e es IH]; intros sat; simpl; [done|].
  apply bind_defined; [apply Hf | intros a; apply IH].
Qed.

Lemma require_any_loop_defined (f : vertex_id -> result satisfied_t) es sat :
  (forall w, f w <> Undefined) -> require_any_loop f es sat <> Undefined.
Proof.
  intros Hf. revert sat. induction es as [|e es IH]; intros sat; simpl; [done|].
  apply bind_defined; [apply Hf | intros a].
  destruct (decide _); [done | apply IH].
Qed.

Lemma vtx_inst_satisfies_exclusion_defined g v :
  vtx_inst_satisfies_exclusion NDEBUG g v <> Undefined.
Proof.
  unfold vtx_inst_satisfies_exclusion.
  apply bind_defined; [apply assert_defined | intros _].
  destruct (negb _); [done|]. by destruct (state (vtx g v)).
Qed.

Lemma optional_all_loop_defined (f : vertex_id -> result satisfied_t) g es sat :
  (forall w, f w <> Undefined) -> optional_all_loop NDEBUG f g es sat <> Undefined.
Proof.
  intros Hf. revert sat. induction es as [|e es IH]; intros sat; simpl; [done|].
  apply bind_defined; [apply assert_defined | intros _].
  apply bind_defined.
  { destruct (decide _); [|done]. apply bind_defined; [apply Hf | done]. }
  intros sat1. apply bind_defined; [|intros; apply IH].
  destruct (decide _); [|done]. by apply sat_fold_edges_defined.
Qed.

Lemma exclude_all_loop_defined g es sat : exclude_all_loop NDEBUG g es sat <> Undefined.
Proof.
  revert sat. induction es as [|e es IH]; intros sat; simpl; [done|].
  apply bind_defined; [apply assert_defined | intros _].
  apply bind_defined.
  { destruct (decide _); [|done].
    apply bind_defined; [apply vtx_inst_satisfies_exclusion_defined | done]. }
  intros sat1. apply bind_defined; [|intros; apply IH].
  destruct (decide _); [|done]. apply sat_fold_edges_defined.
  intros. apply vtx_inst_satisfies_exclusion_defined.
Qed.

Lemma sat_defined g n :
  forall v rec,
    depgroup_is_satisfied NDEBUG n g v rec <> Undefined
    /\ vtx_inst_satisfies NDEBUG n g v rec <> Undefined
    /\ vtx_inst_satisfies_optional NDEBUG n g v rec <> Undefined
    /\ vtx_satisfies NDEBUG n g v rec <> Undefined.
Proof.
  induction n as [|n IH]; intros v rec; [done|].
  repeat split.
  - rewrite depgroup_is_satisfied_S. destruct (dg_type (vtx g v)).
    + apply sat_fold_edges_defined. intros w. apply IH.
    + destruct (decide _); [done|]. apply require_any_loop_defined. intros w. apply IH.
    + apply optional_all_loop_defined. intros w. apply IH.
    + apply exclude_all_loop_defined.
  - cbn [vtx_inst_satisfies].
    apply bind_defined; [apply assert_defined | intros _].
    destruct (_ || _); [done|]. destruct (state (vtx g v)); try done.
    destruct (negb rec); [done|]. apply bind_defined; [apply IH | done].
  - cbn [vtx_inst_satisfies_optional].
    apply bind_defined; [apply assert_defined | intros _].
    destruct (negb (is_setup _)); [done|]. destruct (state (vtx g v)); try done.
    destruct (negb rec); [done|]. apply bind_defined; [apply IH | done].
  - rewrite vtx_satisfies_S. destruct (decide _); apply IH.
Qed.

Lemma vtx_inst_can_come_up_defined g n v : vtx_inst_can_come_up NDEBUG n g v <> Undefined.
Proof.
  unfold vtx_inst_can_come_up. destruct (_ && _); [|done].
  apply bind_defined; [apply sat_defined | done].
Qed.

Lemma edges_do_defined (f : vertex_id -> result s16note_list_t) es :
  (forall w, f w <> Undefined) -> edges_do f es <> Undefined.
Proof.
  intros Hf. induction es as [|e es IH]; simpl; [done|].
  apply bind_defined; [apply Hf | intros a]. apply bind_defined; [apply IH | done].
Qed.

Lemma vtx_notify_start_defined g n :
  forall v r, vtx_notify_start NDEBUG n g v r <> Undefined.
Proof.
  induction n as [|n IH]; intros v r; [done|]. cbn [vtx_notify_start].
  destruct (type (vtx g v)); try (apply edges_do_defined; intros w; apply IH).
  apply bind_defined; [apply vtx_inst_can_come_up_defined|].
  intros up. destruct up; [|done]. by destruct (vtx_is_running g v).
Qed.

Lemma vtx_notify_misc_defined g n :
  forall v r, vtx_notify_misc NDEBUG n g v r <> Undefined.
Proof.
  induction n as [|n IH]; intros v r; [done|]. cbn [vtx_notify_misc].
  apply bind_defined.
  { destruct (decide _); [|done].
    apply bind_defined; [apply vtx_inst_can_come_up_defined | done]. }
  intros a. apply bind_defined; [|done]. apply edges_do_defined. intros w. apply IH.
Qed.

End Defined.

Lemma vtx_notify_stop_defined g n : forall v r, vtx_notify_stop n g v r <> Undefined.
Proof.
  induction n as [|n IH]; intros v r; [done|]. cbn [vtx_notify_stop].
  destruct (type (vtx g v)).
  - apply edges_do_defined. intros w. apply IH.
  - by destruct (negb _).
  - destruct (decide _); [done|]. destruct (_ <? _); [done|].
    apply edges_do_defined. intros w. apply IH.
Qed.

Lemma can_go_down_loop_defined (rec : vertex_id -> result bool) g es :
  (forall w, rec w <> Undefined) -> can_go_down_loop rec g es <> Undefined.
Proof.
  intros Hrec. induction es as [|e es IH]; simpl; [done|].
  destruct (_ && _); [done|]. apply bind_defined; [apply Hrec|].
  intros b. by destruct (negb b).
Qed.

Lemma vtx_can_go_down_defined g n : forall v root, vtx_can_go_down n g v root <> Undefined.
Proof.
  induction n as [|n IH]; intros v root; [done|]. cbn [vtx_can_go_down].
  apply bind_defined; [apply can_go_down_loop_defined; intros w; apply IH|].
  intros b. destruct (negb b); [done|]. by destruct (_ && _).
Qed.

Lemma vtx_offline_dependency_defined g n :
  forall v r, vtx_offline_dependency n g v r <> Undefined.
Proof.
  induction n as [|n IH]; intros v r; [done|]. cbn [vtx_offline_dependency].
  destruct (_ && _); [done|]. destruct (decide _).
  - apply bind_defined; [apply vtx_can_go_down_defined | done].
  - apply edges_do_defined. intros w. apply IH.
Qed.

Lemma edges_do_st_defined (f : graph_t -> vertex_id -> result graph_t) es :
  (forall g w, f g w <> Undefined) -> forall g, edges_do_st f es g <> Undefined.
Proof.
  intros Hf. induction es as [|e es IH]; intros g; simpl; [done|].
  apply bind_defined; [apply Hf | intros g1; apply IH].
Qed.

Lemma vtx_notify_admin_disable_defined n :
  forall g v r, vtx_notify_admin_disable n g v r <> Undefined.
Proof.
  induction n as [|n IH]; intros g v r; [done|]. cbn [vtx_notify_admin_disable].
  destruct (type (vtx g v)); try (apply edges_do_st_defined; intros g1 w; apply IH).
  destruct (_ || _); [done|]. apply edges_do_st_defined. intros g1 w. apply IH.
Qed.

Lemma vertices_do_defined (f : vertex_id -> result s16note_list_t) vs :
  (forall w, f w <> Undefined) -> vertices_do f vs <> Undefined.
Proof.
  intros Hf. induction vs as [|v vs IH]; simpl; [done|].
  apply bind_defined; [apply Hf | intros a]. apply bind_defined; [apply IH | done].
Qed.

Lemma vtx_offline_if_possible_defined n g v r : vtx_offline_if_possible n g v r <> Undefined.
Proof.
  unfold vtx_offline_if_possible. destruct (negb _); [done|]. destruct (decide _); [|done].
  apply bind_defined; [apply vtx_can_go_down_defined | done].
Qed.

Lemma vtx_process_admin_req_defined n g notes v t r :
  vtx_process_admin_req n g notes v t r <> Undefined.
Proof.
  unfold vtx_process_admin_req. destruct t; [done | | done].
  apply bind_defined; [apply edges_do_st_defined; intros; apply vtx_notify_admin_disable_defined|].
  intros g1. apply bind_defined; [apply vtx_can_go_down_defined | intros _].
  apply bind_defined; [|done]. apply vertices_do_defined. intros w.
  apply vtx_offline_if_possible_defined.
Qed.

Lemma vtx_process_state_change_defined NDEBUG n g notes v t r :
  vtx_process_state_change NDEBUG n g notes v t r <> Undefined.
Proof.
  unfold vtx_process_state_change. destruct t; try done.
  - apply bind_defined; [|done]. apply edges_do_defined. intros w.
    apply vtx_notify_start_defined.
  - apply bind_defined.
    { destruct (to_offline (vtx g v)).
      - apply bind_defined; [|done]. apply edges_do_defined. intros w.
        apply vtx_offline_dependency_defined.
      - apply bind_defined; [apply vtx_inst_can_come_up_defined | done]. }
    intros a. apply bind_defined; [|done]. apply edges_do_defined. intros w.
    apply vtx_notify_stop_defined.
  - apply bind_defined; [|done]. apply edges_do_defined. intros w.
    apply vtx_notify_misc_defined.
Qed.


(** *** The notes a handler queues *)

Lemma queued_ok_note g w sc r :
  (w < length g)%nat -> queued_ok g (s16note_new (N_STATE_CHANGE sc) (path (vtx g w)) r).
Proof. intros Hw. split; [by exists w | by exists sc]. Qed.

Lemma edges_do_Forall (P : s16note_t -> Prop) (f : vertex_id -> result s16note_list_t) es ns :
  (forall e ns_e, e ∈ es -> f (to e) = Ok ns_e -> Forall P ns_e) ->
  edges_do f es = Ok ns -> Forall P ns.
Proof.
  intros Hf Hrun. apply Forall_forall. intros x Hx.
  apply (edges_do_elem _ _ _ _ Hrun) in Hx as (e & ns_e & He & Hfe & Hx).
  specialize (Hf e ns_e He Hfe). rewrite Forall_forall in Hf. by apply Hf.
Qed.

Lemma vertices_do_Forall (P : s16note_t -> Prop) (f : vertex_id -> result s16note_list_t)
    vs ns :
  (forall v ns_v, v ∈ vs -> f v = Ok ns_v -> Forall P ns_v) ->
  vertices_do f vs = Ok ns -> Forall P ns.
Proof.
  intros Hf Hrun. apply Forall_forall. intros x Hx.
  apply (vertices_do_elem _ _ _ _ Hrun) in Hx as (v & ns_v & Hv & Hfv & Hx).
  specialize (Hf v ns_v Hv Hfv). rewrite Forall_forall in Hf. by apply Hf.
Qed.

Lemma owned_dependents g u e :
  edges_owned g -> e ∈ dependents (vtx g u) -> (to e < length g)%nat.
Proof. intros Hown He. by destruct (Hown u e (or_intror He)) as (_ & _ & ?). Qed.

Lemma owned_dependencies g u e :
  edges_owned g -> e ∈ dependencies (vtx g u) -> (to e < length g)%nat.
Proof. intros Hown He. by destruct (Hown u e (or_introl He)) as (_ & _ & ?). Qed.

Lemma vtx_notify_start_queued NDEBUG g n :
  edges_owned g ->
  forall u r ns, (u < length g)%nat -> vtx_notify_start NDEBUG n g u r = Ok ns ->
    Forall (queued_ok g) ns.
Proof.
  intros Hown. induction n as [|n IH]; intros u r ns Hu; [discriminate|].
  cbn [vtx_notify_start].
  assert (Hdo : forall r',
            vtx_dependents_do g u (fun w => vtx_notify_start NDEBUG n g w r') = Ok ns ->
            Forall (queued_ok g) ns).
  { intros r'. apply edges_do_Forall. intros e ns_e He. apply IH.
    by eapply owned_dependents. }
  destruct (type (vtx g u)); [apply Hdo | | apply Hdo].
  intros H. apply bind_Ok_inv in H as (up & _ & H).
  destruct up; [|injection H as <-; constructor].
  destruct (vtx_is_running g u); injection H as <-; [constructor|].
  constructor; [by apply queued_ok_note | constructor].
Qed.

Lemma vtx_notify_misc_queued NDEBUG g n :
  edges_owned g ->
  forall u r ns, (u < length g)%nat -> vtx_notify_misc NDEBUG n g u r = Ok ns ->
    Forall (queued_ok g) ns.
Proof.
  intros Hown. induction n as [|n IH]; intros u r ns Hu; [discriminate|].
  cbn [vtx_notify_misc]. intros H.
  apply bind_Ok_inv in H as (a & Ha & H). apply bind_Ok_inv in H as (b & Hb & [= <-]).
  apply Forall_app. split.
  - destruct (decide _); [|injection Ha as <-; constructor].
    apply bind_Ok_inv in Ha as (up & _ & [= <-]).
    destruct (up && _); [|constructor].
    constructor; [by apply queued_ok_note | constructor].
  - revert Hb. apply edges_do_Forall. intros e ns_e He. apply IH.
    by eapply owned_dependents.
Qed.

Lemma vtx_notify_stop_queued g n :
  edges_owned g ->
  forall u r ns, (u < length g)%nat -> vtx_notify_stop n g u r = Ok ns ->
    Forall (queued_ok g) ns.
Proof.
  intros Hown. induction n as [|n IH]; intros u r ns Hu; [discriminate|].
  cbn [vtx_notify_stop].
  assert (Hdo : vtx_dependents_do g u (fun w => vtx_notify_stop n g w r) = Ok ns ->
            Forall (queued_ok g) ns).
  { apply edges_do_Forall. intros e ns_e He. apply IH. by eapply owned_dependents. }
  destruct (type (vtx g u)); [apply Hdo | |].
  - destruct (negb _); intros [= <-]; [constructor|].
    constructor; [by apply queued_ok_note | constructor].
  - destruct (decide _); [intros [= <-]; constructor|].
    destruct (_ <? _); [intros [= <-]; constructor | apply Hdo].
Qed.

Lemma vtx_offline_dependency_queued g n :
  edges_owned g ->
  forall u r ns, (u < length g)%nat -> vtx_offline_dependency n g u r = Ok ns ->
    Forall (queued_ok g) ns.
Proof.
  intros Hown. induction n as [|n IH]; intros u r ns Hu; [discriminate|].
  cbn [vtx_offline_dependency].
  destruct (_ && _); [intros [= <-]; constructor|].
  destruct (decide _).
  - intros H. apply bind_Ok_inv in H as (down & _ & [= <-]).
    destruct down; [|constructor]. constructor; [by apply queued_ok_note | constructor].
  - apply edges_do_Forall. intros e ns_e He. apply IH. by eapply owned_dependencies.
Qed.

Lemma vtx_offline_if_possible_queued g n u r ns :
  (u < length g)%nat -> vtx_offline_if_possible n g u r = Ok ns -> Forall (queued_ok g) ns.
Proof.
  intros Hu. unfold vtx_offline_if_possible.
  destruct (negb _); [intros [= <-]; constructor|].
  destruct (decide _); [|intros [= <-]; constructor].
  intros H. apply bind_Ok_inv in H as (down & _ & [= <-]).
  destruct down; [|constructor]. constructor; [by apply queued_ok_note | constructor].
Qed.

(** *** What a handler leaves of the graph *)

Lemma same_graph_shape_refl g : same_graph_shape g g.
Proof. split; [done | intros w; apply same_shape_refl]. Qed.

Lemma same_graph_shape_trans g1 g2 g3 :
  same_graph_shape g1 g2 -> same_graph_shape g2 g3 -> same_graph_shape g1 g3.
Proof.
  intros [Ha Hb] [Hc Hd]. split; [congruence|].
  intros w. eapply same_shape_trans; [apply Hd | apply Hb].
Qed.

Lemma same_graph_shape_store f v g :
  (forall x, same_shape (f x) x) -> same_graph_shape g (store f v g).
Proof. intros Hf. split; [apply store_length | intros w; by apply same_shape_store]. Qed.

Lemma same_graph_shape_paths g g' : same_graph_shape g g' -> path <$> g' = path <$> g.
Proof.
  intros [Hlen Hsh]. apply list_eq. intros i. rewrite !list_lookup_fmap.
  destruct (decide (i < length g)%nat) as [Hi|Hi].
  - destruct (lookup_lt_is_Some_2 g i Hi) as [x Hx].
    destruct (lookup_lt_is_Some_2 g' i ltac:(lia)) as [x' Hx'].
    rewrite Hx, Hx'. simpl. f_equal.
    destruct (Hsh i) as (Hp & _). by rewrite (vtx_lookup _ _ _ Hx), (vtx_lookup _ _ _ Hx') in Hp.
  - rewrite !lookup_ge_None_2 by lia. done.
Qed.

Lemma same_graph_shape_owned g g' : same_graph_shape g g' -> edges_owned g -> edges_owned g'.
Proof.
  intros [Hlen Hsh] Hown v e. destruct (Hsh v) as (_ & _ & _ & _ & _ & -> & ->).
  rewrite Hlen. apply Hown.
Qed.

Lemma same_graph_shape_wf g g' : same_graph_shape g g' -> graph_wf g -> graph_wf g'.
Proof.
  intros [Hlen Hsh]. apply graph_wf_ext; [lia | |]; intros w;
    by destruct (Hsh w) as (_ & _ & _ & _ & _ & ? & ?).
Qed.

Lemma same_graph_shape_names g g' x :
  same_graph_shape g g' -> names_vertex g x -> names_vertex g' x.
Proof.
  intros [Hlen Hsh] (w & Hw & Hp). exists w. split; [lia|].
  destruct (Hsh w) as (-> & _). done.
Qed.

Lemma same_graph_shape_queued g g' ns :
  same_graph_shape g g' -> Forall (queued_ok g) ns -> Forall (queued_ok g') ns.
Proof.
  intros Hsh H. eapply Forall_impl; [exact H|]. intros x [Hn Hs]. split; [|done].
  by eapply same_graph_shape_names.
Qed.

Lemma vtx_process_state_change_frame NDEBUG n g notes v t r g' notes' :
  edges_owned g -> (v < length g)%nat ->
  vtx_process_state_change NDEBUG n g notes v t r = Ok (g', notes') ->
  same_graph_shape g g'
  /\ exists added, notes' = notes ++ added /\ Forall (queued_ok g') added.
Proof.
  intros Hown Hv. unfold vtx_process_state_change. destruct t.
  - (* SC_ONLINE *)
    set (g1 := store (set_state kS16StateOnline) v g).
    assert (Hsh : same_graph_shape g g1).
    { apply same_graph_shape_store. intros x. by repeat split. }
    pose proof (same_graph_shape_owned _ _ Hsh Hown) as Hown1.
    intros H. apply bind_Ok_inv in H as (ns & Hns & [= <- <-]).
    split; [done|]. exists ns. split; [done|]. revert Hns.
    apply edges_do_Forall. intros e ns_e He.
    apply vtx_notify_start_queued; [done|]. by eapply owned_dependents.
  - (* SC_OFFLINE *)
    set (g1 := store (set_to_offline false) v (store (set_state kS16StateOffline) v g)).
    assert (Hsh : same_graph_shape g g1).
    { eapply same_graph_shape_trans; apply same_graph_shape_store; intros x; by repeat split. }
    pose proof (same_graph_shape_owned _ _ Hsh Hown) as Hown1.
    assert (Hv1 : (v < length g1)%nat) by (destruct Hsh as [-> _]; done).
    intros H. apply bind_Ok_inv in H as (a & Ha & H).
    apply bind_Ok_inv in H as (b & Hb & [= <- <-]).
    split; [done|]. exists (a ++ b). split; [done|]. apply Forall_app. split.
    + destruct (to_offline (vtx g v)).
      * apply bind_Ok_inv in Ha as (walk & Hwalk & [= <-]). apply Forall_app. split.
        -- revert Hwalk. apply edges_do_Forall. intros e ns_e He.
           apply vtx_offline_dependency_queued; [done|]. by eapply owned_dependencies.
        -- destruct (to_disable (vtx g1 v)); [|constructor].
           constructor; [by apply queued_ok_note | constructor].
      * apply bind_Ok_inv in Ha as (up & _ & [= <-]). destruct up; [|constructor].
        constructor; [by apply queued_ok_note | constructor].
    + revert Hb. apply edges_do_Forall. intros e ns_e He.
      apply vtx_notify_stop_queued; [done|]. by eapply owned_dependents.
  - (* SC_DISABLED *)
    set (g1 := store (set_state kS16StateDisabled) v
                 (store (set_to_disable false) v (store (set_to_offline false) v g))).
    assert (Hsh : same_graph_shape g g1).
    { eapply same_graph_shape_trans;
        [eapply same_graph_shape_trans|]; apply same_graph_shape_store;
        intros x; by repeat split. }
    pose proof (same_graph_shape_owned _ _ Hsh Hown) as Hown1.
    intros H. apply bind_Ok_inv in H as (ns & Hns & [= <- <-]).
    split; [done|]. exists ns. split; [done|]. revert Hns.
    apply edges_do_Forall. intros e ns_e He.
    apply vtx_notify_misc_queued; [done|]. by eapply owned_dependents.
  - intros [= <- <-]. split; [apply same_graph_shape_refl|].
    exists []. split; [by rewrite app_nil_r | constructor].
  - intros [= <- <-]. split; [apply same_graph_shape_refl|].
    exists []. split; [by rewrite app_nil_r | constructor].
Qed.

Lemma vtx_process_admin_req_frame n g notes v t r g' notes' :
  (v < length g)%nat ->
  vtx_process_admin_req n g notes v t r = Ok (g', notes') ->
  same_graph_shape g g'
  /\ exists added, notes' = notes ++ added /\ Forall (queued_ok g') added.
Proof.
  intros Hv. unfold vtx_process_admin_req. destruct t.
  - (* A_ENABLE *)
    intros [= <- <-].
    set (g1 := store (set_is_enabled true) v
                 (store (set_to_offline false) v (store (set_to_disable false) v g))).
    assert (Hsh : same_graph_shape g g1).
    { eapply same_graph_shape_trans;
        [eapply same_graph_shape_trans|]; apply same_graph_shape_store;
        intros x; by repeat split. }
    split; [done|]. exists (vtx_enable g1 v). split; [done|].
    constructor; [|constructor]. apply queued_ok_note. by destruct Hsh as [-> _].
  - (* A_DISABLE *)
    set (g1 := store (set_is_enabled false) v
                 (store (set_to_offline true) v (store (set_to_disable true) v g))).
    assert (Hsh : same_graph_shape g g1).
    { eapply same_graph_shape_trans;
        [eapply same_graph_shape_trans|]; apply same_graph_shape_store;
        intros x; by repeat split. }
    intros H. apply bind_Ok_inv in H as (g2 & Hg2 & H).
    apply bind_Ok_inv in H as (b0 & _ & H).
    apply bind_Ok_inv in H as (ns & Hns & [= <- <-]).
    assert (Hsh2 : same_graph_shape g1 g2).
    { apply edges_do_st_up_to_offline in Hg2 as [Heq Hlen].
      - split; [done|]. intros w. by apply up_to_offline_same_shape.
      - intros g0 w g0'. apply vtx_notify_admin_disable_up_to_offline. }
    split; [by eapply same_graph_shape_trans|].
    exists ns. split; [done|]. revert Hns. apply vertices_do_Forall.
    intros w ns_w Hw. apply vtx_offline_if_possible_queued.
    apply elem_of_seq in Hw. lia.
  - intros [= <- <-]. split; [apply same_graph_shape_refl|].
    exists []. split; [by rewrite app_nil_r | constructor].
Qed.


(** *** The dispatcher *)

Lemma names_vertex_found g x :
  names_vertex g x ->
  exists v, vtx_find_by_path g (S16.path x) = Some v /\ (v < length g)%nat.
Proof.
  intros (w & Hw & Hp).
  destruct (vtx_find_by_path g (S16.path x)) as [v|] eqn:Hfind.
  - exists v. split; [done|]. by apply vtx_find_by_path_lt in Hfind as [? _].
  - exfalso. unfold vtx_find_by_path in Hfind. apply vertex_list_find_None in Hfind.
    apply Hfind. rewrite Hp. apply list_elem_of_fmap. exists (vtx g w). split; [done|].
    destruct (lookup_lt_is_Some_2 g w Hw) as [y Hy]. rewrite (vtx_lookup _ _ _ Hy).
    by eapply list_elem_of_lookup_2.
Qed.

Lemma graph_process_note_shape NDEBUG fuel g notes note g' notes' :
  edges_owned g ->
  graph_process_note NDEBUG fuel g notes note = Ok (g', notes') ->
  same_graph_shape g g'
  /\ exists added, notes' = notes ++ added /\ Forall (queued_ok g') added.
Proof.
  intros Hown. unfold graph_process_note.
  assert (Hnone : Ok (g, notes) = Ok (g', notes') ->
            same_graph_shape g g'
            /\ exists added, notes' = notes ++ added /\ Forall (queued_ok g') added).
  { intros [= <- <-]. split; [apply same_graph_shape_refl|].
    exists []. split; [by rewrite app_nil_r | constructor]. }
  destruct (note_type note) as [t|t|t]; [| |exact Hnone].
  - destruct (vtx_find_by_path g (S16.path note)) as [v|] eqn:Hfind.
    + apply vtx_process_admin_req_frame. by apply vtx_find_by_path_lt in Hfind as [? _].
    + destruct t; [done | done | exact Hnone].
  - destruct (vtx_find_by_path g (S16.path note)) as [v|] eqn:Hfind; [|done].
    apply vtx_process_state_change_frame; [done|].
    by apply vtx_find_by_path_lt in Hfind as [? _].
Qed.

Lemma graph_process_note_defined NDEBUG fuel g notes note :
  names_vertex g note -> graph_process_note NDEBUG fuel g notes note <> Undefined.
Proof.
  intros Hn. destruct (names_vertex_found g note Hn) as (v & Hfind & _).
  unfold graph_process_note. rewrite Hfind.
  destruct (note_type note); [apply vtx_process_admin_req_defined
                             | apply vtx_process_state_change_defined | done].
Qed.

(** A note changes flags and states and nothing else.  Whatever note is
    processed on a graph whose edges stay within it, the graph afterwards has
    the same vertices with the same paths, kinds, is_setup flags and edge
    lists; the queue has only grown at its tail, and each note added reports
    a state change of a vertex of the graph. *)
Theorem graph_process_note_frame (NDEBUG : bool) (fuel : nat) (g : graph_t)
    (notes : s16note_list_t) (note : s16note_t) (g' : graph_t) (notes' : s16note_list_t)
    (Hown : edges_owned g)
    (Hrun : graph_process_note NDEBUG fuel g notes note = Ok (g', notes')) :
  length g' = length g
  /\ (forall w, same_shape (vtx g' w) (vtx g w))
  /\ path <$> g' = path <$> g
  /\ edges_owned g'
  /\ exists added,
       notes' = notes ++ added
       /\ Forall (fun x => names_vertex g' x /\ is_state_change x) added.
Proof.
  destruct (graph_process_note_shape _ _ _ _ _ _ _ Hown Hrun) as [Hsh (added & Hadd & Hq)].
  split; [apply Hsh|]. split; [apply Hsh|].
  split; [by apply same_graph_shape_paths|].
  split; [by apply (same_graph_shape_owned g)|].
  exists added. split; [exact Hadd | exact Hq].
Qed.

Lemma processNotes_safe NDEBUG fuel rounds :
  forall g notes, edges_owned g -> Forall (names_vertex g) notes ->
    processNotes NDEBUG fuel rounds g notes <> Undefined
    /\ forall g' notes', processNotes NDEBUG fuel rounds g notes = Ok (g', notes') ->
         notes' = [] /\ same_graph_shape g g'.
Proof.
  induction rounds as [|k IH]; intros g notes Hown Hnames.
  - destruct notes as [|note notes]; simpl; [|done].
    split; [done|]. intros g' notes' [= <- <-]. split; [done | apply same_graph_shape_refl].
  - destruct notes as [|note notes]; simpl.
    { split; [done|]. intros g' notes' [= <- <-].
      split; [done | apply same_graph_shape_refl]. }
    apply Forall_cons in Hnames as [Hnote Hrest].
    pose proof (graph_process_note_defined NDEBUG fuel g notes note Hnote) as Hdef.
    destruct (graph_process_note NDEBUG fuel g notes note) as [[g1 notes1]| | |] eqn:Hstep;
      cbn [bind fst snd]; [|done..].
    destruct (graph_process_note_shape _ _ _ _ _ _ _ Hown Hstep) as [Hsh (added & -> & Hq)].
    destruct (IH g1 (notes ++ added)) as [Hd Hres].
    { by apply (same_graph_shape_owned g). }
    { apply Forall_app. split.
      - eapply Forall_impl; [exact Hrest|]. intros x. by apply same_graph_shape_names.
      - eapply Forall_impl; [exact Hq|]. by intros x [? _]. }
    split; [exact Hd|]. intros g' notes' Hrun. destruct (Hres _ _ Hrun) as [-> Hsh'].
    split; [done | by eapply same_graph_shape_trans].
Qed.

(** Draining the queue never goes through a NULL vertex.  On a graph whose
    edges stay within it, started with notes that each name a vertex of the
    graph, processNotes stays within defined behaviour however many rounds
    it is given: every note it meets, the ones queued on the way included,
    names a vertex.  When it comes back the queue is empty and the graph has
    its vertices, paths, kinds and edges as before. *)
Theorem processNotes_never_null (NDEBUG : bool) (fuel rounds : nat) (g : graph_t)
    (notes : s16note_list_t)
    (Hown : edges_owned g) (Hnames : Forall (names_vertex g) notes) :
  processNotes NDEBUG fuel rounds g notes <> Undefined
  /\ forall g' notes', processNotes NDEBUG fuel rounds g notes = Ok (g', notes') ->
       notes' = [] /\ length g' = length g /\ path <$> g' = path <$> g
       /\ forall w, same_shape (vtx g' w) (vtx g w).
Proof.
  destruct (processNotes_safe NDEBUG fuel rounds g notes Hown Hnames) as [Hd Hres].
  split; [exact Hd|]. intros g' notes' Hrun. destruct (Hres _ _ Hrun) as [-> Hsh].
  split; [done|]. split; [apply Hsh|]. split; [by apply same_graph_shape_paths | apply Hsh].
Qed.


Lemma graph_process_note_frame_witness :
  exists g' notes',
    graph_process_note false 9 g_coming_up []
      (s16note_new (N_STATE_CHANGE SC_ONLINE) path_b_j 0) = Ok (g', notes')
    /\ length g' = length g_coming_up
    /\ (forall w, same_shape (vtx g' w) (vtx g_coming_up w))
    /\ path <$> g' = path <$> g_coming_up
    /\ edges_owned g'
    /\ exists added,
         notes' = [] ++ added
         /\ Forall (fun x => names_vertex g' x /\ is_state_change x) added.
Proof.
  eexists _, _. split; [vm_compute; reflexivity|].
  apply (graph_process_note_frame false 9 g_coming_up []
           (s16note_new (N_STATE_CHANGE SC_ONLINE) path_b_j 0)).
  - apply g_coming_up_wf.
  - vm_compute. reflexivity.
Defined.

Lemma processNotes_never_null_witness :
  processNotes false 9 9 g_coming_up [s16note_new (N_STATE_CHANGE SC_ONLINE) path_b_j 0]
  <> Undefined
  /\ forall g' notes',
       processNotes false 9 9 g_coming_up
         [s16note_new (N_STATE_CHANGE SC_ONLINE) path_b_j 0] = Ok (g', notes') ->
       notes' = [] /\ length g' = length g_coming_up
       /\ path <$> g' = path <$> g_coming_up
       /\ forall w, same_shape (vtx g' w) (vtx g_coming_up w).
Proof.
  apply (processNotes_never_null false 9 9 g_coming_up).
  - apply g_coming_up_wf.
  - constructor; [|constructor]. exists 0%nat. split; [simpl; lia | reflexivity].
Defined.

(** *** Disabling and enabling an Instance nothing depends on *)






Lemma vtx_find_by_path_store f v g q :
  (forall x, path (f x) = path x) ->
  vtx_find_by_path (store f v g) q = vtx_find_by_path g q.
Proof. intros Hf. apply vtx_find_by_path_paths. by apply paths_store. Qed.















(** *** Satisfaction reads what lies below a vertex *)

Section SatLocal.
Variable NDEBUG : bool.

Lemma sat_fold_edges_ext (f f' : vertex_id -> result satisfied_t) es sat :
  (forall e, e ∈ es -> f (to e) = f' (to e)) ->
  sat_fold_edges f es sat = sat_fold_edges f' es sat.
Proof.
  revert sat. induction es as [|e es IH]; intros sat Hf; simpl; [done|].
  rewrite (Hf e) by (apply elem_of_cons; by left).
  destruct (f' (to e)); simpl; try done.
  apply IH. intros e' He'. apply Hf. apply elem_of_cons. by right.
Qed.

Lemma require_any_loop_ext (f f' : vertex_id -> result satisfied_t) es sat :
  (forall e, e ∈ es -> f (to e) = f' (to e)) ->
  require_any_loop f es sat = require_any_loop f' es sat.
Proof.
  revert sat. induction es as [|e es IH]; intros sat Hf; simpl; [done|].
  rewrite (Hf e) by (apply elem_of_cons; by left).
  destruct (f' (to e)); simpl; try done. destruct (decide _); [done|].
  apply IH. intros e' He'. apply Hf. apply elem_of_cons. by right.
Qed.

Lemma optional_all_loop_ext (f f' : vertex_id -> result satisfied_t) g g' es sat :
  (forall e, e ∈ es ->
     vtx g' (to e) = vtx g (to e) /\ f' (to e) = f (to e)
     /\ forall e', e' ∈ dependencies (vtx g (to e)) -> f' (to e') = f (to e')) ->
  optional_all_loop NDEBUG f' g' es sat = optional_all_loop NDEBUG f g es sat.
Proof.
  revert sat. induction es as [|e es IH]; intros sat Hf; simpl; [done|].
  destruct (Hf e) as (Hv & He & Hd); [apply elem_of_cons; by left|].
  rewrite Hv, He. destruct (assert NDEBUG _); simpl; try done.
  destruct (if decide (type (vtx g (to e)) = V_INST) then _ else _) as [sat1| | |];
    simpl; try done.
  rewrite (sat_fold_edges_ext f' f) by done.
  destruct (if decide (type (vtx g (to e)) = V_SVC) then _ else _) as [sat2| | |];
    simpl; try done.
  apply IH. intros e' He'. apply Hf. apply elem_of_cons. by right.
Qed.

(** Two heaps that agree on every vertex of rank up to that of [u] give [u]
    the same verdict. *)
Lemma sat_local g g' rk :
  deps_ranked g rk ->
  forall n u rec, (forall w, (rk w <= rk u)%nat -> vtx g' w = vtx g w) ->
    depgroup_is_satisfied NDEBUG n g' u rec = depgroup_is_satisfied NDEBUG n g u rec
    /\ vtx_inst_satisfies NDEBUG n g' u rec = vtx_inst_satisfies NDEBUG n g u rec
    /\ vtx_inst_satisfies_optional NDEBUG n g' u rec
       = vtx_inst_satisfies_optional NDEBUG n g u rec
    /\ vtx_satisfies NDEBUG n g' u rec = vtx_satisfies NDEBUG n g u rec.
Proof.
  intros Hrk. induction n as [|n IH]; intros u rec Hagree; [done|].
  assert (Hu : vtx g' u = vtx g u) by (apply Hagree; lia).
  assert (Hbelow : forall e, e ∈ dependencies (vtx g u) ->
            forall w, (rk w <= rk (to e))%nat -> vtx g' w = vtx g w).
  { intros e He w Hw. apply Hagree. specialize (Hrk u e He). lia. }
  repeat split.
  - rewrite !(depgroup_is_satisfied_S NDEBUG). rewrite Hu. destruct (dg_type (vtx g u)).
    + apply sat_fold_edges_ext. intros e He. by apply IH, Hbelow.
    + destruct (decide _); [done|]. apply require_any_loop_ext.
      intros e He. by apply IH, Hbelow.
    + apply optional_all_loop_ext. intros e He.
      split; [apply (Hbelow e He); lia|]. split; [by apply IH, Hbelow|].
      intros e' He'. apply IH. intros w Hw. apply (Hbelow e He).
      specialize (Hrk (to e) e' He'). lia.
    + apply exclude_all_loop_reads_targets_only. intros e He. apply (Hbelow e He). lia.
  - cbn [vtx_inst_satisfies]. rewrite Hu.
    destruct (assert NDEBUG _); simpl; try done.
    destruct (_ || _); [done|]. destruct (state (vtx g u)); try done.
    destruct (negb rec); [done|]. by rewrite (proj1 (IH u rec Hagree)).
  - cbn [vtx_inst_satisfies_optional]. rewrite Hu.
    destruct (assert NDEBUG _); simpl; try done.
    destruct (negb (is_setup _)); [done|]. destruct (state (vtx g u)); try done.
    destruct (negb rec); [done|]. by rewrite (proj1 (IH u rec Hagree)).
  - rewrite !(vtx_satisfies_S NDEBUG). rewrite Hu. destruct (decide _); by apply IH.
Qed.

(** The verdict on the groups of [v] does not read [v]'s own state or flags:
    in an acyclic graph nothing below [v] leads back to it. *)
Lemma depgroup_is_satisfied_own g g' rk n v rec :
  deps_ranked g rk ->
  (forall w, w <> v -> vtx g' w = vtx g w) ->
  dg_type (vtx g' v) = dg_type (vtx g v) ->
  dependencies (vtx g' v) = dependencies (vtx g v) ->
  depgroup_is_satisfied NDEBUG n g' v rec = depgroup_is_satisfied NDEBUG n g v rec.
Proof.
  intros Hrk Hother Hdg Hdeps. destruct n as [|n]; [done|].
  assert (Hbelow : forall e, e ∈ dependencies (vtx g v) ->
            forall w, (rk w <= rk (to e))%nat -> vtx g' w = vtx g w).
  { intros e He w Hw. apply Hother. intros ->. specialize (Hrk v e He). lia. }
  rewrite !(depgroup_is_satisfied_S NDEBUG). rewrite Hdg, Hdeps.
  destruct (dg_type (vtx g v)).
  - apply sat_fold_edges_ext. intros e He. by apply (sat_local g g' rk), Hbelow.
  - destruct (decide _); [done|]. apply require_any_loop_ext.
    intros e He. by apply (sat_local g g' rk), Hbelow.
  - apply optional_all_loop_ext. intros e He.
    split; [apply (Hbelow e He); lia|].
    split; [by apply (sat_local g g' rk), Hbelow|].
    intros e' He'. apply (sat_local g g' rk); [done|]. intros w Hw. apply (Hbelow e He).
    specialize (Hrk (to e) e' He'). lia.
  - apply exclude_all_loop_reads_targets_only. intros e He. apply (Hbelow e He). lia.
Qed.

End SatLocal.













(** *** The verdict of a kS16RequireAll group *)

Lemma sat_fold_edges_verdict (f : vertex_id -> result satisfied_t) es sat0 s :
  sat_fold_edges f es sat0 = Ok s ->
  (forall e, e ∈ es -> exists se, f (to e) = Ok se)
  /\ (s = SATISFIED <-> sat0 = SATISFIED /\ forall e, e ∈ es -> f (to e) = Ok SATISFIED)
  /\ (s = UNSATISFIABLE
      <-> sat0 = UNSATISFIABLE \/ exists e, e ∈ es /\ f (to e) = Ok UNSATISFIABLE).
Proof.
  revert sat0. induction es as [|e es IH]; intros sat0; simpl.
  - intros [= <-]. split; [intros e He; by apply elem_of_nil in He|]. split.
    + split; [intros ->; split; [done|]; intros e He; by apply elem_of_nil in He
             | by intros [-> _]].
    + split; [by left|]. intros [?|(e & He & _)]; [done | by apply elem_of_nil in He].
  - intros H. apply bind_Ok_inv in H as (esat & He & H).
    destruct (IH _ H) as (Hall & Hsat & Hunsat).
    split; [|split].
    + intros e' He'. apply elem_of_cons in He' as [->|He']; [by exists esat | by apply Hall].
    + rewrite Hsat. unfold sat_fold. split.
      * intros [Hs Hrest]. destruct (decide (esat <> SATISFIED)) as [Hne|Heq].
        -- destruct (decide (sat0 = UNSATISFIABLE)); congruence.
        -- apply dec_stable in Heq. subst esat. split; [done|].
           intros e' He'. apply elem_of_cons in He' as [->|He']; [done | by apply Hrest].
      * intros [-> Hrest].
        assert (esat = SATISFIED) as ->.
        { specialize (Hrest e ltac:(apply elem_of_cons; by left)). congruence. }
        rewrite decide_False by (intros Hc; by apply Hc).
        split; [done|]. intros e' He'. apply Hrest. apply elem_of_cons. by right.
    + rewrite Hunsat. unfold sat_fold. split.
      * intros [Hs|(e' & He' & Hf)].
        -- destruct (decide (esat <> SATISFIED)) as [Hne|Heq]; [|by left].
           destruct (decide (sat0 = UNSATISFIABLE)); [by left|].
           right. exists e. split; [apply elem_of_cons; by left | congruence].
        -- right. exists e'. split; [apply elem_of_cons; by right | done].
      * intros [->|(e' & He' & Hf)].
        -- left. destruct (decide (esat <> SATISFIED)); [|done].
           by rewrite decide_True.
        -- apply elem_of_cons in He' as [->|He'].
           ++ left. assert (esat = UNSATISFIABLE) as -> by congruence.
              rewrite decide_True by done. by destruct (decide (sat0 = UNSATISFIABLE)).
           ++ right. by exists e'.
Qed.

(** The verdict of a vertex whose kind of group is kS16RequireAll (every
    Instance and Service vertex is made with that kind).  When
    depgroup_is_satisfied comes back with a verdict it has evaluated every
    dependency; the verdict is SATISFIED exactly when every dependency is
    SATISFIED, UNSATISFIABLE exactly when some dependency is UNSATISFIABLE,
    and UNSATISFIED otherwise.  A vertex without dependencies is SATISFIED. *)
Theorem require_all_verdict (NDEBUG : bool) (n : nat) (g : graph_t) (v : vertex_id)
    (rec : bool) (s : satisfied_t)
    (Hkind : dg_type (vtx g v) = kS16RequireAll)
    (Hrun : depgroup_is_satisfied NDEBUG (S n) g v rec = Ok s) :
  (forall e, e ∈ dependencies (vtx g v) ->
     exists se, vtx_satisfies NDEBUG n g (to e) rec = Ok se)
  /\ (s = SATISFIED
      <-> forall e, e ∈ dependencies (vtx g v) ->
            vtx_satisfies NDEBUG n g (to e) rec = Ok SATISFIED)
  /\ (s = UNSATISFIABLE
      <-> exists e, e ∈ dependencies (vtx g v)
                    /\ vtx_satisfies NDEBUG n g (to e) rec = Ok UNSATISFIABLE)
  /\ (dependencies (vtx g v) = [] -> s = SATISFIED).
Proof.
  rewrite (depgroup_is_satisfied_S NDEBUG), Hkind in Hrun.
  destruct (sat_fold_edges_verdict _ _ _ _ Hrun) as (Hall & Hsat & Hunsat).
  split; [exact Hall|]. split; [|split].
  - rewrite Hsat. split; [by intros [_ ?] | by intros ?].
  - rewrite Hunsat. split; [intros [?|?]; done | by right].
  - intros Hnil. apply Hsat. split; [done|]. rewrite Hnil.
    intros e He. by apply elem_of_nil in He.
Qed.

Lemma require_all_verdict_witness :
  (forall e, e ∈ dependencies (vtx g_coming_up 2) ->
     exists se, vtx_satisfies false 8 g_coming_up (to e) true = Ok se)
  /\ (SATISFIED = SATISFIED
      <-> forall e, e ∈ dependencies (vtx g_coming_up 2) ->
            vtx_satisfies false 8 g_coming_up (to e) true = Ok SATISFIED)
  /\ (SATISFIED = UNSATISFIABLE
      <-> exists e, e ∈ dependencies (vtx g_coming_up 2)
                    /\ vtx_satisfies false 8 g_coming_up (to e) true = Ok UNSATISFIABLE)
  /\ (dependencies (vtx g_coming_up 2) = [] -> SATISFIED = SATISFIED).
Proof.
  apply (require_all_verdict false 8 g_coming_up 2 true SATISFIED).
  - reflexivity.
  - vm_compute. reflexivity.
Defined.

(** Satisfaction is local.  In a graph whose dependency edges are acyclic,
    the verdict on a vertex reads only vertices that rank no higher than it:
    two heaps that agree on those give the same verdict, whatever the other
    vertices hold.  And the verdict on a vertex's own groups does not read the
    vertex's own state or flags: a heap that differs from the first at that
    vertex only, in something other than its kind of group and its
    dependencies, gives the same verdict. *)
Theorem satisfaction_is_local (NDEBUG : bool) (g g' : graph_t) (rk : vertex_id -> nat)
    (n : nat) (u : vertex_id) (rec : bool) (Hrk : deps_ranked g rk) :
  ((forall w, (rk w <= rk u)%nat -> vtx g' w = vtx g w) ->
     vtx_satisfies NDEBUG n g' u rec = vtx_satisfies NDEBUG n g u rec
     /\ depgroup_is_satisfied NDEBUG n g' u rec = depgroup_is_satisfied NDEBUG n g u rec)
  /\ ((forall w, w <> u -> vtx g' w = vtx g w) ->
      dg_type (vtx g' u) = dg_type (vtx g u) ->
      dependencies (vtx g' u) = dependencies (vtx g u) ->
      depgroup_is_satisfied NDEBUG n g' u rec = depgroup_is_satisfied NDEBUG n g u rec).
Proof.
  split.
  - intros Hagree. destruct (sat_local NDEBUG g g' rk Hrk n u rec Hagree) as (Hd & _ & _ & Hv).
    split; [exact Hv | exact Hd].
  - intros Hother Hkind Hdeps. by apply (depgroup_is_satisfied_own NDEBUG g g' rk).
Qed.

Lemma satisfaction_is_local_witness :
  ((forall w, (chain_rk_deps w <= chain_rk_deps 1)%nat -> vtx g_going_down w = vtx g_restart_on_error w) ->
     vtx_satisfies false 9 g_going_down 1 true = vtx_satisfies false 9 g_restart_on_error 1 true
     /\ depgroup_is_satisfied false 9 g_going_down 1 true
        = depgroup_is_satisfied false 9 g_restart_on_error 1 true)
  /\ ((forall w, w <> 1%nat -> vtx g_going_down w = vtx g_restart_on_error w) ->
      dg_type (vtx g_going_down 1) = dg_type (vtx g_restart_on_error 1) ->
      dependencies (vtx g_going_down 1) = dependencies (vtx g_restart_on_error 1) ->
      depgroup_is_satisfied false 9 g_going_down 1 true
      = depgroup_is_satisfied false 9 g_restart_on_error 1 true).
Proof.
  apply (satisfaction_is_local false g_restart_on_error g_going_down chain_rk_deps 9 1 true).
  apply chain_deps_ranked.
Defined.

End GraphProps.
Module RestartdProps.
Import Restartd Scenario.

Lemma int_incr_small x : 0 <= x < 2147483647 -> int_incr x = x + 1.
Proof.
  intros Hx. unfold int_incr. rewrite Z.mod_small by lia.
  destruct (x + 1 <? 2147483648) eqn:Hlt; [done|]. apply Z.ltb_ge in Hlt. lia.
Qed.

Lemma bind_Ok_pair {A B : Type} (m : result (A * B)) :
  bind m (fun r => Ok (r.1, r.2)) = m.
Proof. by destruct m as [[a b]| | |]. Qed.

Lemma find_app_last {A : Type} (P : A -> bool) (l : list A) (x : A) :
  (forall y, y ∈ l -> P y = false) -> P x = true -> List.find P (l ++ [x]) = Some x.
Proof.
  intros Hl Hx. induction l as [|a l IH]; simpl; [by rewrite Hx|].
  rewrite (Hl a) by (apply elem_of_cons; by left).
  apply IH. intros y Hy. apply Hl. apply elem_of_cons. by right.
Qed.

(** *** One step of each entry function *)

Lemma unit_purge_and_target_S n unit m :
  unit_purge_and_target (S n) unit m =
    if negb (LL_empty (pids unit)) then unit_enter_stop n unit m
    else unit_enter_state n unit m (target unit).
Proof. reflexivity. Qed.

Lemma unit_enter_prestart_S n unit m :
  unit_enter_prestart (S n) unit m =
    match methods unit UM_PRESTART with
    | Some cmd =>
        let unit := set_state US_PRESTART unit in
        let '(unit, m) := UnitTimerReg unit m in
        let '(pid, unit, m) := unit_fork_and_register unit m (Some cmd) in
        let unit := set_main_pid pid unit in
        if main_pid unit =? 0
        then unit_purge_and_target n (set_target UkS16StateMaintenance unit) m
        else Ok (unit, m)
    | None => unit_enter_start n unit m
    end.
Proof. reflexivity. Qed.

Lemma unit_enter_start_S n unit m :
  unit_enter_start (S n) unit m =
    let unit := set_state US_START unit in
    let '(pid, unit, m) := unit_fork_and_register unit m (methods unit UM_START) in
    let unit := set_main_pid pid unit in
    if main_pid unit =? 0
    then unit_purge_and_target n (set_target UkS16StateMaintenance unit) m
    else if bool_decide (type unit = U_SIMPLE) || bool_decide (type unit = U_ONESHOT)
            || bool_decide (type unit = U_GROUP)
    then unit_enter_poststart n unit m
    else Ok (UnitTimerReg unit m).
Proof. reflexivity. Qed.

Lemma unit_enter_poststart_S n unit m :
  unit_enter_poststart (S n) unit m =
    match methods unit UM_POSTSTART with
    | Some cmd =>
        let unit := set_state US_POSTSTART unit in
        let '(unit, m) := UnitTimerReg unit m in
        let '(pid, unit, m) := unit_fork_and_register unit m (Some cmd) in
        let unit := set_secondary_pid pid unit in
        if secondary_pid unit =? 0
        then unit_purge_and_target n (set_target UkS16StateMaintenance unit) m
        else Ok (unit, m)
    | None => Ok (unit_enter_online unit m)
    end.
Proof. reflexivity. Qed.

Lemma unit_enter_stop_S n unit m :
  unit_enter_stop (S n) unit m =
    match methods unit UM_STOP with
    | Some cmd =>
        let unit := set_state US_STOP unit in
        let '(unit, m) := UnitTimerReg unit m in
        let '(pid, unit, m) := unit_fork_and_register unit m (Some cmd) in
        let unit := set_secondary_pid pid unit in
        if secondary_pid unit =? 0
        then unit_purge_and_target n (set_target UkS16StateMaintenance unit) m
        else Ok (unit, m)
    | None => unit_enter_stopterm n unit m
    end.
Proof. reflexivity. Qed.

Lemma unit_enter_stopterm_S n unit m :
  unit_enter_stopterm (S n) unit m =
    if LL_empty (pids unit) then unit_enter_state n unit m (target unit)
    else
      let unit := set_state US_STOPTERM unit in
      let m := if main_pid unit =? 0 then m else kill m (main_pid unit) SIGTERM in
      let '(unit, m) := UnitTimerReg unit m in
      Ok (unit, kill_each m (pids unit) SIGTERM).
Proof. reflexivity. Qed.

Lemma unit_enter_state_S n unit m s :
  unit_enter_state (S n) unit m s =
    match s with
    | UkS16StateOffline => Ok (unit_enter_offline unit m)
    | UkS16StateMaintenance => Ok (unit_enter_maintenance unit m)
    | US_PRESTART => unit_enter_prestart n unit m
    | US_START => unit_enter_start n unit m
    | US_POSTSTART => unit_enter_poststart n unit m
    | UkS16StateOnline => Ok (unit_enter_online unit m)
    | UkS16StateNone => Ok (set_state UkS16StateNone unit, m)
    | _ => Ok (unit, m)
    end.
Proof. reflexivity. Qed.

#[local] Arguments unit_purge_and_target : simpl never.
#[local] Arguments unit_enter_prestart : simpl never.
#[local] Arguments unit_enter_start : simpl never.
#[local] Arguments unit_enter_poststart : simpl never.
#[local] Arguments unit_enter_stop : simpl never.
#[local] Arguments unit_enter_stopterm : simpl never.
#[local] Arguments unit_enter_state : simpl never.

Ltac unit_unfold :=
  unfold unit_fork_and_register, UnitTimerReg, UnitTimerDereg, timerset_add, timerset_del,
    unit_deregister_pid, S16ProcessTrackerWatchPID, S16ProcessTrackerDisregardPID,
    unit_enter_maintenance, unit_enter_offline, unit_enter_online, manager_configd_came_up,
    fail_cnt_incr, kill_each, kill, pid_list_add, unit_stopping, unit_has_pid,
    set_state, set_target, set_main_pid, set_secondary_pid, set_pids, set_timer_id,
    set_meth_restart_timer_id, set_fail_cnt,
    set_pt, set_ts, set_ts_next, set_forks, set_signals, set_configd_came_up in *;
  cbn in *.

Ltac dec_simp :=
  repeat match goal with
         | |- context [bool_decide ?P] =>
             first [ rewrite (bool_decide_eq_true_2 P) by done
                   | rewrite (bool_decide_eq_false_2 P) by done ]
         | |- context [decide ?P] =>
             first [ rewrite (decide_True (P := P)) by done
                   | rewrite (decide_False (P := P)) by done ]
         end;
  cbn.

Section ExitFlags.
Variable S16ExitWasAbnormal : Z -> bool.

(** The unit enters PreStart: a fresh process runs the method. *)
Lemma unit_enter_prestart_forks n unit m k :
  methods unit UM_PRESTART <> None ->
  pids unit = [] ->
  fail_cnt unit UM_PRESTART = k ->
  (forall j, fork_pid m j <> 0) ->
  (forall t, t ∈ ts m -> tm_cb t <> cb_unit_restart_begin_cb) ->
  exists unit' m', unit_enter_prestart (S n) unit m = Ok (unit', m')
                   /\ in_prestart k unit' m'.
Proof.
  intros Hm Hp Hk Hf Ht. rewrite unit_enter_prestart_S.
  destruct (methods unit UM_PRESTART) as [cmd|] eqn:Hcmd; [|done].
  destruct unit as [pa ty me st ta mp sp ps ti mr fc].
  destruct m as [pt_ ts_ nx fp fk sg rp cu]. cbn in *. subst ps.
  specialize (Hf fk) as Hfk. apply Z.eqb_neq in Hfk. unit_unfold. rewrite Hfk. cbn. rewrite Hfk.
  eexists _, _. split; [reflexivity|].
  unfold in_prestart. cbn. apply Z.eqb_neq in Hfk.
  repeat split; try done.
  - by rewrite Hcmd.
  - intros t Hin. apply elem_of_app in Hin as [Hin|Hin]; [by apply Ht|].
    apply list_elem_of_singleton in Hin as ->. done.
Qed.


Lemma filter_no_restart (P : timer_t -> Prop) `{!forall t, Decision (P t)} (l : list timer_t) :
  (forall t, t ∈ l -> tm_cb t <> cb_unit_restart_begin_cb) ->
  forall t, t ∈ filter P l -> tm_cb t <> cb_unit_restart_begin_cb.
Proof. intros Hl t Ht. apply list_elem_of_filter in Ht as [_ Ht]. by apply Hl. Qed.

(** *** Exits while the unit is stopping *)

Lemma unit_ptevent_exit_stopping n unit m p fl :
  unit_stopping unit = true ->
  unit_ptevent S16ExitWasAbnormal n unit m (exit_of p fl) =
    let unit' := set_pids (pid_list_del (pids unit) p) unit in
    let m' := S16ProcessTrackerDisregardPID m p in
    match state unit with
    | US_STOP =>
        if LL_empty (pids unit')
        then unit_enter_stopterm n unit' (timerset_del m' (timer_id unit))
        else Ok (unit', m')
    | US_STOPTERM =>
        if LL_empty (pids unit')
        then unit_enter_stopkill n unit' (timerset_del m' (timer_id unit))
        else Ok (unit', m')
    | _ => Ok (unit', m')
    end.
Proof.
  intros Hstop. unfold unit_ptevent, exit_of, unit_deregister_pid. cbn -[unit_stopping].
  replace (unit_stopping (set_pids (pid_list_del (pids unit) p) unit)) with true
    by (by rewrite <- Hstop).
  reflexivity.
Qed.

Lemma abnormal_exit_retries n unit m k flags :
  in_prestart k unit m -> 0 <= k < 5 -> S16ExitWasAbnormal flags = true ->
  exists unit' m',
    failed_attempt S16ExitWasAbnormal (S (S n)) (abnormal_exit flags) unit m = Ok (unit', m')
    /\ in_prestart (k + 1) unit' m'.
Proof.
  intros (Hst & Hme & Hmp & Hps & Hk & Hf & Hts) Hk5 Hab.
  destruct unit as [pa ty me st ta mp sp ps ti mr fc].
  destruct m as [pt_ ts_ nx fp fk sg rp cu]. cbn in *. subst st ps.
  unfold failed_attempt, unit_ptevent. unit_unfold. dec_simp.
  rewrite Hab. dec_simp.
  rewrite Hk, int_incr_small by lia.
  destruct (k + 1 >? 5) eqn:Hgt; [apply Z.gtb_lt in Hgt; lia|].
  unfold unit_retry_start. unit_unfold.
  rewrite unit_purge_and_target_S. cbn. rewrite unit_enter_state_S. cbn.
  unit_unfold. unfold fire_restart_timer.
  destruct (ti =? 0); cbn.
  all: rewrite find_app_last;
    [ | intros y Hy; apply bool_decide_eq_false_2;
        first [by apply Hts | by apply (filter_no_restart _ _ Hts) in Hy]
      | done ].
  all: unfold unit_restart_begin_cb; unit_unfold.
  all: apply unit_enter_prestart_forks; cbn; try done.
  1,3: rewrite decide_True by done; rewrite Hk, int_incr_small by lia; done.
  all: intros t Ht; apply list_elem_of_filter in Ht as [Hid Ht];
       apply elem_of_app in Ht as [Ht|Ht];
       [ first [by apply Hts | by apply (filter_no_restart _ _ Hts) in Ht]
       | apply list_elem_of_singleton in Ht as ->; cbn in Hid; done ].
Qed.

Lemma find_none {A : Type} (P : A -> bool) (l : list A) :
  (forall y, y ∈ l -> P y = false) -> List.find P l = None.
Proof.
  intros Hl. induction l as [|a l IH]; simpl; [done|].
  rewrite (Hl a) by (apply elem_of_cons; by left).
  apply IH. intros y Hy. apply Hl. apply elem_of_cons. by right.
Qed.

Lemma abnormal_exit_gives_up n unit m flags :
  in_prestart 5 unit m -> S16ExitWasAbnormal flags = true ->
  exists unit' m',
    failed_attempt S16ExitWasAbnormal (S (S n)) (abnormal_exit flags) unit m = Ok (unit', m')
    /\ in_maintenance unit'.
Proof.
  intros (Hst & Hme & Hmp & Hps & Hk & Hf & Hts) Hab.
  destruct unit as [pa ty me st ta mp sp ps ti mr fc].
  destruct m as [pt_ ts_ nx fp fk sg rp cu]. cbn in *. subst st ps.
  unfold failed_attempt, unit_ptevent. unit_unfold. dec_simp.
  rewrite Hab. dec_simp. rewrite Hk, int_incr_small by lia.
  change (5 + 1 >? 5) with true. cbn.
  rewrite unit_purge_and_target_S. cbn. rewrite unit_enter_state_S. cbn.
  unit_unfold. unfold fire_restart_timer.
  destruct (ti =? 0); cbn.
  all: rewrite find_none;
    [ | intros y Hy; apply bool_decide_eq_false_2;
        first [by apply Hts | by apply (filter_no_restart _ _ Hts) in Hy] ].
  all: eexists _, _; split; [reflexivity|]; unfold in_maintenance; cbn.
  all: rewrite decide_True by done; rewrite Hk, int_incr_small by lia; done.
Qed.

#[local] Arguments unit_ptevent : simpl never.
#[local] Arguments unit_timer_event : simpl never.
#[local] Arguments unit_enter_stopkill : simpl never.
#[local] Arguments exits : simpl never.

Lemma timeout_stops n unit m k :
  in_prestart k unit m -> 0 <= k <= 5 ->
  exists unit1 m1,
    unit_timer_event (S (S (S n))) unit m (timer_id unit) = Ok (unit1, m1)
    /\ unit_stopping unit1 = true
    /\ (state unit1 = US_STOP \/ state unit1 = US_STOPTERM)
    /\ (exists l, pids unit1 = main_pid unit :: l /\ (l = [] \/ (exists s, l = [s]))
                  /\ (state unit1 = US_STOPTERM -> l = []))
    /\ target unit1 = (if k <? 5 then US_PRESTART else UkS16StateMaintenance)
    /\ methods unit1 = methods unit
    /\ fail_cnt unit1 UM_PRESTART = k + 1
    /\ (forall j, fork_pid m1 j <> 0)
    /\ (forall t, t ∈ ts m1 -> tm_cb t <> cb_unit_restart_begin_cb).
Proof.
  intros (Hst & Hme & Hmp & Hps & Hk & Hf & Hts) Hk5.
  destruct unit as [pa ty me st ta mp sp ps ti mr fc].
  destruct m as [pt_ ts_ nx fp fk sg rp cu]. cbn in *. subst st ps.
  unfold unit_timer_event. unit_unfold. dec_simp.
  rewrite Hk, int_incr_small by lia.
  pose proof (Hf fk) as Hfk. apply Z.eqb_neq in Hfk.
  pose proof Hmp as Hmp0. apply Z.eqb_neq in Hmp0.
  assert (Hts' : forall t, t ∈ filter (fun t => tm_id t <> ti) ts_ ++
                             [mk_timer nx 2000 cb_unit_timer_event] ->
                           tm_cb t <> cb_unit_restart_begin_cb).
  { intros t Ht. apply elem_of_app in Ht as [Ht|Ht];
      [ by apply (filter_no_restart _ _ Hts) in Ht
      | apply list_elem_of_singleton in Ht as ->; done ]. }
  assert (Hcnt : (if decide (UM_PRESTART = UM_PRESTART) then k + 1 else fc UM_PRESTART)
                 = k + 1) by (by rewrite decide_True).
  destruct (k + 1 >? 5) eqn:Hgt;
    [ apply Z.gtb_lt in Hgt; replace (k <? 5) with false by (symmetry; apply Z.ltb_ge; lia)
    | rewrite Z.gtb_ltb in Hgt; apply Z.ltb_ge in Hgt;
      replace (k <? 5) with true by (symmetry; apply Z.ltb_lt; lia) ].
  all: rewrite unit_purge_and_target_S; cbn; rewrite unit_enter_stop_S; cbn.
  all: destruct (me UM_STOP) as [stop|] eqn:Hstop.
  1,3: unit_unfold; rewrite Hfk; cbn; rewrite Hfk; cbn;
       eexists _, _; (split; [reflexivity|]); cbn;
       split; [reflexivity|]; split; [by left|];
       split; [exists [fp fk]; split; [done|]; split; [right; by eexists | done]|].
  3,4: rewrite unit_enter_stopterm_S; cbn; unit_unfold; rewrite Hmp0; cbn;
       eexists _, _; (split; [reflexivity|]); cbn;
       split; [reflexivity|]; split; [by right|];
       split; [exists []; split; [done|]; split; [by left | done]|].
  all: split; [reflexivity|]; split; [reflexivity|];
       split; [rewrite decide_True by done; rewrite Hk, int_incr_small by lia; done|];
       split; [exact Hf | exact Hts'].
Qed.

Lemma exits_while_stopping n unit1 m1 mp :
  unit_stopping unit1 = true ->
  (state unit1 = US_STOP \/ state unit1 = US_STOPTERM) ->
  (exists l, pids unit1 = mp :: l /\ (l = [] \/ (exists s, l = [s]))
             /\ (state unit1 = US_STOPTERM -> l = [])) ->
  exists unit2 m2 n',
    (n <= n')%nat
    /\ exits S16ExitWasAbnormal (S n) (pids unit1) 0 unit1 m1
       = unit_enter_state n' unit2 m2 (target unit1)
    /\ pids unit2 = [] /\ target unit2 = target unit1
    /\ methods unit2 = methods unit1 /\ fail_cnt unit2 = fail_cnt unit1
    /\ fork_pid m2 = fork_pid m1
    /\ (forall P : timer_t -> Prop, (forall t, t ∈ ts m1 -> P t) -> forall t, t ∈ ts m2 -> P t).
Proof.
  intros Hstopping Hst (l & Hps & Hl & Hterm).
  destruct unit1 as [pa ty me st ta mp' sp ps ti mr fc].
  destruct m1 as [pt_ ts_ nx fp fk sg rp cu]. cbn in *. subst ps.
  assert (Hfilter : forall (P : timer_t -> Prop) i, (forall t, t ∈ ts_ -> P t) ->
                      forall t, t ∈ filter (fun t => tm_id t <> i) ts_ -> P t).
  { intros P i HP t Ht. apply list_elem_of_filter in Ht as [_ Ht]. by apply HP. }
  destruct Hst as [-> | ->].
  - destruct Hl as [-> | [s ->]].
    + unfold exits. rewrite unit_ptevent_exit_stopping by done. cbn.
      rewrite decide_True by done. cbn. rewrite unit_enter_stopterm_S. cbn.
      rewrite bind_Ok_pair. eexists _, _, n. split; [lia|]. split; [reflexivity|]. cbn.
      repeat split; try done. intros P HP. by apply Hfilter.
    + unfold exits. rewrite unit_ptevent_exit_stopping by done. cbn.
      rewrite decide_True by done. cbn.
      rewrite unit_ptevent_exit_stopping by done. cbn.
      rewrite decide_True by done. cbn. rewrite unit_enter_stopterm_S. cbn.
      rewrite bind_Ok_pair. eexists _, _, n. split; [lia|]. split; [reflexivity|]. cbn.
      repeat split; try done. intros P HP. by apply Hfilter.
  - rewrite (Hterm eq_refl).
    unfold exits. rewrite unit_ptevent_exit_stopping by done. cbn.
    rewrite decide_True by done. cbn. unfold unit_enter_stopkill. cbn.
    rewrite bind_Ok_pair. eexists _, _, (S n). split; [lia|]. split; [reflexivity|]. cbn.
    repeat split; try done. intros P HP. by apply Hfilter.
Qed.

Lemma timeout_retries n unit m k :
  in_prestart k unit m -> 0 <= k < 5 ->
  exists unit' m',
    failed_attempt S16ExitWasAbnormal (S (S (S n))) timeout unit m = Ok (unit', m')
    /\ in_prestart (k + 1) unit' m'.
Proof.
  intros Hin Hk5.
  destruct (timeout_stops n unit m k Hin ltac:(lia))
    as (u1 & m1 & Hrun1 & Hstopping & Hst & Hps & Hta & Hme & Hcnt & Hf & Hts).
  destruct (exits_while_stopping (S (S n)) u1 m1 (main_pid unit) Hstopping Hst Hps)
    as (u2 & m2 & n' & Hn' & Hrun2 & Hps2 & Hta2 & Hme2 & Hcnt2 & Hf2 & Hts2).
  unfold failed_attempt. rewrite Hrun1. cbn [bind fst snd]. rewrite Hrun2, Hta.
  replace (k <? 5) with true by (symmetry; apply Z.ltb_lt; lia).
  destruct n' as [|[|n']]; try lia. rewrite unit_enter_state_S.
  apply unit_enter_prestart_forks.
  - rewrite Hme2, Hme. apply Hin.
  - exact Hps2.
  - by rewrite Hcnt2.
  - by rewrite Hf2.
  - by apply Hts2.
Qed.

Lemma timeout_gives_up n unit m :
  in_prestart 5 unit m ->
  exists unit' m',
    failed_attempt S16ExitWasAbnormal (S (S (S n))) timeout unit m = Ok (unit', m')
    /\ in_maintenance unit'.
Proof.
  intros Hin.
  destruct (timeout_stops n unit m 5 Hin ltac:(lia))
    as (u1 & m1 & Hrun1 & Hstopping & Hst & Hps & Hta & Hme & Hcnt & Hf & Hts).
  destruct (exits_while_stopping (S (S n)) u1 m1 (main_pid unit) Hstopping Hst Hps)
    as (u2 & m2 & n' & Hn' & Hrun2 & Hps2 & Hta2 & Hme2 & Hcnt2 & Hf2 & Hts2).
  unfold failed_attempt. rewrite Hrun1. cbn [bind fst snd]. rewrite Hrun2, Hta.
  change (5 <? 5) with false. cbn match.
  destruct n' as [|[|n']]; try lia. rewrite unit_enter_state_S.
  eexists _, _. split; [reflexivity|]. unfold in_maintenance, unit_enter_maintenance.
  destruct u2. cbn in *. subst. by repeat split.
Qed.

Lemma failed_attempt_retries n f unit m k :
  in_prestart k unit m -> 0 <= k < 5 -> failure_ok S16ExitWasAbnormal f ->
  exists unit' m',
    failed_attempt S16ExitWasAbnormal (S (S (S n))) f unit m = Ok (unit', m')
    /\ in_prestart (k + 1) unit' m'.
Proof.
  destruct f as [flags|]; intros Hin Hk Hf.
  - by apply abnormal_exit_retries.
  - by apply timeout_retries.
Qed.

Lemma failed_attempt_gives_up n f unit m :
  in_prestart 5 unit m -> failure_ok S16ExitWasAbnormal f ->
  exists unit' m',
    failed_attempt S16ExitWasAbnormal (S (S (S n))) f unit m = Ok (unit', m')
    /\ in_maintenance unit'.
Proof.
  destruct f as [flags|]; intros Hin Hf.
  - by apply abnormal_exit_gives_up.
  - by apply timeout_gives_up.
Qed.

Lemma failed_attempts_retry n fs :
  forall unit m k,
    in_prestart k unit m -> 0 <= k -> k + Z.of_nat (length fs) <= 5 ->
    Forall (failure_ok S16ExitWasAbnormal) fs ->
    exists unit' m',
      failed_attempts S16ExitWasAbnormal (S (S (S n))) fs unit m = Ok (unit', m')
      /\ in_prestart (k + Z.of_nat (length fs)) unit' m'.
Proof.
  induction fs as [|f fs IH]; intros unit m k Hin Hk0 Hk5 Hok.
  - exists unit, m. split; [reflexivity|]. cbn. by rewrite Z.add_0_r.
  - apply Forall_cons in Hok as [Hf Hok]. cbn [length] in Hk5.
    destruct (failed_attempt_retries n f unit m k Hin ltac:(lia) Hf)
      as (u1 & m1 & Hrun1 & Hin1).
    destruct (IH u1 m1 (k + 1) Hin1 ltac:(lia) ltac:(lia) Hok) as (u2 & m2 & Hrun2 & Hin2).
    exists u2, m2. cbn [failed_attempts]. rewrite Hrun1. cbn [bind fst snd].
    split; [exact Hrun2|].
    replace (k + Z.of_nat (length (f :: fs))) with (k + 1 + Z.of_nat (length fs))
      by (cbn [length]; lia).
    exact Hin2.
Qed.

(** C8.  A unit is running its PreStart method for the first time (fail
    counter 0) and every attempt fails, by an abnormal exit of the method's
    process or by the 2 s timer, while forks keep succeeding.  After each of
    the first five failures the PreStart fail counter has gone up by one and
    the unit is back in PreStart with a fresh process (never in Maintenance);
    the sixth failure takes the counter to 6, sets the target to Maintenance
    and leaves the unit in the Maintenance state. *)
Theorem prestart_failing_reaches_maintenance (fuel : nat) (unit : Unit) (m : Manager)
    (fs : list failure)
    (Hfuel : (3 <= fuel)%nat)
    (Hstart : in_prestart 0 unit m)
    (Hfail : Forall (failure_ok S16ExitWasAbnormal) fs) :
  ((length fs <= 5)%nat ->
     exists unit' m',
       failed_attempts S16ExitWasAbnormal fuel fs unit m = Ok (unit', m')
       /\ state unit' = US_PRESTART
       /\ fail_cnt unit' UM_PRESTART = Z.of_nat (length fs)
       /\ in_prestart (Z.of_nat (length fs)) unit' m')
  /\ (length fs = 6%nat ->
        exists unit' m',
          failed_attempts S16ExitWasAbnormal fuel fs unit m = Ok (unit', m')
          /\ state unit' = UkS16StateMaintenance
          /\ target unit' = UkS16StateMaintenance
          /\ fail_cnt unit' UM_PRESTART = 6).
Proof.
  destruct fuel as [|[|[|n]]]; try lia. split.
  - intros Hlen.
    destruct (failed_attempts_retry n fs unit m 0 Hstart ltac:(lia) ltac:(lia) Hfail)
      as (u' & m' & Hrun & Hin).
    rewrite Z.add_0_l in Hin. exists u', m'. split; [exact Hrun|].
    pose proof Hin as (Hst & _ & _ & _ & Hcnt & _).
    split; [exact Hst|]. split; [exact Hcnt | exact Hin].
  - intros Hlen.
    destruct (exists_last (l := fs)) as (fs5 & f6 & ->); [by destruct fs|].
    rewrite length_app in Hlen. cbn in Hlen.
    apply Forall_app in Hfail as [Hfail5 Hf6]. apply Forall_inv in Hf6.
    destruct (failed_attempts_retry n fs5 unit m 0 Hstart ltac:(lia) ltac:(lia) Hfail5)
      as (u5 & m5 & Hrun5 & Hin5).
    replace (0 + Z.of_nat (length fs5)) with 5 in Hin5 by lia.
    destruct (failed_attempt_gives_up n f6 u5 m5 Hin5 Hf6)
      as (u6 & m6 & Hrun6 & Hst & Hta & Hcnt & _).
    exists u6, m6. split; [|done].
    clear -Hrun5 Hrun6. revert unit m Hrun5.
    induction fs5 as [|f fs5 IH]; intros unit m Hrun5; cbn in *.
    + injection Hrun5 as -> ->. rewrite Hrun6. reflexivity.
    + destruct (failed_attempt _ _ f unit m) as [[u1 m1]| | |]; try discriminate.
      cbn in *. by apply IH.
Qed.

Lemma unit_enter_never_online n :
  never_online (unit_purge_and_target n)
  /\ never_online (unit_enter_prestart n)
  /\ never_online (unit_enter_start n)
  /\ never_online (unit_enter_poststart n)
  /\ never_online (unit_enter_stop n)
  /\ never_online (unit_enter_stopterm n)
  /\ (forall s, never_online (fun unit m => unit_enter_state n unit m s)).
Proof.
  induction n as [|n (IHpt & IHpre & IHst & IHpost & IHstop & IHterm & IHstate)].
  { refine (conj _ (conj _ (conj _ (conj _ (conj _ (conj _ _)))))); [..|intros s];
      intros unit m unit' m' _ H; vm_compute in H; discriminate. }
  refine (conj _ (conj _ (conj _ (conj _ (conj _ (conj _ _)))))); [..|intros s];
    intros unit m unit' m' Hne H.
  - rewrite unit_purge_and_target_S in H.
    destruct (negb _); [by eapply IHstop | by eapply IHstate].
  - rewrite unit_enter_prestart_S in H.
    destruct (methods unit UM_PRESTART); [|by eapply IHst].
    destruct unit, m; unit_unfold.
    repeat match type of H with context [if ?c then _ else _] => destruct c; cbn in H end.
    all: first [ by injection H as <- <- | eapply IHpt in H; [done | done] ].
  - rewrite unit_enter_start_S in H.
    destruct unit, m; unit_unfold.
    repeat match type of H with context [if ?c then _ else _] => destruct c; cbn in H end.
    all: first [ by injection H as <- <-
               | eapply IHpt in H; [done | done]
               | eapply IHpost in H; [done | done] ].
  - rewrite unit_enter_poststart_S in H.
    destruct (methods unit UM_POSTSTART).
    + destruct unit, m; unit_unfold.
      repeat match type of H with context [if ?c then _ else _] => destruct c; cbn in H end.
      all: first [ by injection H as <- <- | eapply IHpt in H; [done | done] ].
    + unfold unit_enter_online in H. destruct (decide _); by injection H as <- <-.
  - rewrite unit_enter_stop_S in H.
    destruct (methods unit UM_STOP); [|by eapply IHterm].
    destruct unit, m; unit_unfold.
    repeat match type of H with context [if ?c then _ else _] => destruct c; cbn in H end.
    all: first [ by injection H as <- <- | eapply IHpt in H; [done | done] ].
  - rewrite unit_enter_stopterm_S in H.
    destruct (LL_empty _); [by eapply IHstate|].
    destruct unit, m; unit_unfold.
    repeat match type of H with context [if ?c then _ else _] => destruct c; cbn in H end.
    all: by injection H as <- <-.
  - rewrite unit_enter_state_S in H.
    unfold unit_enter_offline, unit_enter_maintenance, unit_enter_online in H.
    destruct s; try (by eapply IHpre); try (by eapply IHst); try (by eapply IHpost);
      try destruct (decide (path unit = S16PathOfRepository m));
      injection H as <- <-; done.
Qed.

Lemma unit_retry_start_never_online n msecs :
  never_online (fun unit m => unit_retry_start n unit m msecs).
Proof.
  intros unit m unit' m' Hne H. unfold unit_retry_start in H.
  apply bind_Ok_inv in H as ([u1 m1] & H1 & H).
  apply (proj1 (unit_enter_never_online n)) in H1; [|done].
  destruct u1, m1. unit_unfold. by injection H as <- <-.
Qed.

Lemma unit_enter_stopkill_never_online n : never_online (unit_enter_stopkill n).
Proof.
  intros unit m unit' m' Hne H. unfold unit_enter_stopkill in H.
  destruct (LL_empty _).
  - by eapply (unit_enter_never_online n) in H.
  - destruct unit, m; unit_unfold. destruct (_ =? _); by injection H as <- <-.
Qed.

Lemma unit_ptevent_never_online n info :
  never_online (fun unit m => unit_ptevent S16ExitWasAbnormal n unit m info).
Proof.
  pose proof (unit_enter_never_online n) as (IHpt & _ & _ & _ & IHstop & IHterm & _).
  pose proof (unit_enter_stopkill_never_online n) as IHkill.
  pose proof (unit_retry_start_never_online n 5000) as IHretry.
  intros unit m unit' m' Hne H. unfold unit_ptevent in H.
  destruct info as [ev p fl]. destruct unit as [pa ty me st ta mp sp ps ti mr fc].
  destruct m as [pt_ ts_ nx fp fk sg rp cu]. cbn in Hne.
  destruct ev; unit_unfold.
  - destruct (bool_decide (p ∈ ps)); cbn in H; by injection H as <- <-.
  - destruct st; try done; cbn [state_to_S16ServiceMethodype] in H;
      repeat (first [ rewrite bool_decide_eq_true_2 in H by done
                    | rewrite bool_decide_eq_false_2 in H by done
                    | rewrite decide_True in H by done
                    | rewrite decide_False in H by done ]);
      cbn [andb orb negb] in H;
      repeat match type of H with
             | context [if ?c then _ else _] => destruct c; cbv iota beta in H
             end;
      first [ discriminate H
            | by injection H as <- <-
            | eapply IHpt in H; [done | done]
            | eapply IHstop in H; [done | done]
            | eapply IHterm in H; [done | done]
            | eapply IHkill in H; [done | done]
            | eapply IHretry in H; [done | done] ].
Qed.

Lemma unit_timer_event_never_online n id :
  never_online (fun unit m => unit_timer_event n unit m id).
Proof.
  pose proof (unit_enter_never_online n) as (IHpt & _ & _ & _ & _ & IHterm & IHstate).
  intros unit m unit' m' Hne H. unfold unit_timer_event in H.
  destruct unit as [pa ty me st ta mp sp ps ti mr fc]. cbn in Hne. unit_unfold.
  destruct st; try done; try (by injection H as <- <-);
    try (destruct (_ >? _)); first [ eapply IHpt in H; [done | done]
                                   | eapply IHterm in H; [done | done]
                                   | eapply (IHstate ta) in H; [done | done] ].
Qed.

Lemma unit_restart_begin_cb_never_online n id :
  never_online (fun unit m => unit_restart_begin_cb n unit m id).
Proof.
  intros unit m unit' m' Hne H. unfold unit_restart_begin_cb in H.
  by eapply (unit_enter_never_online n) in H.
Qed.

Lemma unit_notify_ready_never_online n : never_online (unit_notify_ready n).
Proof.
  intros unit m unit' m' Hne H. unfold unit_notify_ready in H.
  destruct (decide _); [|by injection H as <- <-].
  by eapply (unit_enter_never_online n) in H.
Qed.

(** *** unit.state is never set to the Online value *)

(** C10.  unit_enter_online leaves the unit exactly as it was, its [state]
    included: called directly, through unit_enter_state with the Online
    value, through unit_enter_poststart when there is no PostStart method, or
    on the successful exit of the PostStart method (after which the state is
    still US_POSTSTART).  No dispatch function of unit.c ever turns a state
    other than the Online value into it, so a later test of unit.state
    against the Online value sees the state from before the entry. *)
Theorem unit_enter_online_keeps_state (unit : Unit) (m : Manager) :
  (unit_enter_online unit m).1 = unit
  /\ (forall n, exists m', unit_enter_state (S n) unit m UkS16StateOnline = Ok (unit, m'))
  /\ (forall n, methods unit UM_POSTSTART = None ->
        exists m', unit_enter_poststart (S n) unit m = Ok (unit, m'))
  /\ (forall fuel info,
        state unit = US_POSTSTART ->
        event info = kS16ProcessTrackerEventTypeExit ->
        pid info = secondary_pid unit -> pid info <> main_pid unit ->
        S16ExitWasAbnormal (flags info) = false ->
        exists unit' m',
          unit_ptevent S16ExitWasAbnormal fuel unit m info = Ok (unit', m')
          /\ state unit' = US_POSTSTART)
  /\ (forall fuel info,
        never_online (fun u m0 => unit_ptevent S16ExitWasAbnormal fuel u m0 info))
  /\ (forall fuel id, never_online (fun u m0 => unit_timer_event fuel u m0 id))
  /\ (forall fuel id, never_online (fun u m0 => unit_restart_begin_cb fuel u m0 id))
  /\ (forall fuel, never_online (unit_notify_ready fuel)).
Proof.
  assert (Honline : forall u m0, (unit_enter_online u m0).1 = u).
  { intros u m0. unfold unit_enter_online. by destruct (decide _). }
  split; [apply Honline|]. split; [|split; [|split; [|split; [|split; [|split]]]]].
  4: exact unit_ptevent_never_online.
  4: exact unit_timer_event_never_online.
  4: exact unit_restart_begin_cb_never_online.
  4: exact unit_notify_ready_never_online.
  - intros n. rewrite unit_enter_state_S.
    pose proof (Honline unit m) as Hu.
    destruct (unit_enter_online unit m) as [u' m']. cbn in Hu. subst u'. by exists m'.
  - intros n Hnone. rewrite unit_enter_poststart_S, Hnone.
    pose proof (Honline unit m) as Hu.
    destruct (unit_enter_online unit m) as [u' m']. cbn in Hu. subst u'. by exists m'.
  - intros fuel [ev p fl] Hst Hev Hpid Hmain Hok. cbn in *. subst ev p.
    destruct unit as [pa ty me st ta mp sp ps ti mr fc]. cbn in *. subst st.
    unfold unit_ptevent. unit_unfold. dec_simp.
    rewrite Hok.
    unfold unit_enter_online. cbn.
    destruct (decide _); eexists _, _; (split; [reflexivity|]); reflexivity.
Qed.

End ExitFlags.

(** *** unit_retry_start *)

(** The [msecs] argument plays no part. *)
Lemma unit_retry_start_ignores_msecs fuel unit m msecs msecs' :
  unit_retry_start fuel unit m msecs = unit_retry_start fuel unit m msecs'.
Proof. reflexivity. Qed.

Lemma unit_retry_start_delay fuel unit m msecs unit' m' :
  unit_retry_start fuel unit m msecs = Ok (unit', m') ->
  exists ts0, ts m' = ts0 ++ [mk_timer (meth_restart_timer_id unit') 500
                                cb_unit_restart_begin_cb].
Proof.
  unfold unit_retry_start. intros H. apply bind_Ok_inv in H as ([u1 m1] & _ & H).
  unit_unfold. injection H as <- <-. cbn. by eexists.
Qed.

(** C9, at the failing input: asked for 5000 ms, the restart timer is
    registered with 500 ms, on a direct call and on the failure-retry path. *)
Theorem unit_retry_start_registers_500 :
  (exists unit' m',
     unit_retry_start 9 unit_after_exit manager_after_exit 5000 = Ok (unit', m')
     /\ target unit' = UkS16StateNone /\ state unit' = UkS16StateNone
     /\ meth_restart_timer_id unit' = 2
     /\ ts m' = [mk_timer 2 500 cb_unit_restart_begin_cb])
  /\ (exists unit' m',
        unit_ptevent flags_nonzero 9 unit_in_prestart manager_in_prestart (exit_of 100 1)
          = Ok (unit', m')
        /\ fail_cnt unit' UM_PRESTART = 1
        /\ ts m' = [mk_timer 2 500 cb_unit_restart_begin_cb]).
Proof.
  split; eexists _, _; (split; [vm_compute; reflexivity|]); by repeat split.
Qed.

(** *** Witnesses *)

Lemma unit_in_prestart_ok : in_prestart 0 unit_in_prestart manager_in_prestart.
Proof.
  unfold in_prestart, unit_in_prestart, manager_in_prestart. cbn.
  split; [reflexivity|]. split; [discriminate|]. split; [discriminate|].
  split; [reflexivity|]. split; [reflexivity|]. split.
  - intros j. lia.
  - intros t Ht. apply list_elem_of_singleton in Ht as ->. discriminate.
Defined.

Lemma prestart_failing_reaches_maintenance_witness :
  (3 <= 9)%nat
  /\ in_prestart 0 unit_in_prestart manager_in_prestart
  /\ Forall (failure_ok flags_nonzero)
            [abnormal_exit 1; timeout; timeout; abnormal_exit 9; abnormal_exit 1; timeout]
  /\ exists unit' m',
       failed_attempts flags_nonzero 9
         [abnormal_exit 1; timeout; timeout; abnormal_exit 9; abnormal_exit 1; timeout]
         unit_in_prestart manager_in_prestart = Ok (unit', m')
       /\ state unit' = UkS16StateMaintenance
       /\ target unit' = UkS16StateMaintenance
       /\ fail_cnt unit' UM_PRESTART = 6.
Proof.
  assert (Hfuel : (3 <= 9)%nat) by lia.
  assert (Hfail : Forall (failure_ok flags_nonzero)
            [abnormal_exit 1; timeout; timeout; abnormal_exit 9; abnormal_exit 1; timeout]).
  { repeat constructor. }
  split; [exact Hfuel|]. split; [exact unit_in_prestart_ok|]. split; [exact Hfail|].
  apply (proj2 (prestart_failing_reaches_maintenance flags_nonzero 9 unit_in_prestart
                  manager_in_prestart _ Hfuel unit_in_prestart_ok Hfail)).
  reflexivity.
Defined.

Lemma unit_enter_online_keeps_state_witness :
  methods unit_in_prestart UM_POSTSTART = None
  /\ state unit_in_poststart = US_POSTSTART
  /\ event (exit_of 101 0) = kS16ProcessTrackerEventTypeExit
  /\ pid (exit_of 101 0) = secondary_pid unit_in_poststart
  /\ pid (exit_of 101 0) <> main_pid unit_in_poststart
  /\ flags_nonzero (flags (exit_of 101 0)) = false
  /\ (exists m', unit_enter_poststart 9 unit_in_prestart manager_in_prestart
                   = Ok (unit_in_prestart, m'))
  /\ exists unit' m',
       unit_ptevent flags_nonzero 9 unit_in_poststart manager_in_poststart (exit_of 101 0)
         = Ok (unit', m')
       /\ state unit' = US_POSTSTART.
Proof.
  assert (Hmain : pid (exit_of 101 0) <> main_pid unit_in_poststart) by discriminate.
  repeat (split; [first [reflexivity | exact Hmain]|]).
  split.
  - apply (proj1 (proj2 (proj2 (unit_enter_online_keeps_state flags_nonzero
                                  unit_in_prestart manager_in_prestart))) 8%nat).
    reflexivity.
  - apply (proj1 (proj2 (proj2 (proj2 (unit_enter_online_keeps_state flags_nonzero
                                          unit_in_poststart manager_in_poststart)))) 9%nat
                 (exit_of 101 0)); first [reflexivity | exact Hmain].
Defined.

#[local] Arguments unit_purge_and_target : simpl never.
#[local] Arguments unit_enter_prestart : simpl never.
#[local] Arguments unit_enter_start : simpl never.
#[local] Arguments unit_enter_poststart : simpl never.
#[local] Arguments unit_enter_stop : simpl never.
#[local] Arguments unit_enter_stopterm : simpl never.
#[local] Arguments unit_enter_state : simpl never.
#[local] Arguments unit_ptevent : simpl never.
#[local] Arguments unit_timer_event : simpl never.
#[local] Arguments unit_enter_stopkill : simpl never.

(** *** The frame of the state machine *)

Lemma unit_frame_refl unit m : unit_frame unit m unit m.
Proof.
  repeat split; try done. exists []. split; [by rewrite app_nil_r | constructor].
Qed.

Lemma unit_frame_trans u1 m1 u2 m2 u3 m3 :
  unit_frame u1 m1 u2 m2 -> unit_frame u2 m2 u3 m3 -> unit_frame u1 m1 u3 m3.
Proof.
  intros (Ha & Hb & Hc & (l1 & Hl1 & Hf1) & Hd & He)
         (Ha' & Hb' & Hc' & (l2 & Hl2 & Hf2) & Hd' & He').
  split; [congruence|]. split; [congruence|]. split; [congruence|].
  split.
  { exists (l1 ++ l2). split; [by rewrite Hl2, Hl1, app_assoc | by apply Forall_app]. }
  split; [by auto | by auto].
Qed.

Lemma signals_kill_each m l sig :
  signals (kill_each m l sig) = signals m ++ ((fun p => (p, sig)) <$> l)
  /\ pt (kill_each m l sig) = pt m /\ fork_pid (kill_each m l sig) = fork_pid m
  /\ ts (kill_each m l sig) = ts m.
Proof.
  unfold kill_each. revert m. induction l as [|p l IH]; intros m; simpl.
  - by rewrite app_nil_r.
  - destruct (IH (kill m p sig)) as (-> & -> & -> & ->). simpl.
    by rewrite <- app_assoc.
Qed.

(** Steps that touch neither list nor send a signal. *)
Lemma unit_frame_quiet unit m unit' m' :
  methods unit' = methods unit -> fail_cnt unit' = fail_cnt unit ->
  fork_pid m' = fork_pid m -> signals m' = signals m ->
  pids unit' = pids unit -> pt m' = pt m ->
  (state unit <> US_STOPKILL -> state unit' <> US_STOPKILL) ->
  unit_frame unit m unit' m'.
Proof.
  intros Ha Hb Hc Hd He Hf Hg. repeat split; try done.
  - exists []. split; [by rewrite app_nil_r | constructor].
  - congruence.
Qed.

Lemma unit_fork_and_register_frame unit m cmd pid unit' m' :
  unit_fork_and_register unit m cmd = (pid, unit', m') ->
  methods unit' = methods unit /\ fail_cnt unit' = fail_cnt unit
  /\ fork_pid m' = fork_pid m /\ signals m' = signals m
  /\ state unit' = state unit /\ target unit' = target unit
  /\ (pids unit = pt m -> pids unit' = pt m')
  /\ pid = fork_pid m (forks m)
  /\ pids unit' = (if pid =? 0 then pids unit else pids unit ++ [pid]).
Proof.
  unfold unit_fork_and_register. destruct (_ =? 0) eqn:Hz.
  - intros [= <- <- <-]. apply Z.eqb_eq in Hz. cbn. by repeat split.
  - intros [= <- <- <-]. rewrite Hz. repeat split; try done.
    destruct unit, m; unit_unfold. by intros ->.
Qed.


Ltac frame_done :=
  unfold unit_frame; cbn;
  split; [done|]; split; [done|]; split; [done|];
  split; [exists []; split; [by rewrite app_nil_r | constructor]|];
  split; [try done; try (by intros ->) | try done].

Ltac frame_step IH H :=
  eapply IH in H; eapply unit_frame_trans; [|exact H]; frame_done.

Lemma unit_enter_stopterm_direct unit m :
  unit_frame unit m
    (set_timer_id (ts_next (if main_pid unit =? 0 then m
                            else kill m (main_pid unit) SIGTERM))
                  (set_state US_STOPTERM unit))
    (kill_each
       (snd (timerset_add (if main_pid unit =? 0 then m
                           else kill m (main_pid unit) SIGTERM)
                          2000 cb_unit_timer_event))
       (pids unit) SIGTERM).
Proof.
  unfold unit_frame.
  destruct (signals_kill_each
              (snd (timerset_add (if main_pid unit =? 0 then m
                                  else kill m (main_pid unit) SIGTERM)
                                 2000 cb_unit_timer_event))
              (pids unit) SIGTERM) as (-> & -> & -> & _).
  destruct unit as [pa ty me st ta mp sp ps ti mr fc].
  destruct m as [pt_ ts_ nx fp fk sg rp cu]. cbn.
  split; [done|]. split; [done|].
  destruct (mp =? 0); cbn.
  - split; [done|]. split; [|done].
    exists ((fun p => (p, SIGTERM)) <$> ps). split; [done|].
    apply Forall_fmap. by apply Forall_true.
  - split; [done|]. split; [|done].
    exists ((mp, SIGTERM) :: ((fun p => (p, SIGTERM)) <$> ps)).
    split; [by rewrite <- app_assoc|].
    constructor; [done|]. apply Forall_fmap. by apply Forall_true.
Qed.

Lemma unit_enter_keeps_frame n :
  keeps_frame (unit_purge_and_target n)
  /\ keeps_frame (unit_enter_prestart n)
  /\ keeps_frame (unit_enter_start n)
  /\ keeps_frame (unit_enter_poststart n)
  /\ keeps_frame (unit_enter_stop n)
  /\ keeps_frame (unit_enter_stopterm n)
  /\ (forall s, keeps_frame (fun unit m => unit_enter_state n unit m s)).
Proof.
  induction n as [|n (IHpt & IHpre & IHst & IHpost & IHstop & IHterm & IHstate)].
  { refine (conj _ (conj _ (conj _ (conj _ (conj _ (conj _ _)))))); [..|intros s];
      intros unit m unit' m' H; vm_compute in H; discriminate. }
  refine (conj _ (conj _ (conj _ (conj _ (conj _ (conj _ _)))))); [..|intros s];
    intros unit m unit' m' H.
  - rewrite unit_purge_and_target_S in H.
    destruct (negb _); [by eapply IHstop | by eapply IHstate].
  - rewrite unit_enter_prestart_S in H.
    destruct (methods unit UM_PRESTART); [|by eapply IHst].
    destruct unit, m; unit_unfold.
    repeat match type of H with context [if ?c then _ else _] => destruct c; cbn in H end.
    all: first [ injection H as <- <-; frame_done | frame_step IHpt H ].
  - rewrite unit_enter_start_S in H.
    destruct unit, m; unit_unfold.
    repeat match type of H with context [if ?c then _ else _] => destruct c; cbn in H end.
    all: first [ injection H as <- <-; frame_done
               | frame_step IHpt H
               | frame_step IHpost H ].
  - rewrite unit_enter_poststart_S in H.
    destruct (methods unit UM_POSTSTART).
    + destruct unit, m; unit_unfold.
      repeat match type of H with context [if ?c then _ else _] => destruct c; cbn in H end.
      all: first [ injection H as <- <-; frame_done | frame_step IHpt H ].
    + unfold unit_enter_online in H. destruct (decide _); injection H as <- <-;
        destruct unit, m; frame_done.
  - rewrite unit_enter_stop_S in H.
    destruct (methods unit UM_STOP); [|by eapply IHterm].
    destruct unit, m; unit_unfold.
    repeat match type of H with context [if ?c then _ else _] => destruct c; cbn in H end.
    all: first [ injection H as <- <-; frame_done | frame_step IHpt H ].
  - rewrite unit_enter_stopterm_S in H.
    destruct (LL_empty _); [by eapply IHstate|].
    cbv zeta in H. unfold UnitTimerReg in H.
    destruct (timerset_add _ _ _) as [id m1] eqn:Hadd.
    injection H as <- <-.
    pose proof (unit_enter_stopterm_direct unit m) as Hd.
    unfold timerset_add in Hadd. injection Hadd as <- <-. exact Hd.
  - rewrite unit_enter_state_S in H.
    unfold unit_enter_offline, unit_enter_maintenance, unit_enter_online in H.
    destruct s; try (by eapply IHpre); try (by eapply IHst); try (by eapply IHpost);
      try destruct (decide (path unit = S16PathOfRepository m));
      injection H as <- <-; destruct unit, m; frame_done.
Qed.


Lemma unit_event_ok_frame u m u1 m1 u' m' :
  unit_event_ok u m u1 m1 -> unit_frame u1 m1 u' m' -> unit_event_ok u m u' m'.
Proof.
  intros (Ha & Hb & Hc & (l1 & Hl1 & Hf1) & Hd & He)
         (Ha' & Hb' & Hc' & (l2 & Hl2 & Hf2) & Hd' & He').
  split; [congruence|]. split; [congruence|].
  split; [intros i; rewrite Hb'; apply Hc|].
  split.
  { exists (l1 ++ l2). split; [by rewrite Hl2, Hl1, app_assoc | by apply Forall_app]. }
  split; by auto.
Qed.

Lemma unit_frame_event_ok u m u' m' : unit_frame u m u' m' -> unit_event_ok u m u' m'.
Proof.
  intros (Ha & Hb & Hc & Hd & He & Hf). repeat split; try done.
  intros i. left. by rewrite Hb.
Qed.

Ltac event_done :=
  unfold unit_event_ok; cbn;
  split; [done|]; split; [done|];
  split; [intros ?i; try (by left);
          repeat match goal with
                 | |- context [decide ?P] => destruct (decide P)
                 end; (by left) || (by right) |];
  split; [exists []; split; [by rewrite app_nil_r | constructor]|];
  split; [try done; try (by intros ->) | try done].

Ltac event_step IH H :=
  eapply IH in H; eapply unit_event_ok_frame; [|exact H]; event_done.

Lemma unit_retry_start_keeps_frame n msecs :
  keeps_frame (fun unit m => unit_retry_start n unit m msecs).
Proof.
  intros unit m unit' m' H. unfold unit_retry_start in H.
  apply bind_Ok_inv in H as ([u1 m1] & H1 & H).
  apply (proj1 (unit_enter_keeps_frame n)) in H1.
  apply (unit_frame_trans _ _ (set_target UkS16StateNone unit) m);
    [destruct unit, m; frame_done|].
  apply (unit_frame_trans _ _ u1 m1); [exact H1|].
  destruct u1, m1. unit_unfold. injection H as <- <-. frame_done.
Qed.

Section ExitFlags.
Variable S16ExitWasAbnormal : Z -> bool.

Lemma unit_ptevent_event_ok n info unit m unit' m' :
  unit_ptevent S16ExitWasAbnormal n unit m info = Ok (unit', m') ->
  unit_event_ok unit m unit' m'.
Proof.
  pose proof (unit_enter_keeps_frame n) as (IHpt & _ & _ & _ & IHstop & IHterm & IHstate).
  pose proof (unit_retry_start_keeps_frame n 5000) as IHretry.
  intros H. unfold unit_ptevent in H.
  destruct info as [ev p fl]. destruct unit as [pa ty me st ta mp sp ps ti mr fc].
  destruct m as [pt_ ts_ nx fp fk sg rp cu].
  destruct ev; unit_unfold.
  - destruct (bool_decide (p ∈ ps)); cbn in H; injection H as <- <-; event_done.
  - destruct st; cbn [state_to_S16ServiceMethodype] in H;
      repeat (first [ rewrite bool_decide_eq_true_2 in H by done
                    | rewrite bool_decide_eq_false_2 in H by done
                    | rewrite decide_True in H by done
                    | rewrite decide_False in H by done ]);
      cbn [andb orb negb] in H;
      repeat match type of H with
             | context [if ?c then _ else _] => destruct c eqn:?; cbv iota beta in H
             end;
      first [ discriminate H
            | injection H as <- <-; event_done
            | event_step IHpt H
            | event_step IHstop H
            | event_step IHterm H
            | event_step IHretry H
            | unfold unit_enter_stopkill in H; cbn in H;
              match goal with Hc : LL_empty _ = true |- _ => rewrite Hc in H end;
              event_step (IHstate ta) H ].
Qed.

End ExitFlags.


Lemma unit_timer_event_event_ok n id unit m unit' m' :
  unit_timer_event n unit m id = Ok (unit', m') -> unit_event_ok unit m unit' m'.
Proof.
  pose proof (unit_enter_keeps_frame n) as (IHpt & _ & _ & _ & _ & IHterm & IHstate).
  intros H. unfold unit_timer_event in H.
  destruct unit as [pa ty me st ta mp sp ps ti mr fc].
  destruct m as [pt_ ts_ nx fp fk sg rp cu]. unit_unfold.
  destruct st; try (injection H as <- <-; event_done);
    try (destruct (_ >? _)); first [ event_step IHpt H
                                   | event_step IHterm H
                                   | event_step (IHstate ta) H ].
Qed.

Lemma unit_restart_begin_cb_event_ok n id unit m unit' m' :
  unit_restart_begin_cb n unit m id = Ok (unit', m') -> unit_event_ok unit m unit' m'.
Proof.
  pose proof (unit_enter_keeps_frame n) as (_ & IHpre & _).
  intros H. unfold unit_restart_begin_cb in H.
  destruct unit as [pa ty me st ta mp sp ps ti mr fc].
  destruct m as [pt_ ts_ nx fp fk sg rp cu]. unit_unfold.
  event_step IHpre H.
Qed.

Lemma unit_notify_ready_event_ok n unit m unit' m' :
  unit_notify_ready n unit m = Ok (unit', m') -> unit_event_ok unit m unit' m'.
Proof.
  pose proof (unit_enter_keeps_frame n) as (_ & _ & _ & IHpost & _).
  intros H. unfold unit_notify_ready in H.
  destruct unit as [pa ty me st ta mp sp ps ti mr fc].
  destruct m as [pt_ ts_ nx fp fk sg rp cu]. unit_unfold.
  destruct (decide _); [event_step IHpost H | injection H as <- <-; event_done].
Qed.

Section Dispatch.
Variable S16ExitWasAbnormal : Z -> bool.
Variable rreq_type_of : S16.s16note_t -> S16.s16note_rreq_type_t.

Lemma unit_msg_event_ok n note unit m unit' m' :
  unit_msg rreq_type_of n unit m note = Ok (unit', m') -> unit_event_ok unit m unit' m'.
Proof.
  pose proof (unit_enter_keeps_frame n) as (_ & IHpre & _).
  intros H. unfold unit_msg in H. destruct (rreq_type_of note).
  - apply unit_frame_event_ok. by apply IHpre.
  - injection H as <- <-. apply unit_frame_event_ok, unit_frame_refl.
Qed.

Lemma unit_dispatch_event_ok n ev unit m unit' m' :
  unit_dispatch S16ExitWasAbnormal rreq_type_of n ev unit m = Ok (unit', m') ->
  unit_event_ok unit m unit' m'.
Proof.
  destruct ev; cbn [unit_dispatch].
  - apply unit_ptevent_event_ok.
  - apply unit_timer_event_event_ok.
  - apply unit_restart_begin_cb_event_ok.
  - apply unit_notify_ready_event_ok.
  - apply unit_msg_event_ok.
Qed.

(** The SIGKILL stage is dead code.  Whatever event reaches a unit (a
    process-tracker event, a method timer, the restart timer, a readiness
    notification, a request), the signals sent while it is handled are all
    SIGTERM, so no SIGKILL is ever sent, and the unit is not left in
    US_STOPKILL unless it was there before: unit_enter_stopkill is only
    called once the PID list is empty, where it returns before signalling.  A
    timer that fires in US_STOPTERM does not escalate either: it only clears
    the unit's timer, and the unit stays in US_STOPTERM. *)
Theorem sigkill_never_sent (fuel : nat) (ev : unit_event) (unit : Unit) (m : Manager)
    (unit' : Unit) (m' : Manager)
    (Hrun : unit_dispatch S16ExitWasAbnormal rreq_type_of fuel ev unit m = Ok (unit', m')) :
  (forall p, (p, SIGKILL) ∈ signals m' -> (p, SIGKILL) ∈ signals m)
  /\ (state unit <> US_STOPKILL -> state unit' <> US_STOPKILL)
  /\ (forall id, state unit = US_STOPTERM ->
        unit_timer_event fuel unit m id = Ok (set_timer_id 0 unit, timerset_del m id)).
Proof.
  destruct (unit_dispatch_event_ok _ _ _ _ _ _ Hrun)
    as (_ & _ & _ & (l & Hl & Hterm) & _ & Hstate).
  split; [|split; [exact Hstate|]].
  - intros p Hp. rewrite Hl in Hp. apply elem_of_app in Hp as [Hp|Hp]; [done|].
    rewrite Forall_forall in Hterm. specialize (Hterm _ Hp). cbn in Hterm. discriminate.
  - intros id Hst. unfold unit_timer_event. cbn. by rewrite Hst.
Qed.

(** The unit's PID list and the process tracker's watch list move together.
    If the two lists are equal when an event arrives, they are equal when it
    has been handled: every fork registers its child in both, a Child event
    adds to both, an Exit event removes from both. *)
Theorem pids_track_watch_list (fuel : nat) (ev : unit_event) (unit : Unit) (m : Manager)
    (unit' : Unit) (m' : Manager)
    (Hrun : unit_dispatch S16ExitWasAbnormal rreq_type_of fuel ev unit m = Ok (unit', m'))
    (Hsync : pids unit = pt m) :
  pids unit' = pt m'.
Proof.
  destruct (unit_dispatch_event_ok _ _ _ _ _ _ Hrun) as (_ & _ & _ & _ & Hkeep & _).
  apply Hkeep. exact Hsync.
Qed.

(** Fail counters are never reset.  Handling an event leaves each of a
    unit's fail counters where it was or increments it once; nothing in
    unit.c sets one back, not a successful start either.  The methods of the
    unit are not changed. *)
Theorem fail_cnt_never_reset (fuel : nat) (ev : unit_event) (unit : Unit) (m : Manager)
    (unit' : Unit) (m' : Manager)
    (Hrun : unit_dispatch S16ExitWasAbnormal rreq_type_of fuel ev unit m = Ok (unit', m')) :
  (forall i, fail_cnt unit' i = fail_cnt unit i
             \/ fail_cnt unit' i = int_incr (fail_cnt unit i))
  /\ methods unit' = methods unit.
Proof.
  destruct (unit_dispatch_event_ok _ _ _ _ _ _ Hrun) as (Hme & _ & Hcnt & _).
  split; [exact Hcnt | exact Hme].
Qed.

End Dispatch.


(** A unit in PreStart whose method's process exits abnormally. *)
Lemma sigkill_never_sent_witness :
  exists unit' m',
    unit_dispatch flags_nonzero (fun _ => S16.RR_START) 9 (ev_ptevent (exit_of 100 1))
                  unit_in_prestart manager_in_prestart = Ok (unit', m')
    /\ (forall p, (p, SIGKILL) ∈ signals m' -> (p, SIGKILL) ∈ signals manager_in_prestart)
    /\ (state unit_in_prestart <> US_STOPKILL -> state unit' <> US_STOPKILL)
    /\ (forall id, state unit_in_prestart = US_STOPTERM ->
          unit_timer_event 9 unit_in_prestart manager_in_prestart id
          = Ok (set_timer_id 0 unit_in_prestart, timerset_del manager_in_prestart id)).
Proof.
  eexists _, _. split; [vm_compute; reflexivity|].
  eapply (sigkill_never_sent flags_nonzero (fun _ => S16.RR_START) 9
           (ev_ptevent (exit_of 100 1)) unit_in_prestart manager_in_prestart).
  vm_compute. reflexivity.
Defined.

Lemma pids_track_watch_list_witness :
  exists unit' m',
    unit_dispatch flags_nonzero (fun _ => S16.RR_START) 9 (ev_timer 1)
                  unit_in_prestart manager_in_prestart = Ok (unit', m')
    /\ pids unit' = pt m'.
Proof.
  eexists _, _. split; [vm_compute; reflexivity|].
  eapply (pids_track_watch_list flags_nonzero (fun _ => S16.RR_START) 9 (ev_timer 1)
           unit_in_prestart manager_in_prestart).
  - vm_compute. reflexivity.
  - reflexivity.
Defined.

Lemma fail_cnt_never_reset_witness :
  exists unit' m',
    unit_dispatch flags_nonzero (fun _ => S16.RR_START) 9 (ev_ptevent (exit_of 100 1))
                  unit_in_prestart manager_in_prestart = Ok (unit', m')
    /\ (forall i, fail_cnt unit' i = fail_cnt unit_in_prestart i
                  \/ fail_cnt unit' i = int_incr (fail_cnt unit_in_prestart i))
    /\ methods unit' = methods unit_in_prestart.
Proof.
  eexists _, _. split; [vm_compute; reflexivity|].
  eapply (fail_cnt_never_reset flags_nonzero (fun _ => S16.RR_START) 9
           (ev_ptevent (exit_of 100 1)) unit_in_prestart manager_in_prestart).
  vm_compute. reflexivity.
Defined.

#[local] Arguments unit_purge_and_target : simpl never.
#[local] Arguments unit_enter_prestart : simpl never.
#[local] Arguments unit_enter_start : simpl never.
#[local] Arguments unit_enter_poststart : simpl never.
#[local] Arguments unit_enter_stop : simpl never.
#[local] Arguments unit_enter_stopterm : simpl never.
#[local] Arguments unit_enter_state : simpl never.
#[local] Arguments unit_ptevent : simpl never.
#[local] Arguments unit_timer_event : simpl never.
#[local] Arguments unit_enter_stopkill : simpl never.
#[local] Arguments exits : simpl never.

(** *** When fork fails *)

Lemma stop_fork_failure_loops n :
  forall unit m,
    methods unit UM_STOP <> None -> pids unit <> [] -> (forall k, fork_pid m k = 0) ->
    unit_enter_stop n unit m = OutOfFuel /\ unit_purge_and_target n unit m = OutOfFuel.
Proof.
  induction n as [|n IH]; intros unit m Hstop Hpids Hfork; [done|].
  assert (Hpt : unit_purge_and_target (S n) unit m = unit_enter_stop n unit m).
  { rewrite unit_purge_and_target_S. by destruct (pids unit). }
  rewrite Hpt. split; [|by apply IH].
  rewrite unit_enter_stop_S. destruct (methods unit UM_STOP) as [cmd|] eqn:Hcmd; [|done].
  destruct unit as [pa ty me st ta mp sp ps ti mr fc].
  destruct m as [pt_ ts_ nx fp fk sg rp cu]. cbn in *. unit_unfold.
  rewrite (Hfork fk). cbn. apply IH; cbn; [by rewrite Hcmd | done | done].
Qed.

(** A fork that fails while the unit still tracks a process.  The header of
    unit.c has a failed fork take the unit straight to maintenance; with a
    PID on the unit's list unit_purge_and_target first enters Stop, and when
    the unit has a stop method that forks again.  While fork keeps failing
    unit_enter_stop and unit_purge_and_target call each other without end: no
    depth of recursion lets either come back, and a method timer that fires
    in PreStart or Start does not come back either. *)
Theorem stop_fork_failure_never_returns (fuel : nat) (unit : Unit) (m : Manager)
    (Hstop : methods unit UM_STOP <> None) (Hpids : pids unit <> [])
    (Hfork : forall k, fork_pid m k = 0) :
  unit_enter_stop fuel unit m = OutOfFuel
  /\ unit_purge_and_target fuel unit m = OutOfFuel
  /\ (state unit = US_PRESTART \/ state unit = US_START ->
        forall id, unit_timer_event fuel unit m id = OutOfFuel).
Proof.
  destruct (stop_fork_failure_loops fuel unit m Hstop Hpids Hfork) as [H1 H2].
  split; [exact H1|]. split; [exact H2|].
  intros Hst id. unfold unit_timer_event.
  destruct unit as [pa ty me st ta mp sp ps ti mr fc].
  destruct m as [pt_ ts_ nx fp fk sg rp cu]. cbn in *.
  destruct Hst as [-> | ->]; unit_unfold;
    destruct (_ >? 5); by apply stop_fork_failure_loops.
Qed.

(** A fork that fails while the unit tracks no process: the unit goes to
    Maintenance, as the header of unit.c says, whichever method was to be
    run.  The 2 s timer that unit_enter_prestart, unit_enter_poststart and
    unit_enter_stop register before they fork is left in the timer set. *)
Theorem fork_failure_goes_to_maintenance (n : nat) (unit : Unit) (m : Manager)
    (Hpids : pids unit = []) (Hfork : fork_pid m (forks m) = 0) :
  let timer := mk_timer (ts_next m) 2000 cb_unit_timer_event in
  let failed (r : result (Unit * Manager)) (timers : list timer_t) :=
    exists unit' m', r = Ok (unit', m')
      /\ state unit' = UkS16StateMaintenance /\ target unit' = UkS16StateMaintenance
      /\ pids unit' = [] /\ forks m' = S (forks m) /\ ts m' = timers in
  (methods unit UM_PRESTART <> None ->
     failed (unit_enter_prestart (S (S (S n))) unit m) (ts m ++ [timer]))
  /\ failed (unit_enter_start (S (S (S n))) unit m) (ts m)
  /\ (methods unit UM_POSTSTART <> None ->
        failed (unit_enter_poststart (S (S (S n))) unit m) (ts m ++ [timer]))
  /\ (methods unit UM_STOP <> None ->
        failed (unit_enter_stop (S (S (S n))) unit m) (ts m ++ [timer])).
Proof.
  cbv zeta.
  destruct unit as [pa ty me st ta mp sp ps ti mr fc].
  destruct m as [pt_ ts_ nx fp fk sg rp cu]. cbn in *. subst ps.
  split; [|split; [|split]].
  - intros Hme. rewrite unit_enter_prestart_S. cbn.
    destruct (me UM_PRESTART) as [cmd|]; [|done].
    unit_unfold. rewrite Hfork. cbn.
    rewrite unit_purge_and_target_S. cbn. rewrite unit_enter_state_S. cbn.
    eexists _, _. by repeat split.
  - rewrite unit_enter_start_S. cbn. unit_unfold. rewrite Hfork. cbn.
    rewrite unit_purge_and_target_S. cbn. rewrite unit_enter_state_S. cbn.
    eexists _, _. by repeat split.
  - intros Hme. rewrite unit_enter_poststart_S. cbn.
    destruct (me UM_POSTSTART) as [cmd|]; [|done].
    unit_unfold. rewrite Hfork. cbn.
    rewrite unit_purge_and_target_S. cbn. rewrite unit_enter_state_S. cbn.
    eexists _, _. by repeat split.
  - intros Hme. rewrite unit_enter_stop_S. cbn.
    destruct (me UM_STOP) as [cmd|]; [|done].
    unit_unfold. rewrite Hfork. cbn.
    rewrite unit_purge_and_target_S. cbn. rewrite unit_enter_state_S. cbn.
    eexists _, _. by repeat split.
Qed.


(** *** Stopping *)

Section ExitFlags.
Variable S16ExitWasAbnormal : Z -> bool.

Lemma exits_cons n p l flags unit m :
  exits S16ExitWasAbnormal n (p :: l) flags unit m
  = do r <- unit_ptevent S16ExitWasAbnormal n unit m (exit_of p flags);
    exits S16ExitWasAbnormal n l flags (fst r) (snd r).
Proof. reflexivity. Qed.

Lemma exits_nil n flags unit m : exits S16ExitWasAbnormal n [] flags unit m = Ok (unit, m).
Proof. reflexivity. Qed.

Lemma pid_list_del_head p l : pid_list_del (p :: l) p = l.
Proof. simpl. by rewrite decide_True. Qed.

Lemma stopterm_exits n flags l :
  forall unit m,
    state unit = US_STOPTERM -> pids unit = l -> l <> [] ->
    target unit = UkS16StateOffline \/ target unit = UkS16StateMaintenance ->
    exists unit' m',
      exits S16ExitWasAbnormal (S n) l flags unit m = Ok (unit', m')
      /\ state unit' = target unit /\ pids unit' = []
      /\ signals m' = signals m /\ forks m' = forks m
      /\ fail_cnt unit' = fail_cnt unit
      /\ (pt m = l -> pt m' = []).
Proof.
  induction l as [|p l IH]; intros unit m Hst Hps Hne Htg; [done|].
  rewrite exits_cons. rewrite unit_ptevent_exit_stopping
    by (unfold unit_stopping; rewrite Hst; done).
  rewrite Hst. cbv zeta. cbn [pids set_pids]. rewrite Hps, pid_list_del_head.
  destruct l as [|q l].
  - cbn [LL_empty]. unfold unit_enter_stopkill. cbn [pids set_pids LL_empty].
    rewrite unit_enter_state_S. cbn [target set_pids].
    destruct unit as [pa ty me st ta mp sp ps ti mr fc].
    destruct m as [pt_ ts_ nx fp fk sg rp cu]. cbn in *.
    destruct Htg as [-> | ->]; unit_unfold; rewrite exits_nil;
      eexists _, _; (split; [reflexivity|]); cbn; repeat split; try done;
      intros ->; exact (pid_list_del_head p []).
  - cbn [LL_empty bind fst snd].
    destruct (IH (set_pids (q :: l) unit) (S16ProcessTrackerDisregardPID m p))
      as (unit' & m' & Hrun & Hs & Hp & Hsig & Hfk & Hfc & Hpt);
      [by destruct unit | by destruct unit | done | by destruct unit|].
    exists unit', m'. split; [exact Hrun|].
    destruct unit as [pa ty me st ta mp sp ps ti mr fc].
    destruct m as [pt_ ts_ nx fp fk sg rp cu]. cbn in *.
    repeat split; try done. intros ->. apply Hpt. exact (pid_list_del_head p (q :: l)).
Qed.

(** A stopping unit reaches its target when its last process has gone.  A
    unit in US_STOPTERM that is headed for Offline or Maintenance, whose
    tracked processes exit one after the other: each exit but the last leaves
    it in US_STOPTERM, and the last one takes it to its target, whatever the
    exit flags say.  No signal is sent and nothing is forked on the way, no
    fail counter moves, and a watch list that held the same PIDs is empty at
    the end. *)
Theorem stopterm_completes (n : nat) (flags : Z) (unit : Unit) (m : Manager)
    (Hst : state unit = US_STOPTERM) (Hne : pids unit <> [])
    (Htg : target unit = UkS16StateOffline \/ target unit = UkS16StateMaintenance) :
  exists unit' m',
    exits S16ExitWasAbnormal (S n) (pids unit) flags unit m = Ok (unit', m')
    /\ state unit' = target unit /\ pids unit' = []
    /\ signals m' = signals m /\ forks m' = forks m
    /\ fail_cnt unit' = fail_cnt unit
    /\ (pt m = pids unit -> pt m' = []).
Proof.
  destruct (stopterm_exits n flags (pids unit) unit m Hst eq_refl Hne Htg)
    as (unit' & m' & Hrun & Hrest).
  exists unit', m'. split; [exact Hrun | exact Hrest].
Qed.

(** *** A start that goes well *)

(** The PreStart method of a U_SIMPLE unit without a PostStart method exits
    normally.  The unit forks its Start method and is then as far as it goes:
    its state is US_START (unit_enter_online does not move it), the new
    process is its main PID and the only one it tracks, the PreStart timer is
    gone, no fail counter has moved.  When that process later exits normally,
    unit_ptevent takes it off the list and does nothing else: the unit stays
    in US_START with no process; nothing is forked and no signal is sent. *)
Theorem prestart_success_starts (n : nat) (k : Z) (flags : Z) (unit : Unit) (m : Manager)
    (Hpre : in_prestart k unit m) (Hty : type unit = U_SIMPLE)
    (Hpost : methods unit UM_POSTSTART = None)
    (Hrepo : path unit <> S16PathOfRepository m)
    (Hok : S16ExitWasAbnormal flags = false) :
  exists unit' m',
    unit_ptevent S16ExitWasAbnormal (S (S (S (S n)))) unit m (exit_of (main_pid unit) flags)
    = Ok (unit', m')
    /\ state unit' = US_START /\ target unit' = US_START
    /\ main_pid unit' = fork_pid m (forks m) /\ pids unit' = [fork_pid m (forks m)]
    /\ fail_cnt unit' = fail_cnt unit
    /\ ts m' = (if timer_id unit =? 0 then ts m
                else filter (fun t => tm_id t <> timer_id unit) (ts m))
    /\ exists unit'' m'',
         unit_ptevent S16ExitWasAbnormal (S n) unit' m' (exit_of (main_pid unit') flags)
         = Ok (unit'', m'')
         /\ state unit'' = US_START /\ pids unit'' = [] /\ main_pid unit'' = 0
         /\ forks m'' = forks m' /\ signals m'' = signals m'.
Proof.
  destruct Hpre as (Hst & Hme & Hmp & Hps & Hk & Hf & Hts).
  destruct unit as [pa ty me st ta mp sp ps ti mr fc].
  destruct m as [pt_ ts_ nx fp fk sg rp cu]. cbn in *. subst st ps ty.
  pose proof (Hf fk) as Hfk. apply Z.eqb_neq in Hfk.
  unfold unit_ptevent at 1. unfold exit_of at 1. unit_unfold. dec_simp. rewrite Hok.
  destruct (ti =? 0) eqn:Hti.
  all: rewrite unit_purge_and_target_S; cbn; rewrite unit_enter_state_S; cbn;
    rewrite unit_enter_start_S; cbn; unit_unfold; rewrite Hfk; cbn; rewrite Hfk; cbn;
    rewrite unit_enter_poststart_S; cbn; rewrite Hpost; unit_unfold;
    rewrite (decide_False (P := pa = rp)) by done;
    eexists _, _; (split; [reflexivity|]); cbn;
    do 6 (split; [done|]);
    unfold unit_ptevent, exit_of; unit_unfold; dec_simp; rewrite Hok, Hti;
    eexists _, _; (split; [reflexivity|]); cbn; by repeat split.
Qed.

End ExitFlags.


(** *** The properties at work *)

Lemma stop_fork_failure_never_returns_witness :
  unit_enter_stop 9 UnitExamples.unit_with_stop UnitExamples.manager_fork_fails = OutOfFuel
  /\ unit_purge_and_target 9 UnitExamples.unit_with_stop UnitExamples.manager_fork_fails
     = OutOfFuel
  /\ (state UnitExamples.unit_with_stop = US_PRESTART
      \/ state UnitExamples.unit_with_stop = US_START ->
        forall id, unit_timer_event 9 UnitExamples.unit_with_stop
                     UnitExamples.manager_fork_fails id = OutOfFuel).
Proof.
  apply (stop_fork_failure_never_returns 9 UnitExamples.unit_with_stop
           UnitExamples.manager_fork_fails).
  - discriminate.
  - discriminate.
  - reflexivity.
Defined.

Lemma fork_failure_goes_to_maintenance_witness :
  exists unit' m',
    unit_enter_start 3 UnitExamples.unit_idle UnitExamples.manager_idle_fork_fails
    = Ok (unit', m')
    /\ state unit' = UkS16StateMaintenance /\ target unit' = UkS16StateMaintenance
    /\ pids unit' = [] /\ forks m' = S (forks UnitExamples.manager_idle_fork_fails)
    /\ ts m' = ts UnitExamples.manager_idle_fork_fails.
Proof.
  exact (proj1 (proj2 (fork_failure_goes_to_maintenance 0 UnitExamples.unit_idle
                         UnitExamples.manager_idle_fork_fails eq_refl eq_refl))).
Defined.

Lemma stopterm_completes_witness :
  exists unit' m',
    exits flags_nonzero 1 (pids UnitExamples.unit_in_stopterm) 1
          UnitExamples.unit_in_stopterm UnitExamples.manager_in_stopterm = Ok (unit', m')
    /\ state unit' = target UnitExamples.unit_in_stopterm /\ pids unit' = []
    /\ signals m' = signals UnitExamples.manager_in_stopterm
    /\ forks m' = forks UnitExamples.manager_in_stopterm
    /\ fail_cnt unit' = fail_cnt UnitExamples.unit_in_stopterm
    /\ (pt UnitExamples.manager_in_stopterm = pids UnitExamples.unit_in_stopterm ->
        pt m' = []).
Proof.
  apply (stopterm_completes flags_nonzero 0 1 UnitExamples.unit_in_stopterm
           UnitExamples.manager_in_stopterm).
  - reflexivity.
  - discriminate.
  - by left.
Defined.

Lemma prestart_success_starts_witness :
  exists unit' m',
    unit_ptevent flags_nonzero 4 unit_in_prestart manager_in_prestart
                 (exit_of (main_pid unit_in_prestart) 0) = Ok (unit', m')
    /\ state unit' = US_START /\ target unit' = US_START
    /\ main_pid unit' = fork_pid manager_in_prestart (forks manager_in_prestart)
    /\ pids unit' = [fork_pid manager_in_prestart (forks manager_in_prestart)]
    /\ fail_cnt unit' = fail_cnt unit_in_prestart
    /\ ts m' = (if timer_id unit_in_prestart =? 0 then ts manager_in_prestart
                else filter (fun t => tm_id t <> timer_id unit_in_prestart)
                            (ts manager_in_prestart))
    /\ exists unit'' m'',
         unit_ptevent flags_nonzero 1 unit' m' (exit_of (main_pid unit') 0)
         = Ok (unit'', m'')
         /\ state unit'' = US_START /\ pids unit'' = [] /\ main_pid unit'' = 0
         /\ forks m'' = forks m' /\ signals m'' = signals m'.
Proof.
  apply (prestart_success_starts flags_nonzero 0 0 0 unit_in_prestart manager_in_prestart).
  - apply unit_in_prestart_ok.
  - reflexivity.
  - reflexivity.
  - discriminate.
  - reflexivity.
Defined.

End RestartdProps.
